(** * pyfixest formula parser: a shallow embedding of [pyfixest/FormulaParser.py]

    The Python module turns a compact regression formula such as
    ["Y ~ X1 + csw(X2, X3) | fe"] into the list of concrete formulas to be
    estimated.  Everything in it is a transformation of strings, lists of
    strings and small dictionaries, so the embedding is a set of executable
    Rocq functions over [string], [list string] and insertion-ordered
    association lists, with Python exceptions made explicit in a result type.

    Conventions of the embedding:
    - a Python [str] is a [string], so its characters are the code points
      below 256; formulas with other characters are outside the model;
    - a Python [dict] is an association list kept in insertion order, because
      [get_var_dict] reads [dict.values()] in that order;
    - a raised exception is [Error e]; the order in which the source evaluates
      its statements is the order of the binds. *)

From Stdlib Require Import String Ascii List Bool Arith PeanoNat Lia.
Import ListNotations.

Open Scope string_scope.
Open Scope list_scope.

(** ** Exceptions and the result monad *)

(** The exceptions the module can raise, one constructor per raise site or
    per failing built-in operation. *)
Inductive exn : Type :=
| ValueError_unpack            (* [a, b = s.split(...)] with a length other than 2 *)
| UnboundLocalError            (* a local read before any branch assigned it *)
| ValueError_underdetermined   (* "The IV system is underdetermined. ..." *)
| ValueError_overdetermined    (* "The IV system is overdetermined. ..." *)
| ValueError_unsupported_switch (* "Unsupported switch type" *)
| ValueError_not_in_list       (* [list.index(x)] with [x] absent *)
| DuplicateKeyError            (* class DuplicateKeyError *)
| KeyError                     (* [d[k]] with [k] absent *)
| Exception_not_valid_formula  (* Exception("Not a valid formula provided.") *)
| TypeError_not_iterable       (* [for x in None] *)
| AttributeError_NoneType      (* [None.values()] *)
| IndexError.                  (* [l[-1]] on an empty list *)

Inductive result (A : Type) : Type :=
| Ok (a : A)
| Error (e : exn).

Arguments Ok {A} a.
Arguments Error {A} e.

Definition bind {A B : Type} (r : result A) (k : A -> result B) : result B :=
  match r with
  | Ok a => k a
  | Error e => Error e
  end.

Notation "x <- r ;; k" := (bind r (fun x => k))
  (at level 61, r at next level, right associativity).
Notation "' p <- r ;; k" := (bind r (fun x => let p := x in k))
  (at level 61, p pattern, r at next level, right associativity).

(** A [for] loop whose body may raise and which threads a state. *)
Fixpoint for_each {A S : Type} (l : list A) (body : S -> A -> result S) (s : S)
  : result S :=
  match l with
  | [] => Ok s
  | a :: l' => s' <- body s a ;; for_each l' body s'
  end.

(** ** Python strings *)

Module Py.

Definition add (s t : string) : string := String.append s t.

(** [len(s)] *)
Definition len (s : string) : nat := String.length s.

(** Truth value of a string or of a list: non-empty. *)
Definition truthy (s : string) : bool :=
  match s with EmptyString => false | String _ _ => true end.

Definition nonempty {A : Type} (l : list A) : bool :=
  match l with [] => false | _ :: _ => true end.

(** [s.split(sep)] for a one-character separator: never the empty list,
    empty fields are kept. *)
Fixpoint split (sep : ascii) (s : string) : list string :=
  match s with
  | EmptyString => [EmptyString]
  | String c r =>
      if Ascii.eqb c sep then EmptyString :: split sep r
      else match split sep r with
           | [] => [String c EmptyString]
           | field :: fields => String c field :: fields
           end
  end.

(** [sep.join(l)] *)
Fixpoint join (sep : string) (l : list string) : string :=
  match l with
  | [] => EmptyString
  | s :: l' =>
      match l' with
      | [] => s
      | _ :: _ => add s (add sep (join sep l'))
      end
  end.

(** [c in s] for a one-character [c]. *)
Fixpoint contains (c : ascii) (s : string) : bool :=
  match s with
  | EmptyString => false
  | String c' r => Ascii.eqb c' c || contains c r
  end.

(** [str.isspace] on the code points below 256: TAB..CR, FS..US, SPACE,
    NEL and NBSP. *)
Definition isspace (c : ascii) : bool :=
  let n := nat_of_ascii c in
  (Nat.leb 9 n && Nat.leb n 13) || (Nat.leb 28 n && Nat.leb n 32)
  || Nat.eqb n 133 || Nat.eqb n 160.

(** ["".join(s.split())]: [split] without a separator cuts at runs of
    white space and drops empty fields, so joining the fields with the
    empty string erases exactly the white-space characters. *)
Fixpoint join_split_ws (s : string) : string :=
  match s with
  | EmptyString => EmptyString
  | String c r => if isspace c then join_split_ws r else String c (join_split_ws r)
  end.

(** [l.index(x)] *)
Fixpoint index (x : string) (l : list string) : result nat :=
  match l with
  | [] => Error ValueError_not_in_list
  | y :: l' => if String.eqb y x then Ok 0 else i <- index x l' ;; Ok (S i)
  end.

(** [l[i] = v] for [i] in range (the only use in the module takes [i] from
    [index], so the out-of-range [IndexError] never arises and the list is
    returned unchanged there). *)
Fixpoint setitem (l : list string) (i : nat) (v : string) : list string :=
  match l, i with
  | [], _ => []
  | _ :: l', 0 => v :: l'
  | y :: l', S i' => y :: setitem l' i' v
  end.

(** [a, b = l] *)
Definition unpack2 (l : list string) : result (string * string) :=
  match l with
  | [a; b] => Ok (a, b)
  | _ => Error ValueError_unpack
  end.

(** [l[-1]] and [l[:-1]] *)
Definition last (l : list string) : result string :=
  match l with
  | [] => Error IndexError
  | _ :: _ => Ok (List.last l EmptyString)
  end.

Definition but_last (l : list string) : list string := List.removelast l.

(** [x in l] for a list of strings. *)
Definition mem (x : string) (l : list string) : bool :=
  existsb (String.eqb x) l.

End Py.

Infix "+s" := Py.add (at level 50, left associativity).

(** ** Python dictionaries, in insertion order *)

Section Dict.
Variable V : Type.

Definition dict : Type := list (string * V).

Fixpoint dict_get (d : dict) (k : string) : option V :=
  match d with
  | [] => None
  | (k', v) :: d' => if String.eqb k' k then Some v else dict_get d' k
  end.

(** [k in d] *)
Definition dict_in (d : dict) (k : string) : bool :=
  match dict_get d k with Some _ => true | None => false end.

(** [d[k] = v]: an existing key keeps its position, a new key goes last. *)
Fixpoint dict_set (d : dict) (k : string) (v : V) : dict :=
  match d with
  | [] => [(k, v)]
  | (k', v') :: d' =>
      if String.eqb k' k then (k', v) :: d' else (k', v') :: dict_set d' k v
  end.

(** [d[k]] *)
Definition dict_item (d : dict) (k : string) : result V :=
  match dict_get d k with Some v => Ok v | None => Error KeyError end.

Definition dict_keys (d : dict) : list string := map fst d.
Definition dict_values (d : dict) : list V := map snd d.
End Dict.

Arguments dict_get {V} d k.
Arguments dict_in {V} d k.
Arguments dict_set {V} d k v.
Arguments dict_item {V} d k.
Arguments dict_keys {V} d.
Arguments dict_values {V} d.

(** ** [_find_sw]: the switch extractor *)

(** The two regular-expression ingredients.  Every pattern of [_find_sw] is
    [kw\((.*?)\)] for a literal keyword [kw]; only the first element of
    [re.findall] and its emptiness are ever used. *)

(** [strip_prefix p s] is [Some r] when [s = p ++ r]. *)
Fixpoint strip_prefix (p s : string) : option string :=
  match p, s with
  | EmptyString, _ => Some s
  | String _ _, EmptyString => None
  | String a p', String b s' => if Ascii.eqb a b then strip_prefix p' s' else None
  end.

(** The lazy group followed by the closing parenthesis, [(.*?)\)], matched at
    the head of [s]: the text before the first [")"], provided no newline
    comes first ([.] does not match a newline). *)
Fixpoint lazy_group (s : string) : option string :=
  match s with
  | EmptyString => None
  | String c r =>
      if Ascii.eqb c ")" then Some EmptyString
      else if Ascii.eqb c "010" then None
      else option_map (String c) (lazy_group r)
  end.

(** The match of [kw\((.*?)\)] anchored at the head of [s]. *)
Definition match_here (kw s : string) : option string :=
  match strip_prefix (kw +s "(") s with
  | Some r => lazy_group r
  | None => None
  end.

(** [re.findall(kw\((.*?)\), x)], reduced to its first element: [None] is the
    empty list, [Some g] a list whose element 0 is the group [g]. *)
Fixpoint findall_first (kw x : string) : option string :=
  match x with
  | EmptyString => None
  | String _ r =>
      match match_here kw x with
      | Some g => Some g
      | None => findall_first kw r
      end
  end.

(** The pair returned by [_find_sw]: [(varlist, sw_type)] on a match,
    [(x, None)] otherwise. *)
Inductive find_sw_result : Type :=
| Found (varlist : list string) (sw_type : string)
| NotFound (x : string).

Definition _find_sw (x : string) : find_sw_result :=
  let sw_match := findall_first "sw" x in
  let csw_match := findall_first "csw" x in
  let sw0_match := findall_first "sw0" x in
  let csw0_match := findall_first "csw0" x in
  let i_match := findall_first "i" x in
  match sw_match with
  | Some sw0th =>
      match csw_match with
      | Some csw0th => Found (Py.split "," csw0th) "csw"
      | None => Found (Py.split "," sw0th) "sw"
      end
  | None =>
      match sw0_match with
      | Some sw00th =>
          match csw0_match with
          | Some csw00th => Found (Py.split "," csw00th) "csw0"
          | None => Found (Py.split "," sw00th) "sw0"
          end
      | None =>
          match i_match with
          | Some i0th => Found (Py.split "," i0th) "i"
          | None => NotFound x
          end
      end
  end.

(** ** [_check_duplicate_key] and [_unpack_fml] *)

Definition group : Type := dict (list string).

Definition _check_duplicate_key (my_dict : group) (key : string) : result unit :=
  if String.eqb key "i" && dict_in my_dict "i" then Error DuplicateKeyError
  else
    for_each ["sw"; "csw"; "sw0"; "csw0"]
      (fun _ key => if dict_in my_dict key then Error DuplicateKeyError else Ok tt)
      tt.

(** One iteration of the loop of [_unpack_fml]. *)
Definition unpack_step (res_s : group) (var : string) : result group :=
  match _find_sw var with
  | NotFound _ =>
      constant <- dict_item res_s "constant" ;;
      Ok (dict_set res_s "constant" (constant ++ [var]))
  | Found varlist sw_type =>
      if Py.mem sw_type ["sw"; "sw0"; "csw"; "csw0"; "i"] then
        _ <- _check_duplicate_key res_s sw_type ;;
        Ok (dict_set res_s sw_type varlist)
      else Error ValueError_unsupported_switch
  end.

Definition _unpack_fml (x : string) : result group :=
  let var_split := Py.split "+" x in
  let res_s := dict_set [] "constant" [] in
  for_each var_split unpack_step res_s.

(** ** [_pack_to_fml]: the expander *)

(** The local dictionary [res] of the source has the two keys ['constant'] and
    ['variable']; they are the two local values [constant] and [variable]
    here.  [const_fml] is a string in one branch and the empty list in the
    other; both are only tested for truth there, so the empty list is the
    empty string. *)
Definition _pack_to_fml (unpacked : group) : result (list string) :=
  constant0 <- (if dict_in unpacked "constant" then dict_item unpacked "constant"
                else Ok []) ;;
  constant <- (if dict_in unpacked "i" then
                 i <- dict_item unpacked "i" ;;
                 if Py.nonempty constant0 then Ok (constant0 ++ [Py.join ":" i])
                 else Ok [Py.join ":" i]
               else Ok constant0) ;;
  '(variable, variable_type) <-
     (if dict_in unpacked "csw" then
        v <- dict_item unpacked "csw" ;; Ok (v, Some "csw")
      else if dict_in unpacked "csw0" then
        v <- dict_item unpacked "csw0" ;; Ok (v, Some "csw0")
      else if dict_in unpacked "sw" then
        v <- dict_item unpacked "sw" ;; Ok (v, Some "sw")
      else if dict_in unpacked "sw0" then
        v <- dict_item unpacked "sw0" ;; Ok (v, Some "sw0")
      else Ok ([], None)) ;;
  let type_in (l : list string) : bool :=
    match variable_type with Some t => Py.mem t l | None => false end in
  let const_fml := if Py.nonempty constant then Py.join "+" constant else "" in
  let variable_fml :=
    if Py.nonempty variable then
      let variable_fml :=
        if type_in ["csw"; "csw0"] then
          map (fun i => Py.join "+" (firstn (i + 1) variable))
              (seq 0 (length variable))
        else
          map (fun i => nth i variable "") (seq 0 (length variable)) in
      if type_in ["sw0"; "csw0"] then "0" :: variable_fml else variable_fml
    else [] in
  if Py.nonempty variable_fml then
    if Py.truthy const_fml then
      let fml_list :=
        map (fun i => const_fml +s "+" +s nth i variable_fml "")
            (filter (fun i => negb (String.eqb (nth i variable_fml "") "0"))
                    (seq 0 (length variable_fml))) in
      if type_in ["sw0"; "csw0"] then Ok (const_fml :: fml_list) else Ok fml_list
    else Ok variable_fml
  else
    if Py.truthy const_fml then Ok [const_fml]
    else Error Exception_not_valid_formula.

(** ** [_flatten_list] *)

(** The lists handed to [_flatten_list] hold strings and lists, nested to any
    depth. *)
#[warnings="-register-all"]
Inductive pyobj : Type :=
| Str (s : string)
| Lst (l : list pyobj).

Fixpoint flatten_obj (i : pyobj) : list string :=
  match i with
  | Str s => [s]
  | Lst l => flat_map flatten_obj l
  end.

Definition _flatten_list (lst : list pyobj) : list string :=
  flat_map flatten_obj lst.

(** A list of strings and a list of lists of strings as Python objects. *)
Definition strs (l : list string) : list pyobj := map Str l.
Definition lists (l : list (list string)) : list pyobj :=
  map (fun x => Lst (strs x)) l.

(** ** The class [FixestFormulaParser] *)

Module FixestFormulaParser.

(** The interaction dictionary [ivars] has the reference (or [None]) as its
    key. *)
Definition ivars_dict : Type := list (option string * list string).

(** An attribute that the constructor assigns on one path only and never
    sets to [None]: on the other path the instance does not have it, and
    reading it raises [AttributeError]. *)
Inductive attribute (A : Type) : Type :=
| Unassigned
| Assigned (a : A).

Arguments Unassigned {A}.
Arguments Assigned {A} a.

(** The attributes of an instance.  In the fields that the constructor
    always assigns, [None] is Python's [None].  [first_stage_covars_list] is
    assigned for an IV formula only (line 90; the other branch, lines 94-97,
    does not mention it), so it is an [attribute].  The four dictionaries of
    the [get_*] methods do not exist until the method has run: there [None]
    stands for the missing attribute. *)
Record t : Type := mk {
  depvars : list string;
  covars : group;
  fevars : group;
  endogvars : option string;
  instruments : option string;
  is_iv : bool;
  first_stage_covars_list : attribute string;
  covars_first_stage : option group;
  depvars_first_stage : option string;
  ivars : option ivars_dict;
  covars_fml : list string;
  fevars_fml : list string;
  covars_first_stage_fml : option (list string);
  fml_dict : option (dict (list string));
  fml_dict_iv : option (dict (list string));
  var_dict : option (dict (list string));
  var_dict_iv : option (dict (list string))
}.

(** Lines 48-68: the four strings cut out of the formula.  [endogvars] and
    [instruments] are assigned together, so they are one optional pair.
    With four segments or more no branch assigns [fevars], [endogvars] or
    [instruments], and the first read of [endogvars] (line 70) raises. *)
Definition tokenize (fml : string)
  : result (string * string * string * option (string * string)) :=
  let fml := Py.join_split_ws fml in
  let fml_split := Py.split "|" fml in
  '(depvars, covars) <- Py.unpack2 (Py.split "~" (nth 0 fml_split "")) ;;
  match length fml_split with
  | 1 => Ok (depvars, covars, "0", None)
  | 2 =>
      if Py.contains "~" (nth 1 fml_split "") then
        '(endogvars, instruments) <- Py.unpack2 (Py.split "~" (nth 1 fml_split "")) ;;
        Ok (depvars, covars, "0", Some (endogvars, instruments))
      else Ok (depvars, covars, nth 1 fml_split "", None)
  | 3 =>
      '(endogvars, instruments) <- Py.unpack2 (Py.split "~" (nth 2 fml_split "")) ;;
      Ok (depvars, covars, nth 1 fml_split "", Some (endogvars, instruments))
  | _ => Error UnboundLocalError
  end.

(** Lines 70-76. *)
Definition check_determinacy (iv : option (string * string)) : result unit :=
  match iv with
  | Some (endogvars, instruments) =>
      if Nat.ltb (Py.len instruments) (Py.len endogvars)
      then Error ValueError_underdetermined
      else if Nat.ltb (Py.len endogvars) (Py.len instruments)
      then Error ValueError_overdetermined
      else Ok tt
  | None => Ok tt
  end.

(** Lines 86-97: the covariates of the first stage, as the joined string
    and its unpacked form. *)
Definition first_stage (covars : string) (iv : option (string * string))
  : result (option (string * group)) :=
  match iv with
  | Some (endogvars, instruments) =>
      let first_stage_covars_list := Py.split "+" covars in
      idx <- Py.index endogvars first_stage_covars_list ;;
      let first_stage_covars_list :=
        Py.setitem first_stage_covars_list idx instruments in
      let joined := Py.join "+" first_stage_covars_list in
      covars_first_stage <- _unpack_fml joined ;;
      Ok (Some (joined, covars_first_stage))
  | None => Ok None
  end.

(** Lines 99-113: the reference of the interaction group.  The result is
    [self.covars] after the assignment of line 105 and [self.ivars]. *)
Definition interaction_reference (covars : group)
  : result (group * option ivars_dict) :=
  match dict_get covars "i" with
  | Some i =>
      last <- Py.last i ;;
      let i_split := Py.split "=" last in
      if Nat.ltb 1 (length i_split) then
        let ref := nth 1 i_split "" in
        let ivar_list := Py.but_last i in
        Ok (dict_set covars "i" (Py.but_last i), Some [(Some ref, ivar_list)])
      else
        Ok (covars, Some [(None, i)])
  | None => Ok (covars, None)
  end.

Definition __init__ (fml : string) : result t :=
  '(depvars, covars, fevars, iv) <- tokenize fml ;;
  _ <- check_determinacy iv ;;
  let self_depvars := Py.split "+" depvars in
  self_covars <- _unpack_fml covars ;;
  self_fevars <- _unpack_fml fevars ;;
  first <- first_stage covars iv ;;
  '(self_covars, self_ivars) <- interaction_reference self_covars ;;
  self_covars_fml <- _pack_to_fml self_covars ;;
  self_fevars_fml <- _pack_to_fml self_fevars ;;
  self_covars_first_stage_fml <-
    match first with
    | Some (_, covars_first_stage) =>
        l <- _pack_to_fml covars_first_stage ;; Ok (Some l)
    | None => Ok None
    end ;;
  Ok {| depvars := self_depvars;
        covars := self_covars;
        fevars := self_fevars;
        endogvars := option_map fst iv;
        instruments := option_map snd iv;
        is_iv := match iv with Some _ => true | None => false end;
        first_stage_covars_list :=
          match first with
          | Some (joined, _) => Assigned joined
          | None => Unassigned
          end;
        covars_first_stage := option_map snd first;
        depvars_first_stage := option_map fst iv;
        ivars := self_ivars;
        covars_fml := self_covars_fml;
        fevars_fml := self_fevars_fml;
        covars_first_stage_fml := self_covars_first_stage_fml;
        fml_dict := None;
        fml_dict_iv := None;
        var_dict := None;
        var_dict_iv := None |}.

(** [for x in o] where [o] may be [None]. *)
Definition iter (o : option (list string)) : result (list string) :=
  match o with
  | Some l => Ok l
  | None => Error TypeError_not_iterable
  end.

(** The loops of [get_fml_dict]; the method stores the dictionary in
    [self.fml_dict_iv] or [self.fml_dict]. *)
Definition build_fml_dict (self : t) (iv : bool) : result (dict (list string)) :=
  for_each (fevars_fml self)
    (fun fml_dict fevar =>
       res <- for_each (depvars self)
                (fun res depvar =>
                   if iv then
                     l <- iter (covars_first_stage_fml self) ;;
                     for_each l
                       (fun res covar => Ok (res ++ [depvar +s "~" +s covar])) res
                   else
                     for_each (covars_fml self)
                       (fun res covar => Ok (res ++ [depvar +s "~" +s covar])) res)
                [] ;;
       Ok (dict_set fml_dict fevar res))
    [].

Definition set_fml_dict (self : t) (iv : bool) (d : dict (list string)) : t :=
  if iv then
    mk (depvars self) (covars self) (fevars self) (endogvars self)
       (instruments self) (is_iv self) (first_stage_covars_list self)
       (covars_first_stage self) (depvars_first_stage self) (ivars self)
       (covars_fml self) (fevars_fml self) (covars_first_stage_fml self)
       (fml_dict self) (Some d) (var_dict self) (var_dict_iv self)
  else
    mk (depvars self) (covars self) (fevars self) (endogvars self)
       (instruments self) (is_iv self) (first_stage_covars_list self)
       (covars_first_stage self) (depvars_first_stage self) (ivars self)
       (covars_fml self) (fevars_fml self) (covars_first_stage_fml self)
       (Some d) (fml_dict_iv self) (var_dict self) (var_dict_iv self).

Definition get_fml_dict (self : t) (iv : bool) : result t :=
  fml_dict <- build_fml_dict self iv ;;
  Ok (set_fml_dict self iv fml_dict).

(** [list(o.values())] where [o] may be [None]. *)
Definition values_of (o : option group) : result (list (list string)) :=
  match o with
  | Some d => Ok (dict_values d)
  | None => Error AttributeError_NoneType
  end.

Definition build_var_dict (self : t) (iv : bool) : result (dict (list string)) :=
  if iv then
    for_each (fevars_fml self)
      (fun var_dict fevar =>
         values <- values_of (covars_first_stage self) ;;
         Ok (dict_set var_dict fevar
               (_flatten_list (strs (depvars self)) ++ _flatten_list (lists values))))
      []
  else
    for_each (fevars_fml self)
      (fun var_dict fevar =>
         Ok (dict_set var_dict fevar
               (_flatten_list (strs (depvars self))
                ++ _flatten_list (lists (dict_values (covars self))))))
      [].

Definition set_var_dict (self : t) (iv : bool) (d : dict (list string)) : t :=
  if iv then
    mk (depvars self) (covars self) (fevars self) (endogvars self)
       (instruments self) (is_iv self) (first_stage_covars_list self)
       (covars_first_stage self) (depvars_first_stage self) (ivars self)
       (covars_fml self) (fevars_fml self) (covars_first_stage_fml self)
       (fml_dict self) (fml_dict_iv self) (var_dict self) (Some d)
  else
    mk (depvars self) (covars self) (fevars self) (endogvars self)
       (instruments self) (is_iv self) (first_stage_covars_list self)
       (covars_first_stage self) (depvars_first_stage self) (ivars self)
       (covars_fml self) (fevars_fml self) (covars_first_stage_fml self)
       (fml_dict self) (fml_dict_iv self) (Some d) (var_dict_iv self).

Definition get_var_dict (self : t) (iv : bool) : result t :=
  var_dict <- build_var_dict self iv ;;
  Ok (set_var_dict self iv var_dict).

End FixestFormulaParser.

Module P := FixestFormulaParser.

(** ** [_transform_fml_dict] *)

(** The method regroups the formulas of [self.fml_dict] (or
    [self.fml_dict_iv]) by dependent variable.  It reads an attribute that
    exists only once [get_fml_dict] has run, and stores its result in the
    attribute [fml_dict2] (or [fml_dict2_iv]), which the constructor does not
    create: an instance with these two attributes is a [regrouped]. *)
Definition nested_dict : Type := dict (dict (list string)).

Record regrouped : Type := mk_regrouped {
  instance : P.t;
  fml_dict2 : option nested_dict;
  fml_dict2_iv : option nested_dict
}.

(** The outcomes of the method: it returns, it raises one of the exceptions
    above, or it raises the [AttributeError] of an attribute that was never
    set. *)
Inductive outcome (A : Type) : Type :=
| Returned (a : A)
| Raised (e : exn)
| AttributeError_missing.

Arguments Returned {A} a.
Arguments Raised {A} e.
Arguments AttributeError_missing {A}.

(** The body of the inner loop, for the key [fe]. *)
Definition regroup_step (fe : string) (fml_dict2 : nested_dict) (fml : string)
  : result nested_dict :=
  '(depvars, covars) <- Py.unpack2 (Py.split "~" fml) ;;
  inner <- dict_item fml_dict2 fe ;;
  match dict_get inner depvars with
  | None => Ok (dict_set fml_dict2 fe (dict_set inner depvars [covars]))
  | Some l => Ok (dict_set fml_dict2 fe (dict_set inner depvars (l ++ [covars])))
  end.

(** The two loops; the source writes them once for each of the two
    attributes. *)
Definition regroup (fml_dict : dict (list string)) : result nested_dict :=
  for_each (dict_keys fml_dict)
    (fun fml_dict2 fe =>
       let fml_dict2 := dict_set fml_dict2 fe [] in
       fmls <- P.iter (dict_get fml_dict fe) ;;
       for_each fmls (regroup_step fe) fml_dict2)
    [].

Definition _transform_fml_dict (self : regrouped) (iv : bool) : outcome regrouped :=
  if iv then
    match P.fml_dict_iv (instance self) with
    | None => AttributeError_missing
    | Some fml_dict_iv =>
        match regroup fml_dict_iv with
        | Ok d =>
            Returned (mk_regrouped (instance self) (fml_dict2 self) (Some d))
        | Error e => Raised e
        end
    end
  else
    match P.fml_dict (instance self) with
    | None => AttributeError_missing
    | Some fml_dict =>
        match regroup fml_dict with
        | Ok d =>
            Returned (mk_regrouped (instance self) (Some d) (fml_dict2_iv self))
        | Error e => Raised e
        end
    end.

(** ** Vocabulary of the statements *)

(** The switch keywords and the two properties that separate them. *)
Definition switch_family : list string := ["sw"; "csw"; "sw0"; "csw0"].

Definition is_switch (k : string) : bool := Py.mem k switch_family.
Definition is_cumulative (k : string) : bool := Py.mem k ["csw"; "csw0"].
Definition has_sentinel (k : string) : bool := Py.mem k ["sw0"; "csw0"].

(** The plain names of a group and its constant part: the names under
    ['constant'], then the colon-joined interaction token when the group has
    an [i] entry, joined by [+]. *)
Definition constants (u : group) : list string :=
  match dict_get u "constant" with Some c => c | None => [] end.

Definition constant_names (u : group) : list string :=
  constants u
  ++ match dict_get u "i" with Some i => [Py.join ":" i] | None => [] end.

Definition constant_part (u : group) : string := Py.join "+" (constant_names u).

(** The switch that [_pack_to_fml] expands: the first of [csw], [csw0], [sw],
    [sw0] that is a key of the group. *)
Definition selected (u : group) : list string * option string :=
  match dict_get u "csw" with
  | Some v => (v, Some "csw")
  | None =>
      match dict_get u "csw0" with
      | Some v => (v, Some "csw0")
      | None =>
          match dict_get u "sw" with
          | Some v => (v, Some "sw")
          | None =>
              match dict_get u "sw0" with
              | Some v => (v, Some "sw0")
              | None => ([], None)
              end
          end
      end
  end.

(** A variant joined to the constant part. *)
Definition with_constant (c v : string) : string :=
  if Py.truthy c then c +s "+" +s v else v.

(** The variants that the arguments of a switch stand for, before the
    constant part is added: prefixes for a cumulative switch, the arguments
    themselves otherwise. *)
Definition cumulative (args : list string) : list string :=
  map (fun k => Py.join "+" (firstn (k + 1) args)) (seq 0 (length args)).

Definition derived (kind : string) (args : list string) : list string :=
  if is_cumulative kind then cumulative args else args.

(** The sentinel variant as it is emitted. *)
Definition sentinel (c : string) : string := if Py.truthy c then c else "0".

(** The emitted variants without the leading sentinel of [sw0] and [csw0]. *)
Definition non_sentinel (kind : string) (vs : list string) : list string :=
  if has_sentinel kind then tl vs else vs.

(** The two stages applied to a group string. *)
Definition expand (x : string) : result (list string) :=
  u <- _unpack_fml x ;; _pack_to_fml u.

(** [_pack_to_fml] once the dictionary has been read: [c] is the constant
    part, [variable] and [t] the selected switch. *)
Definition pack_model (c : string) (variable : list string) (t : option string)
  : result (list string) :=
  let sent := match t with Some k => has_sentinel k | None => false end in
  let cum := match t with Some k => is_cumulative k | None => false end in
  let variable_fml :=
    if Py.nonempty variable then
      (if sent then ["0"] else [])
      ++ (if cum then cumulative variable else variable)
    else [] in
  if Py.nonempty variable_fml then
    if Py.truthy c then
      Ok ((if sent then [c] else [])
          ++ map (fun v => c +s "+" +s v)
                 (filter (fun v => negb (String.eqb v "0")) variable_fml))
    else Ok variable_fml
  else
    if Py.truthy c then Ok [c] else Error Exception_not_valid_formula.

(** The test of the comprehension that adds the constant part: with a
    non-empty constant part a variant equal to ["0"] is left out. *)
Definition kept (c v : string) : bool :=
  negb (Py.truthy c) || negb (String.eqb v "0").

(** The cumulative-switch property as the specification words it, for the
    group string [x]: the variants other than the sentinel are the [n]
    prefixes of the arguments, each joined to the constant part. *)
Definition cumulative_claim (x : string) : Prop :=
  forall u kind args,
    _unpack_fml x = Ok u ->
    is_cumulative kind = true ->
    dict_get u kind = Some args ->
    exists vs,
      _pack_to_fml u = Ok vs
      /\ non_sentinel kind vs
         = map (with_constant (constant_part u)) (cumulative args)
      /\ length (non_sentinel kind vs) = length args.

(** The sentinel property as the specification words it, for the group
    string [x]: the sentinel comes first and the [n] variants of the
    arguments follow it. *)
Definition sentinel_claim (x : string) : Prop :=
  forall u kind args,
    _unpack_fml x = Ok u ->
    has_sentinel kind = true ->
    dict_get u kind = Some args ->
    exists rest,
      _pack_to_fml u = Ok (sentinel (constant_part u) :: rest)
      /\ rest = map (with_constant (constant_part u)) (derived kind args)
      /\ length (sentinel (constant_part u) :: rest) = length args + 1.

(** The formulas of one fixed-effect key: every dependent variable with every
    covariate variant, dependent variables outermost. *)
Definition cross (depvars covariates : list string) : list string :=
  flat_map (fun depvar => map (fun covar => depvar +s "~" +s covar) covariates)
           depvars.

(** What [get_fml_dict(iv)] does on [self], given the covariate variants it
    iterates over: it returns, stores the dictionary [d] in the attribute of
    its stage, the keys of [d] are the fixed-effect variants, and each of
    them has the cross product as its value. *)
Definition fml_dict_spec (self : P.t) (iv : bool) (covariates : list string)
  : Prop :=
  exists self' d,
    P.get_fml_dict self iv = Ok self'
    /\ (if iv then P.fml_dict_iv self' else P.fml_dict self') = Some d
    /\ (forall k, dict_in d k = true <-> In k (P.fevars_fml self))
    /\ (forall fevar, In fevar (P.fevars_fml self) ->
        dict_get d fevar = Some (cross (P.depvars self) covariates))
    /\ length (cross (P.depvars self) covariates)
       = length (P.depvars self) * length covariates.

(** What [get_var_dict(iv)] does on [self], given the covariate structure it
    reads: every fixed-effect variant is a key, and every key has the same
    value, the dependent variables followed by the entries of the structure
    in the order of its keys. *)
Definition var_dict_spec (self : P.t) (iv : bool) (structure : group) : Prop :=
  exists self' d,
    P.get_var_dict self iv = Ok self'
    /\ (if iv then P.var_dict_iv self' else P.var_dict self') = Some d
    /\ (forall k, dict_in d k = true <-> In k (P.fevars_fml self))
    /\ (forall fevar, In fevar (P.fevars_fml self) ->
        dict_get d fevar
        = Some (P.depvars self ++ concat (dict_values structure)))
    /\ (forall k1 k2 v1 v2,
          dict_get d k1 = Some v1 -> dict_get d k2 = Some v2 -> v1 = v2).


(** The substitution of the first stage as the specification words it: the
    first token equal to [old] becomes [new]. *)
Fixpoint replace_first (old new : string) (l : list string) : list string :=
  match l with
  | [] => []
  | y :: l' =>
      if String.eqb y old then new :: l' else y :: replace_first old new l'
  end.

(** The first-stage property as the specification words it, for the formula
    [fml], and its example. *)
Definition first_stage_claim (fml : string) : Prop :=
  forall depvars covars fevars e z,
    P.tokenize fml = Ok (depvars, covars, fevars, Some (e, z)) ->
    P.check_determinacy (Some (e, z)) = Ok tt ->
    (In e (Py.split "+" covars) ->
     forall self, P.__init__ fml = Ok self ->
       exists vs,
         P.covars_first_stage_fml self = Some vs
         /\ expand (Py.join "+" (replace_first e z (Py.split "+" covars))) = Ok vs)
    /\ (~ In e (Py.split "+" covars) ->
        P.__init__ fml = Error ValueError_not_in_list).

Definition first_stage_example : Prop :=
  exists self,
    P.__init__ "Y~X1+X2|X3~X2~Z" = Ok self
    /\ P.covars_first_stage_fml self = Some ["X1+Z"].

(** The keywords met in a group string, token by token, and the sequences of
    keywords that [_unpack_fml] lets through: none, one keyword, or an
    interaction followed by a switch. *)
Definition token_kind (t : string) : list string :=
  match _find_sw t with
  | Found _ k => [k]
  | NotFound _ => []
  end.

Definition kinds (x : string) : list string :=
  flat_map token_kind (Py.split "+" x).

Definition kind_ok (k : string) : Prop := is_switch k = true \/ k = "i".

Definition accepted (ks : list string) : bool :=
  match ks with
  | [] => true
  | [_] => true
  | [k1; k2] => String.eqb k1 "i" && is_switch k2
  | _ => false
  end.

(** The same for the property as the specification words it: at most one
    switch keyword and at most one interaction. *)
Definition at_most_one_each (ks : list string) : bool :=
  Nat.leb (length (filter is_switch ks)) 1
  && Nat.leb (length (filter (String.eqb "i") ks)) 1.

Definition switch_then_interaction (ks : list string) : bool :=
  match ks with
  | [k1; k2] => is_switch k1 && String.eqb k2 "i"
  | _ => false
  end.

(** The outcome of the duplicate check against the keywords seen so far. *)
Definition duplicate (ks : list string) (k : string) : bool :=
  (String.eqb k "i" && Py.mem "i" ks)
  || Py.mem "sw" ks || Py.mem "csw" ks || Py.mem "sw0" ks || Py.mem "csw0" ks.

(** The invariant of the dictionary built by [_unpack_fml]. *)
Record well_formed (d : group) : Prop := {
  wf_constant : exists c, dict_get d "constant" = Some c;
  wf_keys : forall k args, dict_get d k = Some args -> k <> "constant" ->
            args <> [] /\ (is_switch k = true \/ k = "i");
  wf_one_switch : forall k1 k2, is_switch k1 = true -> is_switch k2 = true ->
                  dict_in d k1 = true -> dict_in d k2 = true -> k1 = k2
}.

(** ** Vocabulary of the further properties *)

(** A switch or interaction call as it is written in a formula. *)
Definition call (kw : string) (args : list string) : string :=
  kw +s "(" +s Py.join "," args +s ")".

(** The characters that end or separate the pieces of a group string; a name
    holds none of them. *)
Definition is_argument (s : string) : bool :=
  negb (Py.contains "(" s) && negb (Py.contains ")" s)
  && negb (Py.contains "," s) && negb (Py.contains "010" s).

Definition is_name (s : string) : bool :=
  is_argument s && negb (Py.contains "+" s).

(** Whether [_find_sw] leaves a token alone. *)
Definition is_plain (t : string) : bool :=
  match _find_sw t with
  | NotFound _ => true
  | Found _ _ => false
  end.

(** Which of the patterns of [_find_sw] match a token. *)
Definition matches (kw x : string) : bool :=
  match findall_first kw x with Some _ => true | None => false end.

(** The covariate variants of the formulas whose dependent variable is
    [depvar], in the order of the formulas. *)
Definition group_of (depvar : string) (depvars covariates : list string)
  : list string :=
  flat_map (fun y => if String.eqb y depvar then covariates else []) depvars.

(** A string of white space only. *)
Definition blank (s : string) : bool :=
  match Py.join_split_ws s with EmptyString => true | String _ _ => false end.

(** The first keyword of a list whose pattern matches a token, with the
    group of its first match. *)
Fixpoint first_match (kws : list string) (x : string) : option (string * string) :=
  match kws with
  | [] => None
  | kw :: kws' =>
      match findall_first kw x with
      | Some g => Some (kw, g)
      | None => first_match kws' x
      end
  end.

(** The characters that the expander writes itself. *)
Definition written (c : ascii) : bool :=
  Ascii.eqb c "+" || Ascii.eqb c ":" || Ascii.eqb c "0".

(** A group all of whose names are without the character [c]. *)
Definition group_free (c : ascii) (u : group) : Prop :=
  forall k v a, dict_get u k = Some v -> In a v -> Py.contains c a = false.

(** The characters that cannot occur in a dependent variable or a covariate
    variant of an instance: the two separators of the formula and white
    space. *)
Definition separator (c : ascii) : bool :=
  Ascii.eqb c "~" || Ascii.eqb c "|" || Py.isspace c.

(** The list that a regrouped dictionary holds for a dependent variable,
    empty when the variable is not a key, and the effect of one formula
    [depvar~covar] on such a dictionary. *)
Definition entry (inner : dict (list string)) (depvar : string) : list string :=
  match dict_get inner depvar with Some l => l | None => [] end.

Definition add_formula (inner : dict (list string)) (depvar covar : string)
  : dict (list string) :=
  match dict_get inner depvar with
  | None => dict_set inner depvar [covar]
  | Some l => dict_set inner depvar (l ++ [covar])
  end.

(** No key of a regrouped dictionary holds the empty list. *)
Definition no_empty_entry (inner : dict (list string)) : Prop :=
  forall y l, dict_get inner y = Some l -> l <> [].

(** What [_transform_fml_dict] stores for the fixed-effect variant [fe]: a
    dictionary whose keys are the dependent variables that have a formula,
    each with the covariate variants of its formulas in their order. *)
Definition regrouped_entry (d2 : nested_dict) (fe : string)
           (depvars covariates : list string) : Prop :=
  exists inner,
    dict_get d2 fe = Some inner
    /\ forall depvar,
         dict_get inner depvar
         = if Py.nonempty (group_of depvar depvars covariates)
           then Some (group_of depvar depvars covariates)
           else None.

(** What [_transform_fml_dict(iv)] does on an instance on which
    [get_fml_dict(iv)] has run, given the covariate variants of the stage: it
    returns, stores a dictionary in the attribute of its stage and leaves the
    other one alone; the keys of the dictionary are the fixed-effect
    variants, and each holds the regrouped formulas. *)
Definition transform_spec (self : P.t) (self' : regrouped) (iv : bool)
           (covariates : list string) : Prop :=
  exists d2,
    _transform_fml_dict self' iv
    = Returned (if iv then mk_regrouped (instance self') (fml_dict2 self') (Some d2)
                else mk_regrouped (instance self') (Some d2) (fml_dict2_iv self'))
    /\ (forall fe, dict_in d2 fe = true <-> In fe (P.fevars_fml self))
    /\ (forall fe, In fe (P.fevars_fml self) ->
        regrouped_entry d2 fe (P.depvars self) covariates)
    /\ (NoDup (P.depvars self) -> covariates <> [] ->
        forall fe depvar,
          In fe (P.fevars_fml self) -> In depvar (P.depvars self) ->
          exists inner,
            dict_get d2 fe = Some inner
            /\ dict_get inner depvar = Some covariates).

(** * Properties *)

(** ** The functions on the examples of their docstrings and of the
       specification *)

Example find_sw_docstring :
  _find_sw "sw(var1, var2)" = Found ["var1"; " var2"] "sw".
Proof. reflexivity. Qed.

Example find_sw_prefers_csw :
  _find_sw "csw(a,b)" = Found ["a"; "b"] "csw"
  /\ _find_sw "csw0(a,b)" = Found ["a"; "b"] "csw0"
  /\ _find_sw "sw0(a,b)" = Found ["a"; "b"] "sw0"
  /\ _find_sw "i(a,b)" = Found ["a"; "b"] "i"
  /\ _find_sw "X1" = NotFound "X1".
Proof. repeat split; reflexivity. Qed.

Example expand_independent : expand "x+sw(a,b,c)" = Ok ["x+a"; "x+b"; "x+c"].
Proof. reflexivity. Qed.

Example scenario_cumulative :
  exists self,
    P.__init__ "Y ~ X1 + csw(X2, X3)" = Ok self
    /\ P.depvars self = ["Y"]
    /\ P.fevars_fml self = ["0"]
    /\ P.covars_fml self = ["X1+X2"; "X1+X2+X3"].
Proof. eexists. repeat split; reflexivity. Qed.

Example scenario_fixed_effects :
  exists self,
    P.__init__ "Y~X1|sw0(X2,X3)" = Ok self
    /\ P.fevars_fml self = ["0"; "X2"; "X3"]
    /\ P.covars_fml self = ["X1"]
    /\ option_map (fun m => P.fml_dict m)
                  (match P.get_fml_dict self false with
                   | Ok m => Some m | Error _ => None end)
       = Some (Some [("0", ["Y~X1"]); ("X2", ["Y~X1"]); ("X3", ["Y~X1"])]).
Proof. eexists. repeat split; reflexivity. Qed.

Example scenario_interaction :
  exists self,
    P.__init__ "Y + Y2 ~  i(X1, X2) |csw0(X3, X4)" = Ok self
    /\ P.depvars self = ["Y"; "Y2"]
    /\ P.covars_fml self = ["X1:X2"]
    /\ P.fevars_fml self = ["0"; "X3"; "X3+X4"]
    /\ P.ivars self = Some [(None, ["X1"; "X2"])].
Proof. eexists. repeat split; reflexivity. Qed.

(** ** Strings and lists *)

Lemma split_nonempty (sep : ascii) (s : string) : Py.split sep s <> [].
Proof.
  destruct s as [|c r]; simpl; [discriminate|].
  destruct (Ascii.eqb c sep); [discriminate|].
  destruct (Py.split sep r); discriminate.
Qed.

Lemma truthy_true (s : string) : Py.truthy s = true <-> s <> "".
Proof. destruct s; simpl; split; intros H; congruence. Qed.

Lemma join_nil_truthy (l : list string) :
  (if Py.nonempty l then Py.join "+" l else "") = Py.join "+" l.
Proof. destruct l; reflexivity. Qed.

Lemma add_assoc (a b c : string) : a +s b +s c = a +s (b +s c).
Proof.
  unfold Py.add. induction a as [|x a IH]; simpl; [reflexivity|now rewrite IH].
Qed.

Lemma join_cons2 (sep a b : string) (l : list string) :
  Py.join sep (a :: b :: l) = a +s sep +s Py.join sep (b :: l).
Proof. rewrite add_assoc. reflexivity. Qed.

(** A string that holds a [+] is not the sentinel. *)
Lemma plus_inside_not_zero (a r : string) : a +s "+" +s r <> "0".
Proof.
  unfold Py.add. destruct a as [|c a]; simpl; [discriminate|].
  destruct a; simpl; discriminate.
Qed.

Lemma join_two_not_zero (a b : string) (l : list string) :
  Py.join "+" (a :: b :: l) <> "0".
Proof. rewrite join_cons2. apply plus_inside_not_zero. Qed.

(** The comprehension [[f(l[i]) for i in range(len(l)) if p(l[i])]] is a
    filter followed by a map. *)
Lemma comprehension_shift {A B : Type} (f : A -> B) (p : A -> bool)
      (d a : A) (l : list A) (idx : list nat) :
  map (fun i => f (nth i (a :: l) d))
      (filter (fun i => p (nth i (a :: l) d)) (map S idx))
  = map (fun i => f (nth i l d)) (filter (fun i => p (nth i l d)) idx).
Proof.
  induction idx as [|i idx IH]; [reflexivity|].
  cbn [map filter].
  change (nth (S i) (a :: l) d) with (nth i l d).
  destruct (p (nth i l d)); cbn [map]; [|exact IH].
  change (nth (S i) (a :: l) d) with (nth i l d). now rewrite IH.
Qed.

Lemma comprehension_filter_map {A B : Type} (f : A -> B) (p : A -> bool)
      (d : A) (l : list A) :
  map (fun i => f (nth i l d)) (filter (fun i => p (nth i l d)) (seq 0 (length l)))
  = map f (filter p l).
Proof.
  induction l as [|a l IH]; [reflexivity|].
  cbn [length]. rewrite <- cons_seq, <- seq_shift.
  cbn [filter]. change (nth 0 (a :: l) d) with a.
  destruct (p a); cbn [map]; rewrite comprehension_shift, IH; reflexivity.
Qed.

Lemma filter_true {A : Type} (l : list A) : filter (fun _ => true) l = l.
Proof. induction l as [|a l IH]; [reflexivity|]. cbn [filter]. now rewrite IH. Qed.

Lemma comprehension_id {A : Type} (d : A) (l : list A) :
  map (fun i => nth i l d) (seq 0 (length l)) = l.
Proof.
  pose proof (comprehension_filter_map (fun x => x) (fun _ => true) d l) as H.
  cbv beta in H. rewrite !filter_true, map_id in H. exact H.
Qed.

Lemma cumulative_length (args : list string) :
  length (cumulative args) = length args.
Proof. unfold cumulative. now rewrite length_map, length_seq. Qed.

Lemma cumulative_nonempty (args : list string) :
  Py.nonempty (cumulative args) = Py.nonempty args.
Proof. destruct args; reflexivity. Qed.

(** Only the first prefix of a cumulative switch can be the string ["0"]. *)
Lemma cumulative_zero (args : list string) :
  In "0" (cumulative args) -> hd "" args = "0".
Proof.
  unfold cumulative. rewrite in_map_iff. intros (k & E & Hk).
  apply in_seq in Hk. destruct args as [|a [|b l]]; simpl in Hk; [lia| |].
  - destruct k; [|lia]. exact E.
  - destruct k as [|k]; [exact E|].
    exfalso. replace (S k + 1) with (S (S k)) in E by lia.
    cbn [firstn] in E. revert E. apply join_two_not_zero.
Qed.

(** ** Dictionaries *)

Lemma dict_get_set {V : Type} (d : dict V) (k k' : string) (v : V) :
  dict_get (dict_set d k v) k' = if String.eqb k k' then Some v else dict_get d k'.
Proof.
  induction d as [|[k0 v0] d IH]; cbn [dict_set dict_get].
  - reflexivity.
  - destruct (String.eqb_spec k0 k) as [->|Hk]; cbn [dict_get].
    + destruct (String.eqb k k'); reflexivity.
    + rewrite IH. destruct (String.eqb_spec k0 k') as [->|Hk'];
        [|reflexivity].
      destruct (String.eqb_spec k k'); congruence.
Qed.

Lemma dict_in_set {V : Type} (d : dict V) (k k' : string) (v : V) :
  dict_in (dict_set d k v) k' = String.eqb k k' || dict_in d k'.
Proof.
  unfold dict_in. rewrite dict_get_set. destruct (String.eqb k k'); reflexivity.
Qed.

Lemma dict_in_get {V : Type} (d : dict V) (k : string) :
  dict_in d k = true <-> exists v, dict_get d k = Some v.
Proof.
  unfold dict_in. destruct (dict_get d k) as [v|]; split.
  - eauto.
  - reflexivity.
  - discriminate.
  - intros [v H]. discriminate.
Qed.

Lemma dict_keys_set_new {V : Type} (d : dict V) (k : string) (v : V) :
  dict_in d k = false -> dict_set d k v = d ++ [(k, v)].
Proof.
  unfold dict_in. induction d as [|[k0 v0] d IH]; cbn [dict_set dict_get app].
  - reflexivity.
  - destruct (String.eqb k0 k); [discriminate|]. intros H. now rewrite IH.
Qed.

(** ** The switch extractor and the duplicate check *)

Lemma is_switch_cases (k : string) :
  is_switch k = true <-> k = "sw" \/ k = "csw" \/ k = "sw0" \/ k = "csw0".
Proof.
  unfold is_switch, switch_family, Py.mem. cbn [existsb].
  rewrite !orb_true_iff, !String.eqb_eq. intuition congruence.
Qed.

Ltac each_switch H :=
  apply is_switch_cases in H; destruct H as [->|[->|[->| ->]]].

Lemma find_sw_found (x : string) (varlist : list string) (t : string) :
  _find_sw x = Found varlist t ->
  varlist <> [] /\ (is_switch t = true \/ t = "i").
Proof.
  unfold _find_sw.
  destruct (findall_first "sw" x); [destruct (findall_first "csw" x)|
    destruct (findall_first "sw0" x); [destruct (findall_first "csw0" x)|
      destruct (findall_first "i" x)]];
    intros H; inversion H; subst; (split; [apply split_nonempty|]);
    try (left; reflexivity); try (right; reflexivity).
Qed.

Lemma find_sw_accepted (x : string) (varlist : list string) (t : string) :
  _find_sw x = Found varlist t ->
  Py.mem t ["sw"; "sw0"; "csw"; "csw0"; "i"] = true.
Proof.
  intros H. destruct (find_sw_found x varlist t H) as [_ [Ht| ->]]; [|reflexivity].
  each_switch Ht; reflexivity.
Qed.

(** The check lets a key through exactly when no switch keyword is a key of
    the dictionary yet and, for the key [i], when [i] is not a key either. *)
Lemma check_duplicate_key_ok (d : group) (key : string) :
  _check_duplicate_key d key = Ok tt <->
  (forall s, is_switch s = true -> dict_in d s = false)
  /\ (key = "i" -> dict_in d "i" = false).
Proof.
  unfold _check_duplicate_key. cbn [for_each].
  destruct (String.eqb_spec key "i") as [->|Hk]; cbn [andb].
  - destruct (dict_in d "i") eqn:Hi.
    + split; [discriminate|]. intros [_ H]. specialize (H eq_refl). discriminate.
    + destruct (dict_in d "sw") eqn:H1; cbn [bind];
        [split; [discriminate|intros [H _]; now rewrite (H "sw") in H1]|].
      destruct (dict_in d "csw") eqn:H2; cbn [bind];
        [split; [discriminate|intros [H _]; now rewrite (H "csw") in H2]|].
      destruct (dict_in d "sw0") eqn:H3; cbn [bind];
        [split; [discriminate|intros [H _]; now rewrite (H "sw0") in H3]|].
      destruct (dict_in d "csw0") eqn:H4; cbn [bind];
        [split; [discriminate|intros [H _]; now rewrite (H "csw0") in H4]|].
      split; [|reflexivity]. intros _. split; [|reflexivity].
      intros s Hs. each_switch Hs; assumption.
  - destruct (dict_in d "sw") eqn:H1; cbn [bind];
      [split; [discriminate|intros [H _]; now rewrite (H "sw") in H1]|].
    destruct (dict_in d "csw") eqn:H2; cbn [bind];
      [split; [discriminate|intros [H _]; now rewrite (H "csw") in H2]|].
    destruct (dict_in d "sw0") eqn:H3; cbn [bind];
      [split; [discriminate|intros [H _]; now rewrite (H "sw0") in H3]|].
    destruct (dict_in d "csw0") eqn:H4; cbn [bind];
      [split; [discriminate|intros [H _]; now rewrite (H "csw0") in H4]|].
    split; [|reflexivity]. intros _. split; [|congruence].
    intros s Hs. each_switch Hs; assumption.
Qed.

Lemma check_duplicate_key_error (d : group) (key : string) :
  _check_duplicate_key d key = Ok tt
  \/ _check_duplicate_key d key = Error DuplicateKeyError.
Proof.
  unfold _check_duplicate_key. cbn [for_each].
  destruct (String.eqb key "i" && dict_in d "i"); [now right|].
  destruct (dict_in d "sw"); [now right|]; cbn [bind].
  destruct (dict_in d "csw"); [now right|]; cbn [bind].
  destruct (dict_in d "sw0"); [now right|]; cbn [bind].
  destruct (dict_in d "csw0"); [now right|]; cbn [bind].
  now left.
Qed.

(** ** The unpacker keeps its dictionary well formed *)

Lemma switch_not_constant (k : string) :
  is_switch k = true \/ k = "i" -> String.eqb k "constant" = false.
Proof.
  intros [H| ->]; [|reflexivity].
  each_switch H; reflexivity.
Qed.

Lemma well_formed_init : well_formed (dict_set [] "constant" []).
Proof.
  split.
  - exists []. reflexivity.
  - intros k args H Hk. cbn [dict_set dict_get] in H.
    destruct (String.eqb_spec "constant" k); [congruence|discriminate].
  - intros k1 k2 H1 _ Hin. exfalso. unfold dict_in in Hin.
    cbn [dict_set dict_get] in Hin.
    destruct (String.eqb_spec "constant" k1) as [<-|]; [|discriminate].
    cbv in H1. discriminate.
Qed.

Lemma unpack_step_well_formed (d d' : group) (var : string) :
  well_formed d -> unpack_step d var = Ok d' -> well_formed d'.
Proof.
  intros [[c Hc] Hkeys Hone]. unfold unpack_step, dict_item.
  destruct (_find_sw var) as [varlist t|y] eqn:Hf.
  - rewrite (find_sw_accepted _ _ _ Hf).
    destruct (find_sw_found _ _ _ Hf) as [Hne Ht].
    destruct (check_duplicate_key_error d t) as [Hok|Herr]; rewrite ?Hok, ?Herr;
      cbn [bind]; [|discriminate].
    apply check_duplicate_key_ok in Hok. destruct Hok as [Hsw Hi].
    intros H; inversion H; subst d'; clear H.
    pose proof (switch_not_constant t Ht) as Htc.
    split.
    + exists c. rewrite dict_get_set, Htc. exact Hc.
    + intros k args. rewrite dict_get_set.
      destruct (String.eqb_spec t k) as [<-|Hneq].
      * intros H _. inversion H; subst. auto.
      * apply Hkeys.
    + intros k1 k2 H1 H2. rewrite !dict_in_set, (Hsw _ H1), (Hsw _ H2), !orb_false_r.
      rewrite !String.eqb_eq. congruence.
  - rewrite Hc. cbn [bind]. intros H; inversion H; subst d'; clear H.
    split.
    + eexists. rewrite dict_get_set. reflexivity.
    + intros k args. rewrite dict_get_set.
      destruct (String.eqb_spec "constant" k) as [<-|Hneq]; [congruence|].
      apply Hkeys.
    + intros k1 k2 H1 H2. rewrite !dict_in_set.
      rewrite (String.eqb_sym "constant" k1), (String.eqb_sym "constant" k2).
      rewrite !switch_not_constant by auto. cbn [orb]. now apply Hone.
Qed.

Lemma for_each_invariant {A S : Type} (I : S -> Prop) (body : S -> A -> result S)
      (l : list A) :
  (forall s a s', I s -> body s a = Ok s' -> I s') ->
  forall s s', I s -> for_each l body s = Ok s' -> I s'.
Proof.
  intros Hbody. induction l as [|a l IH]; cbn [for_each]; intros s s' Hs H.
  - inversion H; subst. exact Hs.
  - destruct (body s a) as [s1|e] eqn:Hb; cbn [bind] in H; [|discriminate].
    eapply IH; [|exact H]. eapply Hbody; eauto.
Qed.

Lemma unpack_well_formed (x : string) (u : group) :
  _unpack_fml x = Ok u -> well_formed u.
Proof.
  unfold _unpack_fml. apply for_each_invariant with (I := well_formed).
  - intros s a s' Hs Hb. eapply unpack_step_well_formed; eauto.
  - apply well_formed_init.
Qed.

(** In a well-formed group the switch that the expander selects is the one
    switch of the group. *)
Lemma selected_switch (u : group) (kind : string) (args : list string) :
  well_formed u -> is_switch kind = true -> dict_get u kind = Some args ->
  selected u = (args, Some kind) /\ args <> [].
Proof.
  intros [_ Hkeys Hone] Hk Hget.
  assert (Hin : dict_in u kind = true) by (apply dict_in_get; eauto).
  assert (Hother : forall k, is_switch k = true -> k <> kind -> dict_get u k = None).
  { intros k Hsw Hneq. destruct (dict_get u k) eqn:E; [|reflexivity].
    exfalso. apply Hneq. apply Hone; auto. apply dict_in_get; eauto. }
  split.
  - unfold selected. each_switch Hk; rewrite Hget;
      rewrite ?(Hother "csw"), ?(Hother "csw0"), ?(Hother "sw"), ?(Hother "sw0");
      try reflexivity; discriminate.
  - apply (Hkeys kind args Hget).
    apply String.eqb_neq, switch_not_constant. now left.
Qed.

Lemma selected_none (u : group) :
  (forall k, is_switch k = true -> dict_in u k = false) ->
  selected u = ([], None).
Proof.
  intros H. unfold selected.
  pose proof (H "csw" eq_refl) as H1. pose proof (H "csw0" eq_refl) as H2.
  pose proof (H "sw" eq_refl) as H3. pose proof (H "sw0" eq_refl) as H4.
  unfold dict_in in *.
  destruct (dict_get u "csw"); [discriminate|].
  destruct (dict_get u "csw0"); [discriminate|].
  destruct (dict_get u "sw"); [discriminate|].
  destruct (dict_get u "sw0"); [discriminate|reflexivity].
Qed.

(** ** Which groups the unpacker accepts *)

Lemma dict_in_mem_keys {V : Type} (d : dict V) (k : string) :
  dict_in d k = Py.mem k (dict_keys d).
Proof.
  unfold dict_in, dict_keys, Py.mem.
  induction d as [|[k0 v0] d IH]; cbn [dict_get map fst existsb]; [reflexivity|].
  rewrite (String.eqb_sym k k0).
  destruct (String.eqb k0 k); [reflexivity|exact IH].
Qed.

Lemma dict_keys_set_absent {V : Type} (d : dict V) (k : string) (v : V) :
  dict_in d k = false -> dict_keys (dict_set d k v) = dict_keys d ++ [k].
Proof.
  intros H. rewrite (dict_keys_set_new d k v H). unfold dict_keys.
  now rewrite map_app.
Qed.

Lemma dict_keys_set_present {V : Type} (d : dict V) (k : string) (v : V) :
  dict_in d k = true -> dict_keys (dict_set d k v) = dict_keys d.
Proof.
  unfold dict_in, dict_keys.
  induction d as [|[k0 v0] d IH]; cbn [dict_get dict_set map fst]; [discriminate|].
  destruct (String.eqb_spec k0 k) as [->|Hk]; cbn [map fst]; [reflexivity|].
  intros H. now rewrite IH.
Qed.

Lemma check_duplicate_key_keys (d : group) (ks : list string) (k : string) :
  dict_keys d = "constant" :: ks ->
  _check_duplicate_key d k
  = if duplicate ks k then Error DuplicateKeyError else Ok tt.
Proof.
  intros Hk. unfold _check_duplicate_key, duplicate. cbn [for_each].
  rewrite !dict_in_mem_keys, Hk.
  change (Py.mem "i" ("constant" :: ks)) with (Py.mem "i" ks).
  change (Py.mem "sw" ("constant" :: ks)) with (Py.mem "sw" ks).
  change (Py.mem "csw" ("constant" :: ks)) with (Py.mem "csw" ks).
  change (Py.mem "sw0" ("constant" :: ks)) with (Py.mem "sw0" ks).
  change (Py.mem "csw0" ("constant" :: ks)) with (Py.mem "csw0" ks).
  destruct (String.eqb k "i" && Py.mem "i" ks); [reflexivity|].
  destruct (Py.mem "sw" ks); [reflexivity|].
  destruct (Py.mem "csw" ks); [reflexivity|].
  destruct (Py.mem "sw0" ks); [reflexivity|].
  destruct (Py.mem "csw0" ks); reflexivity.
Qed.

Lemma kind_ok_cases (k : string) :
  kind_ok k <-> k = "sw" \/ k = "csw" \/ k = "sw0" \/ k = "csw0" \/ k = "i".
Proof. unfold kind_ok. rewrite is_switch_cases. tauto. Qed.

Ltac each_kind H :=
  apply kind_ok_cases in H; destruct H as [->|[->|[->|[->| ->]]]].

(** A keyword passes the check exactly when the sequence stays accepted. *)
Lemma accepted_snoc (ks : list string) (k : string) :
  accepted ks = true -> Forall kind_ok ks -> kind_ok k ->
  accepted (ks ++ [k]) = negb (duplicate ks k).
Proof.
  intros Ha Hks Hk. apply kind_ok_cases in Hk.
  destruct ks as [|k1 [|k2 [|k3 r]]]; cbn [accepted] in Ha; [| | |discriminate].
  - destruct Hk as [->|[->|[->|[->| ->]]]]; reflexivity.
  - inversion Hks as [|? ? H1 _]; subst. apply kind_ok_cases in H1.
    destruct H1 as [->|[->|[->|[->| ->]]]];
      destruct Hk as [->|[->|[->|[->| ->]]]]; reflexivity.
  - apply andb_true_iff in Ha. destruct Ha as [H1 H2].
    apply String.eqb_eq in H1. subst k1. each_switch H2;
      destruct Hk as [->|[->|[->|[->| ->]]]]; reflexivity.
Qed.

Lemma accepted_prefix (a b : list string) :
  accepted (a ++ b) = true -> accepted a = true.
Proof.
  destruct a as [|x [|y [|z a]]]; cbn [app accepted]; try reflexivity.
  - destruct b; [auto|discriminate].
  - discriminate.
Qed.

Lemma token_kind_ok (t : string) : Forall kind_ok (token_kind t).
Proof.
  unfold token_kind. destruct (_find_sw t) as [v k|y] eqn:E; [|constructor].
  constructor; [|constructor]. exact (proj2 (find_sw_found t v k E)).
Qed.

(** One iteration of the unpacker against the keywords seen so far. *)
Lemma unpack_step_keys (d : group) (ks : list string) (t : string) :
  dict_keys d = "constant" :: ks ->
  accepted ks = true -> Forall kind_ok ks ->
  if accepted (ks ++ token_kind t)
  then exists d', unpack_step d t = Ok d'
                  /\ dict_keys d' = "constant" :: ks ++ token_kind t
  else unpack_step d t = Error DuplicateKeyError.
Proof.
  intros Hkeys Ha Hks. unfold unpack_step, token_kind.
  destruct (_find_sw t) as [v k|y] eqn:E.
  - rewrite (find_sw_accepted t v k E).
    pose proof (proj2 (find_sw_found t v k E)) as Hk.
    rewrite (check_duplicate_key_keys d ks k Hkeys).
    rewrite (accepted_snoc ks k Ha Hks Hk).
    destruct (duplicate ks k) eqn:Hd; cbn [negb bind]; [reflexivity|].
    eexists. split; [reflexivity|].
    rewrite dict_keys_set_absent, Hkeys; [reflexivity|].
    rewrite dict_in_mem_keys, Hkeys.
    assert (Hc : Py.mem k ("constant" :: ks) = Py.mem k ks).
    { unfold Py.mem. cbn [existsb]. now rewrite (switch_not_constant k Hk). }
    rewrite Hc. unfold duplicate in Hd.
    apply kind_ok_cases in Hk.
    destruct Hk as [->|[->|[->|[->| ->]]]];
      cbn [String.eqb Ascii.eqb Bool.eqb andb orb] in Hd;
      destruct (Py.mem "i" ks), (Py.mem "sw" ks), (Py.mem "csw" ks),
        (Py.mem "sw0" ks), (Py.mem "csw0" ks); try discriminate; reflexivity.
  - rewrite app_nil_r, Ha. unfold dict_item.
    assert (Hin : dict_in d "constant" = true).
    { rewrite dict_in_mem_keys, Hkeys. reflexivity. }
    pose proof Hin as Hget. apply dict_in_get in Hget. destruct Hget as [c Hc].
    rewrite Hc. cbn [bind]. eexists. split; [reflexivity|].
    now rewrite dict_keys_set_present.
Qed.

Lemma unpack_loop_keys (tokens : list string) (d : group) (ks : list string) :
  dict_keys d = "constant" :: ks ->
  accepted ks = true -> Forall kind_ok ks ->
  if accepted (ks ++ flat_map token_kind tokens)
  then exists u, for_each tokens unpack_step d = Ok u
                 /\ dict_keys u = "constant" :: ks ++ flat_map token_kind tokens
  else for_each tokens unpack_step d = Error DuplicateKeyError.
Proof.
  revert d ks. induction tokens as [|t tokens IH]; intros d ks Hkeys Ha Hks;
    cbn [flat_map for_each].
  - rewrite app_nil_r, Ha. eauto.
  - pose proof (unpack_step_keys d ks t Hkeys Ha Hks) as Hstep.
    rewrite app_assoc.
    destruct (accepted (ks ++ token_kind t)) eqn:Hacc.
    + destruct Hstep as (d' & Hd' & Hk'). rewrite Hd'. cbn [bind].
      apply IH; [exact Hk'|exact Hacc|].
      apply Forall_app. split; [exact Hks|apply token_kind_ok].
    + rewrite Hstep. cbn [bind].
      destruct (accepted ((ks ++ token_kind t) ++ flat_map token_kind tokens))
        eqn:Hall; [|reflexivity].
      apply accepted_prefix in Hall. congruence.
Qed.

(** [_unpack_fml] returns exactly for the accepted keyword sequences, with
    the keywords as the keys of the group in the order of the tokens, and
    raises [DuplicateKeyError] for every other group. *)
Lemma unpack_accepts (x : string) :
  if accepted (kinds x)
  then exists u, _unpack_fml x = Ok u /\ dict_keys u = "constant" :: kinds x
  else _unpack_fml x = Error DuplicateKeyError.
Proof.
  unfold _unpack_fml, kinds.
  apply (unpack_loop_keys (Py.split "+" x) (dict_set [] "constant" []) []);
    [reflexivity|reflexivity|constructor].
Qed.

Lemma kind_count (ks : list string) :
  Forall kind_ok ks ->
  length (filter is_switch ks) + length (filter (String.eqb "i") ks) = length ks.
Proof.
  induction 1 as [|k ks Hk _ IH]; [reflexivity|].
  apply kind_ok_cases in Hk.
  destruct Hk as [->|[->|[->|[->| ->]]]]; cbn [filter];
    match goal with
    | |- context [if is_switch ?k then _ else _] =>
        let b := eval vm_compute in (is_switch k) in
        change (is_switch k) with b
    end;
    match goal with
    | |- context [if String.eqb "i" ?k then _ else _] =>
        let b := eval vm_compute in (String.eqb "i" k) in
        change (String.eqb "i" k) with b
    end; cbn [length]; lia.
Qed.

(** The accepted sequences are those with at most one switch and at most one
    interaction, except a switch followed by an interaction. *)
Lemma accepted_at_most_one_each (ks : list string) :
  Forall kind_ok ks ->
  accepted ks = at_most_one_each ks && negb (switch_then_interaction ks).
Proof.
  intros Hks. pose proof (kind_count ks Hks) as Hcount.
  destruct ks as [|k1 [|k2 [|k3 r]]].
  - reflexivity.
  - inversion Hks as [|? ? H1 _]; subst. apply kind_ok_cases in H1.
    destruct H1 as [->|[->|[->|[->| ->]]]]; reflexivity.
  - inversion Hks as [|? ? H1 H2]; subst. inversion H2 as [|? ? H3 _]; subst.
    apply kind_ok_cases in H1, H3.
    destruct H1 as [->|[->|[->|[->| ->]]]];
      destruct H3 as [->|[->|[->|[->| ->]]]]; reflexivity.
  - cbn [accepted switch_then_interaction negb]. rewrite andb_true_r.
    symmetry. unfold at_most_one_each. apply andb_false_iff.
    cbn [length] in Hcount.
    destruct (Nat.leb_spec (length (filter is_switch (k1 :: k2 :: k3 :: r))) 1);
      [|now left].
    destruct (Nat.leb_spec
                (length (filter (String.eqb "i") (k1 :: k2 :: k3 :: r))) 1);
      [|now right].
    lia.
Qed.

Lemma kinds_ok (x : string) : Forall kind_ok (kinds x).
Proof.
  unfold kinds. induction (Py.split "+" x) as [|t l IH]; cbn [flat_map];
    [constructor|].
  apply Forall_app. split; [apply token_kind_ok|exact IH].
Qed.

(** The extent of the duplicate check: a group unpacks exactly when it holds
    at most one switch and at most one interaction and is not a switch
    followed by an interaction; every other group raises
    [DuplicateKeyError]. *)
Lemma unpack_duplicate_iff (x : string) :
  ((exists u, _unpack_fml x = Ok u) <->
   at_most_one_each (kinds x) = true
   /\ switch_then_interaction (kinds x) = false)
  /\ (_unpack_fml x = Error DuplicateKeyError <->
      at_most_one_each (kinds x) = false
      \/ switch_then_interaction (kinds x) = true).
Proof.
  pose proof (unpack_accepts x) as H.
  rewrite (accepted_at_most_one_each (kinds x) (kinds_ok x)) in H.
  destruct (at_most_one_each (kinds x)), (switch_then_interaction (kinds x));
    cbn [andb negb] in H.
  - rewrite H. split; split; auto.
    + intros [u Hu]. discriminate Hu.
    + intros [_ E]. discriminate E.
  - destruct H as (u & Hu & _). rewrite Hu. split; split; eauto.
    + discriminate.
    + intros [E|E]; discriminate E.
  - rewrite H. split; split; auto.
    + intros [u Hu]. discriminate Hu.
    + intros [E _]. discriminate E.
  - rewrite H. split; split; auto.
    + intros [u Hu]. discriminate Hu.
    + intros [E _]. discriminate E.
Qed.

(** C6, the code at the failing input: the group [a+sw(b,c)+i(d,e)] holds one
    switch token and one interaction token, and unpacking it raises
    [DuplicateKeyError]; the same tokens with the interaction first unpack.
    The example of the specification, with two switches, raises as well. *)
Theorem interaction_after_switch_rejected :
  map _find_sw (Py.split "+" "a+sw(b,c)+i(d,e)")
  = [NotFound "a"; Found ["b"; "c"] "sw"; Found ["d"; "e"] "i"]
  /\ at_most_one_each (kinds "a+sw(b,c)+i(d,e)") = true
  /\ _unpack_fml "a+sw(b,c)+i(d,e)" = Error DuplicateKeyError
  /\ _unpack_fml "a+i(d,e)+sw(b,c)"
     = Ok [("constant", ["a"]); ("i", ["d"; "e"]); ("sw", ["b"; "c"])]
  /\ _unpack_fml "a+sw(b,c)+csw(d,e)" = Error DuplicateKeyError.
Proof. repeat split; reflexivity. Qed.

(** ** The expander, read off the dictionary *)

Lemma constant_append_ok (c0 : list string) (t : string) :
  (if Py.nonempty c0 then Ok (c0 ++ [t]) else Ok [t]) = Ok (c0 ++ [t]).
Proof. destruct c0; reflexivity. Qed.

(** The part of [_pack_to_fml] below the reading of the dictionary. *)
Lemma pack_tail_eq (constant variable : list string) (variable_type : option string) :
  (let type_in (l : list string) : bool :=
     match variable_type with Some t => Py.mem t l | None => false end in
   let const_fml := if Py.nonempty constant then Py.join "+" constant else "" in
   let variable_fml :=
     if Py.nonempty variable then
       let variable_fml :=
         if type_in ["csw"; "csw0"] then
           map (fun i => Py.join "+" (firstn (i + 1) variable))
               (seq 0 (length variable))
         else
           map (fun i => nth i variable "") (seq 0 (length variable)) in
       if type_in ["sw0"; "csw0"] then "0" :: variable_fml else variable_fml
     else [] in
   if Py.nonempty variable_fml then
     if Py.truthy const_fml then
       let fml_list :=
         map (fun i => const_fml +s "+" +s nth i variable_fml "")
             (filter (fun i => negb (String.eqb (nth i variable_fml "") "0"))
                     (seq 0 (length variable_fml))) in
       if type_in ["sw0"; "csw0"] then Ok (const_fml :: fml_list) else Ok fml_list
     else Ok variable_fml
   else
     if Py.truthy const_fml then Ok [const_fml]
     else Error Exception_not_valid_formula)
  = pack_model (Py.join "+" constant) variable variable_type.
Proof.
  cbv zeta. rewrite join_nil_truthy. unfold pack_model, is_cumulative, has_sentinel.
  set (c := Py.join "+" constant).
  set (cum := match variable_type with
              | Some t => Py.mem t ["csw"; "csw0"] | None => false end).
  set (sent := match variable_type with
               | Some t => Py.mem t ["sw0"; "csw0"] | None => false end).
  rewrite comprehension_id. fold (cumulative variable).
  set (vf := if Py.nonempty variable
             then if sent then "0" :: (if cum then cumulative variable else variable)
                  else if cum then cumulative variable else variable
             else []).
  assert (Evf : (if Py.nonempty variable
                 then (if sent then ["0"] else [])
                      ++ (if cum then cumulative variable else variable)
                 else []) = vf).
  { unfold vf. destruct (Py.nonempty variable), sent; reflexivity. }
  rewrite Evf.
  pose proof (comprehension_filter_map (fun v => c +s "+" +s v)
                (fun v => negb (String.eqb v "0")) "" vf) as E.
  cbv beta in E. rewrite E.
  destruct (Py.nonempty vf), (Py.truthy c), sent; reflexivity.
Qed.

Lemma pack_eq (u : group) :
  _pack_to_fml u
  = pack_model (constant_part u) (fst (selected u)) (snd (selected u)).
Proof.
  unfold _pack_to_fml, constant_part, constant_names, constants, selected,
    dict_in, dict_item.
  destruct (dict_get u "constant") as [c0|];
    destruct (dict_get u "i") as [i|]; cbn [bind];
    rewrite ?constant_append_ok, ?app_nil_r; cbn [bind app].
  all: destruct (dict_get u "csw") as [v|];
    [|destruct (dict_get u "csw0") as [v|];
      [|destruct (dict_get u "sw") as [v|];
        [|destruct (dict_get u "sw0") as [v|]]]];
    cbn [bind fst snd].
  all: match goal with
       | |- _ = pack_model (Py.join "+" ?c) ?v ?t => exact (pack_tail_eq c v t)
       end.
Qed.

(** ** The expander on a group with a switch *)

Lemma with_constant_truthy (c : string) :
  Py.truthy c = true ->
  forall l, map (fun v => c +s "+" +s v) l = map (with_constant c) l.
Proof.
  intros Hc l. apply map_ext. intros v. unfold with_constant. now rewrite Hc.
Qed.

Lemma with_constant_empty (c : string) :
  Py.truthy c = false -> forall l, map (with_constant c) l = l.
Proof.
  intros Hc l. rewrite <- (map_id l) at 2. apply map_ext. intros v.
  unfold with_constant. now rewrite Hc.
Qed.

Lemma derived_nonempty (kind : string) (args : list string) :
  args <> [] -> Py.nonempty (derived kind args) = true.
Proof.
  intros H. unfold derived. destruct (is_cumulative kind);
    [rewrite cumulative_nonempty|]; (destruct args; [congruence|reflexivity]).
Qed.

Lemma derived_length (kind : string) (args : list string) :
  length (derived kind args) = length args.
Proof.
  unfold derived. destruct (is_cumulative kind); [apply cumulative_length|reflexivity].
Qed.

Lemma kept_all (c : string) (l : list string) :
  c = "" \/ ~ In "0" l -> filter (kept c) l = l.
Proof.
  intros H. apply forallb_filter_id, forallb_forall. intros v Hv. unfold kept.
  destruct H as [->|H]; [reflexivity|].
  destruct (String.eqb_spec v "0"); [subst; contradiction|apply orb_true_r].
Qed.

(** What [_pack_to_fml] returns for a well-formed group with a switch. *)
Lemma pack_switch (u : group) (kind : string) (args : list string) :
  well_formed u -> is_switch kind = true -> dict_get u kind = Some args ->
  _pack_to_fml u
  = Ok ((if has_sentinel kind then [sentinel (constant_part u)] else [])
        ++ map (with_constant (constant_part u))
               (filter (kept (constant_part u)) (derived kind args))).
Proof.
  intros Hwf Hk Hget.
  destruct (selected_switch u kind args Hwf Hk Hget) as [Hsel Hne].
  rewrite pack_eq, Hsel. cbn [fst snd]. unfold pack_model.
  fold (derived kind args).
  set (c := constant_part u). set (D := derived kind args).
  assert (HD : Py.nonempty D = true) by now apply derived_nonempty.
  assert (Hargs : Py.nonempty args = true)
    by (destruct args; [congruence|reflexivity]).
  rewrite Hargs.
  assert (Hvf : Py.nonempty ((if has_sentinel kind then ["0"] else []) ++ D) = true).
  { destruct (has_sentinel kind); [reflexivity|exact HD]. }
  rewrite Hvf. unfold sentinel, kept.
  destruct (Py.truthy c) eqn:Hc; cbn [negb orb].
  - rewrite with_constant_truthy by exact Hc.
    destruct (has_sentinel kind); reflexivity.
  - rewrite filter_true, with_constant_empty by exact Hc. reflexivity.
Qed.

Lemma cumulative_is_switch (kind : string) :
  is_cumulative kind = true -> is_switch kind = true.
Proof.
  unfold is_cumulative, Py.mem. cbn [existsb]. rewrite !orb_true_iff, !String.eqb_eq.
  intros [->|[->|H]]; try reflexivity; discriminate.
Qed.

Lemma sentinel_is_switch (kind : string) :
  has_sentinel kind = true -> is_switch kind = true.
Proof.
  unfold has_sentinel, Py.mem. cbn [existsb]. rewrite !orb_true_iff, !String.eqb_eq.
  intros [->|[->|H]]; try reflexivity; discriminate.
Qed.

(** ** Cumulative switches *)

Lemma filter_drops (f : string -> bool) (l : list string) (v : string) :
  In v l -> f v = false -> length (filter f l) < length l.
Proof.
  intros Hin Hf. induction l as [|a l IH]; [contradiction|].
  cbn [filter]. pose proof (filter_length_le f l) as Hle.
  destruct Hin as [->|Hin].
  - rewrite Hf. cbn [length]. lia.
  - specialize (IH Hin). destruct (f a); cbn [length]; lia.
Qed.

Lemma cumulative_head_zero (args : list string) :
  hd "" args = "0" -> In "0" (cumulative args).
Proof.
  destruct args as [|a l]; cbn [hd]; [discriminate|]. intros ->.
  unfold cumulative. apply in_map_iff. exists 0. split; [reflexivity|].
  apply in_seq. cbn [length]. lia.
Qed.

Lemma kept_zero (c : string) : c <> "" -> kept c "0" = false.
Proof. intros Hc. unfold kept. apply truthy_true in Hc. now rewrite Hc. Qed.

(** What the expander emits for a cumulative switch, and when that is what
    the specification describes: the prefixes that pass the test of line 384
    are joined to the constant part, and all [n] prefixes are emitted exactly
    when the constant part is empty or the first argument is not the string
    ["0"]. *)
Lemma cumulative_variants (x : string) (u : group) (kind : string)
      (args : list string) :
  _unpack_fml x = Ok u ->
  is_cumulative kind = true ->
  dict_get u kind = Some args ->
  exists vs,
    _pack_to_fml u = Ok vs
    /\ non_sentinel kind vs
       = map (with_constant (constant_part u))
             (filter (kept (constant_part u)) (cumulative args))
    /\ (non_sentinel kind vs = map (with_constant (constant_part u)) (cumulative args)
        /\ length (non_sentinel kind vs) = length args
        <-> constant_part u = "" \/ hd "" args <> "0").
Proof.
  intros Hu Hk Hget.
  pose proof (unpack_well_formed x u Hu) as Hwf.
  rewrite (pack_switch u kind args Hwf (cumulative_is_switch kind Hk) Hget).
  unfold derived. rewrite Hk.
  eexists. split; [reflexivity|].
  assert (E : forall l,
             non_sentinel kind
               ((if has_sentinel kind then [sentinel (constant_part u)] else [])
                ++ l) = l).
  { intros l. unfold non_sentinel. destruct (has_sentinel kind); reflexivity. }
  rewrite E. split; [reflexivity|]. split.
  - intros [_ Hlen]. rewrite length_map in Hlen.
    destruct (string_dec (constant_part u) "") as [Hc|Hc]; [now left|right].
    intros Hhd.
    pose proof (filter_drops (kept (constant_part u)) (cumulative args) "0"
                  (cumulative_head_zero args Hhd) (kept_zero _ Hc)) as Hlt.
    rewrite cumulative_length in Hlt. lia.
  - intros Hz. rewrite kept_all.
    + split; [reflexivity|]. now rewrite length_map, cumulative_length.
    + destruct Hz as [Hc|Hhd]; [now left|right].
      intros Hin. apply Hhd. now apply cumulative_zero.
Qed.

(** C2, the code at the failing input: the group [x+csw(0,a)] unpacks to the
    constant [x] and the cumulative switch with the two arguments [0] and
    [a], and the expander emits the single variant [x+0+a] where the
    specification has the two variants [x+0] and [x+0+a].  The first prefix
    is the string ["0"], and the test of line 384, written for the sentinel
    that line 378 prepends, takes it for that sentinel; the branch for an
    empty constant part (line 388) keeps it, so [csw(0,a)] alone expands as
    the specification says.  This is the only divergence: for every unpacked
    group with a cumulative switch the expander emits the [n] prefixes, each
    joined to the constant part, exactly when the constant part is empty or
    the first argument is not the string ["0"]; so [x+csw(a,b,c)] gives the
    three variants of the specification's example. *)
Theorem csw_zero_prefix_dropped :
  _unpack_fml "x+csw(0,a)" = Ok [("constant", ["x"]); ("csw", ["0"; "a"])]
  /\ _pack_to_fml [("constant", ["x"]); ("csw", ["0"; "a"])] = Ok ["x+0+a"]
  /\ ~ cumulative_claim "x+csw(0,a)"
  /\ expand "csw(0,a)" = Ok ["0"; "0+a"]
  /\ cumulative_claim "csw(0,a)"
  /\ expand "x+csw(a,b,c)" = Ok ["x+a"; "x+a+b"; "x+a+b+c"]
  /\ (forall x u kind args,
        _unpack_fml x = Ok u ->
        is_cumulative kind = true ->
        dict_get u kind = Some args ->
        exists vs,
          _pack_to_fml u = Ok vs
          /\ non_sentinel kind vs
             = map (with_constant (constant_part u))
                   (filter (kept (constant_part u)) (cumulative args))
          /\ (non_sentinel kind vs
              = map (with_constant (constant_part u)) (cumulative args)
              /\ length (non_sentinel kind vs) = length args
              <-> constant_part u = "" \/ hd "" args <> "0")).
Proof.
  split; [reflexivity|]. split; [reflexivity|]. split; [|split; [reflexivity|split]].
  - intros H.
    destruct (H [("constant", ["x"]); ("csw", ["0"; "a"])] "csw" ["0"; "a"]
                eq_refl eq_refl eq_refl) as (vs & Hp & _ & Hl).
    vm_compute in Hp. inversion Hp; subst vs. discriminate Hl.
  - intros u kind args Hu Hk Hget.
    destruct (cumulative_variants "csw(0,a)" u kind args Hu Hk Hget)
      as (vs & Hp & _ & Hiff).
    exists vs. split; [exact Hp|]. apply Hiff. left.
    vm_compute in Hu. injection Hu as <-. reflexivity.
  - split; [reflexivity|]. exact cumulative_variants.
Qed.

(** ** The sentinel of [sw0] and [csw0] *)

(** What the expander emits for a switch with a sentinel, and when that is
    what the specification describes: the sentinel comes first, the variants
    of the arguments that pass the test of line 384 follow, and all [n] of
    them follow exactly when the constant part is empty or none of them is the
    string ["0"]. *)
Lemma sentinel_then_variants (x : string) (u : group) (kind : string)
      (args : list string) :
  _unpack_fml x = Ok u ->
  has_sentinel kind = true ->
  dict_get u kind = Some args ->
  exists rest,
    _pack_to_fml u = Ok (sentinel (constant_part u) :: rest)
    /\ rest = map (with_constant (constant_part u))
                 (filter (kept (constant_part u)) (derived kind args))
    /\ (rest = map (with_constant (constant_part u)) (derived kind args)
        /\ length (sentinel (constant_part u) :: rest) = length args + 1
        <-> constant_part u = "" \/ ~ In "0" (derived kind args)).
Proof.
  intros Hu Hk Hget.
  pose proof (unpack_well_formed x u Hu) as Hwf.
  rewrite (pack_switch u kind args Hwf (sentinel_is_switch kind Hk) Hget), Hk.
  eexists. split; [reflexivity|]. split; [reflexivity|]. split.
  - intros [_ Hlen]. cbn [length] in Hlen. rewrite length_map in Hlen.
    destruct (string_dec (constant_part u) "") as [Hc|Hc]; [now left|right].
    intros Hin.
    pose proof (filter_drops (kept (constant_part u)) (derived kind args) "0"
                  Hin (kept_zero _ Hc)) as Hlt.
    rewrite derived_length in Hlt. lia.
  - intros Hzero. rewrite kept_all by exact Hzero. split; [reflexivity|].
    cbn [length]. rewrite length_map, derived_length. lia.
Qed.

(** C3, the code at the failing input: the group [x+sw0(0,a)] has the
    constant [x] and the switch [sw0] with the two arguments [0] and [a], and
    the expander emits the two variants [x] and [x+a] where the specification
    has three, the sentinel and one variant for each argument.  The test of
    line 384 compares a variant with the string ["0"] to leave out the
    sentinel that line 378 prepended, and so leaves out the argument [0] as
    well; the branch for an empty constant part (line 388) keeps both, so
    [sw0(0,a)] alone expands as the specification says.  This is the only
    divergence: for every unpacked group with [sw0] or [csw0] the sentinel
    comes first (the constant part alone, or ["0"] when that is empty), and
    the [n] variants of the arguments follow exactly when the constant part is
    empty or none of them is the string ["0"]; so [x+csw0(a,b)] gives the
    three variants of the specification's example. *)
Theorem sw0_zero_argument_dropped :
  _unpack_fml "x+sw0(0,a)" = Ok [("constant", ["x"]); ("sw0", ["0"; "a"])]
  /\ _pack_to_fml [("constant", ["x"]); ("sw0", ["0"; "a"])] = Ok ["x"; "x+a"]
  /\ ~ sentinel_claim "x+sw0(0,a)"
  /\ expand "sw0(0,a)" = Ok ["0"; "0"; "a"]
  /\ sentinel_claim "sw0(0,a)"
  /\ expand "x+csw0(a,b)" = Ok ["x"; "x+a"; "x+a+b"]
  /\ (forall x u kind args,
        _unpack_fml x = Ok u ->
        has_sentinel kind = true ->
        dict_get u kind = Some args ->
        exists rest,
          _pack_to_fml u = Ok (sentinel (constant_part u) :: rest)
          /\ rest = map (with_constant (constant_part u))
                       (filter (kept (constant_part u)) (derived kind args))
          /\ (rest = map (with_constant (constant_part u)) (derived kind args)
              /\ length (sentinel (constant_part u) :: rest) = length args + 1
              <-> constant_part u = "" \/ ~ In "0" (derived kind args))).
Proof.
  split; [reflexivity|]. split; [reflexivity|]. split; [|split; [reflexivity|split]].
  - intros H.
    destruct (H [("constant", ["x"]); ("sw0", ["0"; "a"])] "sw0" ["0"; "a"]
                eq_refl eq_refl eq_refl) as (rest & Hp & _ & Hl).
    vm_compute in Hp. inversion Hp; subst rest. discriminate Hl.
  - intros u kind args Hu Hk Hget.
    destruct (sentinel_then_variants "sw0(0,a)" u kind args Hu Hk Hget)
      as (rest & Hp & _ & Hiff).
    exists rest. split; [exact Hp|]. apply Hiff. left.
    vm_compute in Hu. injection Hu as <-. reflexivity.
  - split; [reflexivity|]. exact sentinel_then_variants.
Qed.

(** ** Groups without a switch *)

Lemma pack_no_switch (u : group) :
  (forall k, is_switch k = true -> dict_in u k = false) ->
  _pack_to_fml u
  = if Py.truthy (constant_part u) then Ok [constant_part u]
    else Error Exception_not_valid_formula.
Proof.
  intros Hsw. rewrite pack_eq, (selected_none u Hsw). reflexivity.
Qed.

Lemma constant_part_no_interaction (u : group) :
  dict_in u "i" = false -> constant_part u = Py.join "+" (constants u).
Proof.
  unfold constant_part, constant_names, dict_in.
  destruct (dict_get u "i"); [discriminate|]. now rewrite app_nil_r.
Qed.

Lemma no_switch_singleton (c0 : list string) (k : string) :
  is_switch k = true -> dict_in [("constant", c0)] k = false.
Proof.
  intros Hk. each_switch Hk; reflexivity.
Qed.

(** C8: for a group with no switch and no interaction the expander returns
    the one variant that is the [+]-join of the constant names, in their
    order; with no switch and an empty constant part it raises
    [Exception("Not a valid formula provided.")]. *)
Theorem plain_group_single_variant (u : group) :
  (forall k, is_switch k = true -> dict_in u k = false) ->
  (dict_in u "i" = false ->
   Py.join "+" (constants u) <> "" ->
   _pack_to_fml u = Ok [Py.join "+" (constants u)])
  /\ (constant_part u = "" -> _pack_to_fml u = Error Exception_not_valid_formula).
Proof.
  intros Hsw. rewrite (pack_no_switch u Hsw). split.
  - intros Hi Hc. rewrite (constant_part_no_interaction u Hi).
    apply truthy_true in Hc. now rewrite Hc.
  - intros Hc. rewrite Hc. reflexivity.
Qed.

Lemma plain_group_single_variant_witness :
  (dict_in [("constant", ["a"; "b"])] "i" = false ->
   "a+b" <> "" ->
   _pack_to_fml [("constant", ["a"; "b"])] = Ok ["a+b"])
  /\ (constant_part [("constant", ["a"; "b"])] = "" ->
      _pack_to_fml [("constant", ["a"; "b"])] = Error Exception_not_valid_formula).
Proof.
  refine (plain_group_single_variant [("constant", ["a"; "b"])] _).
  apply no_switch_singleton.
Defined.

(** The same on the group string: a string none of whose tokens is a switch
    or an interaction expands to itself. *)
Lemma join_split (sep : ascii) (s : string) :
  Py.join (String sep "") (Py.split sep s) = s.
Proof.
  induction s as [|c r IH]; [reflexivity|]. cbn [Py.split].
  destruct (Ascii.eqb_spec c sep) as [->|Hc].
  - pose proof (split_nonempty sep r) as Hne.
    destruct (Py.split sep r) as [|h t]; [congruence|].
    rewrite join_cons2, IH. reflexivity.
  - destruct (Py.split sep r) as [|h t] eqn:E; [now apply split_nonempty in E|].
    destruct t as [|h' t].
    + cbn [Py.join] in *. now rewrite IH.
    + rewrite join_cons2 in *. rewrite <- IH. reflexivity.
Qed.

Lemma unpack_plain_tokens (tokens c0 : list string) :
  (forall t, In t tokens -> _find_sw t = NotFound t) ->
  for_each tokens unpack_step [("constant", c0)] = Ok [("constant", c0 ++ tokens)].
Proof.
  revert c0. induction tokens as [|t tokens IH]; intros c0 H; cbn [for_each].
  - now rewrite app_nil_r.
  - unfold unpack_step at 1. rewrite (H t (or_introl eq_refl)).
    cbn [dict_item dict_get dict_set String.eqb Ascii.eqb Bool.eqb bind].
    rewrite IH by (intros t' Ht'; apply H; now right).
    now rewrite <- app_assoc.
Qed.

Lemma plain_string_expand (x : string) :
  (forall t, In t (Py.split "+" x) -> _find_sw t = NotFound t) ->
  _unpack_fml x = Ok [("constant", Py.split "+" x)]
  /\ (x <> "" -> expand x = Ok [x])
  /\ (x = "" -> expand x = Error Exception_not_valid_formula).
Proof.
  intros H.
  assert (Hu : _unpack_fml x = Ok [("constant", Py.split "+" x)]).
  { unfold _unpack_fml. cbn [dict_set]. now rewrite unpack_plain_tokens. }
  split; [exact Hu|].
  assert (Hc : constant_part [("constant", Py.split "+" x)] = x).
  { rewrite constant_part_no_interaction by reflexivity. apply (join_split "+"). }
  unfold expand. rewrite Hu. cbn [bind].
  rewrite pack_no_switch by apply no_switch_singleton.
  rewrite Hc. split; intros Hx.
  - apply truthy_true in Hx. now rewrite Hx.
  - subst x. reflexivity.
Qed.

(** ** The constructor, step by step *)

Lemma init_inversion (fml : string) (self : P.t) :
  P.__init__ fml = Ok self ->
  exists depvars covars fevars iv uc uf first uc' ivs cf ff fsf,
    P.tokenize fml = Ok (depvars, covars, fevars, iv)
    /\ P.check_determinacy iv = Ok tt
    /\ _unpack_fml covars = Ok uc
    /\ _unpack_fml fevars = Ok uf
    /\ P.first_stage covars iv = Ok first
    /\ P.interaction_reference uc = Ok (uc', ivs)
    /\ _pack_to_fml uc' = Ok cf
    /\ _pack_to_fml uf = Ok ff
    /\ match first with
       | Some (_, g) => l <- _pack_to_fml g ;; Ok (Some l)
       | None => Ok None
       end = Ok fsf
    /\ self = P.mk (Py.split "+" depvars) uc' uf (option_map fst iv)
                   (option_map snd iv)
                   (match iv with Some _ => true | None => false end)
                   (match first with
                    | Some (joined, _) => P.Assigned joined
                    | None => P.Unassigned
                    end)
                   (option_map snd first)
                   (option_map fst iv) ivs cf ff fsf None None None None.
Proof.
  unfold P.__init__.
  destruct (P.tokenize fml) as [[[[depvars covars] fevars] iv]|] eqn:H1;
    [|discriminate].
  cbn [bind].
  destruct (P.check_determinacy iv) as [[]|] eqn:H2; [|discriminate]. cbn [bind].
  destruct (_unpack_fml covars) as [uc|] eqn:H3; [|discriminate]. cbn [bind].
  destruct (_unpack_fml fevars) as [uf|] eqn:H4; [|discriminate]. cbn [bind].
  destruct (P.first_stage covars iv) as [first|] eqn:H5; [|discriminate].
  cbn [bind].
  destruct (P.interaction_reference uc) as [[uc' ivs]|] eqn:H6; [|discriminate].
  cbn [bind].
  destruct (_pack_to_fml uc') as [cf|] eqn:H7; [|discriminate]. cbn [bind].
  destruct (_pack_to_fml uf) as [ff|] eqn:H8; [|discriminate]. cbn [bind].
  destruct (match first with
            | Some (_, g) => l <- _pack_to_fml g ;; Ok (Some l)
            | None => Ok None
            end) as [fsf|] eqn:H9; [|discriminate]. cbn [bind].
  intros H. inversion H; subst self; clear H.
  exists depvars, covars, fevars, iv, uc, uf, first, uc', ivs, cf, ff, fsf.
  repeat split; assumption.
Qed.

(** An instance of an IV formula has its first-stage attributes. *)
Lemma init_first_stage (fml : string) (self : P.t) :
  P.__init__ fml = Ok self -> P.is_iv self = true ->
  exists g l, P.covars_first_stage self = Some g
              /\ P.covars_first_stage_fml self = Some l
              /\ _pack_to_fml g = Ok l.
Proof.
  intros Hinit Hiv.
  destruct (init_inversion fml self Hinit)
    as (depvars & covars & fevars & iv & uc & uf & first & uc' & ivs & cf & ff
        & fsf & _ & _ & _ & _ & Hfirst & _ & _ & _ & Hfsf & ->).
  cbn [P.is_iv P.covars_first_stage P.covars_first_stage_fml] in *.
  destruct iv as [[e z]|]; [|discriminate].
  unfold P.first_stage in Hfirst.
  destruct (Py.index e (Py.split "+" covars)) as [idx|]; [|discriminate].
  cbn [bind] in Hfirst.
  destruct (_unpack_fml _) as [g|]; [|discriminate]. cbn [bind] in Hfirst.
  inversion Hfirst; subst first; clear Hfirst.
  destruct (_pack_to_fml g) as [l|] eqn:Hp; [|discriminate]. cbn [bind] in Hfsf.
  inversion Hfsf; subst fsf. exists g, l. cbn [option_map snd]. auto.
Qed.

(** ** The checks of the constructor *)

(** The determinacy check accepts a pair exactly when the two strings have
    the same number of characters. *)
Lemma check_determinacy_lengths (e z : string) :
  P.check_determinacy (Some (e, z)) = Ok tt <-> Py.len e = Py.len z.
Proof.
  unfold P.check_determinacy.
  destruct (Nat.ltb_spec (Py.len z) (Py.len e)).
  - split; [discriminate|lia].
  - destruct (Nat.ltb_spec (Py.len e) (Py.len z)).
    + split; [discriminate|lia].
    + split; [lia|reflexivity].
Qed.

(** C1, the code at the failing input: the endogenous side [X2] and the
    instrument side [Z] both hold one [+]-delimited token, and the constructor
    raises the "underdetermined" [ValueError] because [X2] is the longer
    string.  With names of equal length and unequal token counts the check
    passes. *)
Theorem iv_determinacy_counts_characters :
  length (Py.split "+" "X2") = length (Py.split "+" "Z")
  /\ P.__init__ "Y~X1+X2|X3|X2~Z" = Error ValueError_underdetermined
  /\ P.__init__ "Y~X1+X|F|X~Z1" = Error ValueError_overdetermined
  /\ length (Py.split "+" "A+B") <> length (Py.split "+" "ZZZ")
  /\ P.check_determinacy (Some ("A+B", "ZZZ")) = Ok tt.
Proof.
  repeat split; try reflexivity. cbn. discriminate.
Qed.

(** C4, the code on four segments or more: the constructor raises, but the
    exception is the [ValueError] of the tuple assignment of line 52 or the
    [UnboundLocalError] of the read of [endogvars] at line 70, never a
    named formula-syntax error. *)
Theorem four_segments_unbound_local (fml : string) :
  3 < length (Py.split "|" (Py.join_split_ws fml)) ->
  P.__init__ fml = Error ValueError_unpack
  \/ P.__init__ fml = Error UnboundLocalError.
Proof.
  intros Hlen. unfold P.__init__, P.tokenize.
  destruct (Py.unpack2 _) as [[depvars covars]|e] eqn:Hu.
  - right. cbn [bind].
    destruct (length (Py.split "|" (Py.join_split_ws fml))) as [|[|[|[|n]]]];
      try lia. reflexivity.
  - left. unfold Py.unpack2 in Hu.
    destruct (Py.split "~" _) as [|a [|b [|c l]]]; inversion Hu; reflexivity.
Qed.

Lemma four_segments_unbound_local_witness :
  P.__init__ "Y~X|F|A~B|C" = Error ValueError_unpack
  \/ P.__init__ "Y~X|F|A~B|C" = Error UnboundLocalError.
Proof.
  apply (four_segments_unbound_local "Y~X|F|A~B|C"). vm_compute. lia.
Defined.

(** ** The interaction group and its reference *)


(** Every variant of a successful expansion begins with the constant part. *)
Lemma pack_variants_shape (u : group) (vs : list string) :
  _pack_to_fml u = Ok vs ->
  constant_part u <> "" ->
  forall v, In v vs ->
    v = constant_part u \/ exists w, v = constant_part u +s "+" +s w.
Proof.
  rewrite pack_eq. unfold pack_model. intros H Hc v Hv.
  apply truthy_true in Hc. rewrite Hc in H.
  destruct (Py.nonempty _); inversion H; subst vs; clear H.
  - apply in_app_or in Hv. destruct Hv as [Hv|Hv].
    + left. destruct (match snd (selected u) with
                      | Some k => has_sentinel k | None => false end);
        [|contradiction].
      destruct Hv as [<-|[]]. reflexivity.
    + right. apply in_map_iff in Hv. destruct Hv as (w & <- & _). now exists w.
  - left. destruct Hv as [<-|[]]. reflexivity.
Qed.










(** The group of the first stage is unpacked from the text of the covariates
    and does not pass through the reference step: its variants keep the
    reference clause. *)
Example first_stage_keeps_reference_clause :
  exists self,
    P.__init__ "Y~X1+i(a,b,ref=1)|X1~Z1" = Ok self
    /\ P.ivars self = Some [(Some "1", ["a"; "b"])]
    /\ P.covars_fml self = ["X1+a:b"]
    /\ P.covars_first_stage_fml self = Some ["Z1+a:b:ref=1"].
Proof. eexists. repeat split. Qed.

(** ** The first stage of an IV formula *)

Lemma index_not_in (x : string) (l : list string) :
  ~ In x l -> Py.index x l = Error ValueError_not_in_list.
Proof.
  induction l as [|y l IH]; cbn [Py.index In]; intros H; [reflexivity|].
  destruct (String.eqb_spec y x) as [->|Hyx]; [tauto|].
  rewrite IH by tauto. reflexivity.
Qed.

(** Assigning at the index of the first occurrence is the replacement of the
    first occurrence. *)
Lemma index_setitem (old new : string) (l : list string) :
  In old l ->
  exists idx, Py.index old l = Ok idx
              /\ Py.setitem l idx new = replace_first old new l.
Proof.
  induction l as [|y l IH]; cbn [Py.index In replace_first]; intros H; [tauto|].
  destruct (String.eqb_spec y old) as [->|Hy].
  - exists 0. split; reflexivity.
  - destruct IH as (idx & Hi & Hs); [tauto|].
    exists (S idx). rewrite Hi. cbn [bind Py.setitem]. now rewrite Hs.
Qed.

Lemma first_stage_found (covars e z : string) :
  In e (Py.split "+" covars) ->
  P.first_stage covars (Some (e, z))
  = (let joined := Py.join "+" (replace_first e z (Py.split "+" covars)) in
     g <- _unpack_fml joined ;; Ok (Some (joined, g))).
Proof.
  intros Hin. unfold P.first_stage.
  destruct (index_setitem e z _ Hin) as (idx & Hi & Hs).
  rewrite Hi. cbn [bind]. now rewrite Hs.
Qed.

(** C7, as stated, fails twice: a covariate group with two switches makes the
    constructor raise [DuplicateKeyError] before the endogenous variable is
    looked up, and the formula of the example does not reach the first stage:
    its second segment [X3~X2~Z] holds two [~] and the tuple assignment
    raises. *)
Lemma first_stage_counterexample :
  ~ first_stage_claim "Y~sw(a,b)+sw(c,d)|X~Z" /\ ~ first_stage_example.
Proof.
  split.
  - intros H.
    destruct (H "Y" "sw(a,b)+sw(c,d)" "0" "X" "Z" eq_refl eq_refl) as [_ Hno].
    assert (Habs : ~ In "X" (Py.split "+" "sw(a,b)+sw(c,d)")).
    { cbn. intros [E|[E|[]]]; discriminate E. }
    specialize (Hno Habs). vm_compute in Hno. discriminate Hno.
  - intros (self & Hinit & _). vm_compute in Hinit. discriminate Hinit.
Qed.

(** C7, amended: for a formula with an IV block that passes the determinacy
    check and whose covariate and fixed-effect groups unpack, if the
    endogenous variable is a [+]-delimited token of the covariate string, the
    first-stage variants of a constructed instance are the expansion of that
    string with the first such token replaced by the instrument string, and
    the instance is constructed whenever this expansion and the expansions of
    the covariates and fixed effects succeed; if it is not such a token the
    constructor raises the [ValueError] of [list.index]. *)
Theorem first_stage_substitution (fml depvars covars fevars e z : string)
        (uc uf : group) :
  P.tokenize fml = Ok (depvars, covars, fevars, Some (e, z)) ->
  P.check_determinacy (Some (e, z)) = Ok tt ->
  _unpack_fml covars = Ok uc ->
  _unpack_fml fevars = Ok uf ->
  (In e (Py.split "+" covars) ->
   (forall self, P.__init__ fml = Ok self ->
      exists vs,
        P.covars_first_stage_fml self = Some vs
        /\ expand (Py.join "+" (replace_first e z (Py.split "+" covars))) = Ok vs)
   /\ (forall vs uc' ivs cf ff,
         expand (Py.join "+" (replace_first e z (Py.split "+" covars))) = Ok vs ->
         P.interaction_reference uc = Ok (uc', ivs) ->
         _pack_to_fml uc' = Ok cf ->
         _pack_to_fml uf = Ok ff ->
         exists self,
           P.__init__ fml = Ok self
           /\ P.covars_first_stage_fml self = Some vs))
  /\ (~ In e (Py.split "+" covars) ->
      P.__init__ fml = Error ValueError_not_in_list).
Proof.
  intros Htok Hdet Huc Huf. split.
  - intros Hin. split.
    + intros self Hinit.
      destruct (init_inversion fml self Hinit)
        as (depvars' & covars' & fevars' & iv & uc0 & uf0 & first & uc' & ivs
            & cf & ff & fsf & Htok' & _ & _ & _ & Hfirst & _ & _ & _ & Hfsf & ->).
      rewrite Htok in Htok'. inversion Htok'; subst; clear Htok'.
      rewrite (first_stage_found _ _ _ Hin) in Hfirst. cbv zeta in Hfirst.
      unfold expand.
      destruct (_unpack_fml (Py.join "+" _)) as [g|]; [|discriminate].
      cbn [bind] in *. injection Hfirst as <-.
      destruct (_pack_to_fml g) as [l|]; [|discriminate]. cbn [bind] in Hfsf.
      injection Hfsf as <-. exists l. split; reflexivity.
    + intros vs uc' ivs cf ff Hexp Hint Hcf Hff.
      unfold P.__init__. rewrite Htok. cbn [bind]. rewrite Hdet. cbn [bind].
      rewrite Huc, Huf. cbn [bind].
      rewrite (first_stage_found _ _ _ Hin). cbv zeta.
      unfold expand in Hexp.
      destruct (_unpack_fml (Py.join "+" _)) as [g|]; [|discriminate].
      cbn [bind] in *. rewrite Hint. cbn [bind]. rewrite Hcf, Hff, Hexp. cbn [bind].
      eexists. split; reflexivity.
  - intros Hnot. unfold P.__init__. rewrite Htok. cbn [bind].
    rewrite Hdet. cbn [bind]. rewrite Huc, Huf. cbn [bind].
    unfold P.first_stage. rewrite (index_not_in _ _ Hnot). reflexivity.
Qed.

Lemma first_stage_substitution_witness :
  (exists self,
      P.__init__ "Y~X1+X2|X3|X2~Z1" = Ok self
      /\ P.covars_first_stage_fml self = Some ["X1+Z1"])
  /\ P.__init__ "Y~X1+X2|X3|X4~Z1" = Error ValueError_not_in_list.
Proof.
  split.
  - refine (proj2 (proj1 (first_stage_substitution
                            "Y~X1+X2|X3|X2~Z1" "Y" "X1+X2" "X3" "X2" "Z1"
                            [("constant", ["X1"; "X2"])] [("constant", ["X3"])]
                            eq_refl eq_refl eq_refl eq_refl) _)
              ["X1+Z1"] [("constant", ["X1"; "X2"])] None ["X1+X2"] ["X3"]
              eq_refl eq_refl eq_refl eq_refl).
    simpl. auto.
  - refine (proj2 (first_stage_substitution
                     "Y~X1+X2|X3|X4~Z1" "Y" "X1+X2" "X3" "X4" "Z1"
                     [("constant", ["X1"; "X2"])] [("constant", ["X3"])]
                     eq_refl eq_refl eq_refl eq_refl) _).
    simpl. intros [E|[E|[]]]; discriminate E.
Defined.

(** ** The dictionaries keyed by fixed-effect variants *)

Section KeyedLoop.
Context {V : Type} (v : V).

(** A loop that stores the same value under every key of a list. *)
Lemma for_each_set_get (keys : list string) (d0 d : dict V) :
  for_each keys (fun d k => Ok (dict_set d k v)) d0 = Ok d ->
  forall k, dict_get d k = if Py.mem k keys then Some v else dict_get d0 k.
Proof.
  revert d0. induction keys as [|k0 keys IH]; cbn [for_each bind]; intros d0 H k.
  - inversion H; subst. reflexivity.
  - rewrite (IH _ H k), dict_get_set. unfold Py.mem. cbn [existsb].
    rewrite (String.eqb_sym k k0).
    destruct (String.eqb k0 k); cbn [orb]; [|reflexivity].
    destruct (existsb (String.eqb k) keys); reflexivity.
Qed.

Lemma for_each_set_total (keys : list string) (d0 : dict V) :
  exists d, for_each keys (fun d k => Ok (dict_set d k v)) d0 = Ok d.
Proof.
  revert d0. induction keys as [|k0 keys IH]; cbn [for_each bind]; intros d0.
  - eauto.
  - apply IH.
Qed.
End KeyedLoop.

Lemma mem_In (k : string) (l : list string) : Py.mem k l = true <-> In k l.
Proof.
  unfold Py.mem. rewrite existsb_exists. split.
  - intros (y & Hy & E). apply String.eqb_eq in E. now subst.
  - intros H. exists k. split; [exact H|apply String.eqb_refl].
Qed.

(** The value and the keys of a dictionary filled by such a loop from the
    empty dictionary. *)
Lemma keyed_loop_spec {V : Type} (v : V) (keys : list string) :
  exists d,
    for_each keys (fun d k => Ok (dict_set d k v)) [] = Ok d
    /\ (forall k, In k keys -> dict_get d k = Some v)
    /\ (forall k, dict_in d k = true <-> In k keys).
Proof.
  destruct (for_each_set_total v keys []) as [d Hd]. exists d.
  pose proof (for_each_set_get v keys [] d Hd) as Hget.
  split; [exact Hd|]. split.
  - intros k Hk. rewrite Hget. apply mem_In in Hk. now rewrite Hk.
  - intros k. unfold dict_in. rewrite Hget, <- mem_In.
    destruct (Py.mem k keys); cbn [dict_get]; split; congruence.
Qed.

Lemma inner_loop (depvar : string) (covariates res : list string) :
  for_each covariates (fun res covar => Ok (res ++ [depvar +s "~" +s covar])) res
  = Ok (res ++ map (fun covar => depvar +s "~" +s covar) covariates).
Proof.
  revert res. induction covariates as [|c l IH]; intros res; cbn [for_each bind map].
  - now rewrite app_nil_r.
  - rewrite IH, <- app_assoc. reflexivity.
Qed.

Lemma depvar_loop (depvars covariates res : list string) :
  for_each depvars
    (fun res depvar =>
       for_each covariates
         (fun res covar => Ok (res ++ [depvar +s "~" +s covar])) res) res
  = Ok (res ++ cross depvars covariates).
Proof.
  revert res. induction depvars as [|y l IH]; intros res; cbn [for_each].
  - unfold cross. cbn [flat_map]. now rewrite app_nil_r.
  - rewrite inner_loop. cbn [bind]. rewrite IH, <- app_assoc. reflexivity.
Qed.

Lemma cross_length (depvars covariates : list string) :
  length (cross depvars covariates) = length depvars * length covariates.
Proof.
  unfold cross. induction depvars as [|y l IH]; cbn [flat_map length]; [reflexivity|].
  rewrite length_app, length_map, IH. lia.
Qed.

Lemma flatten_strs (l : list string) : _flatten_list (strs l) = l.
Proof.
  unfold _flatten_list, strs. induction l as [|a l IH]; [reflexivity|].
  cbn [map flat_map flatten_obj app]. now rewrite IH.
Qed.

Lemma flatten_lists (l : list (list string)) : _flatten_list (lists l) = concat l.
Proof.
  unfold _flatten_list, lists. induction l as [|a l IH]; [reflexivity|].
  cbn [map flat_map flatten_obj concat]. fold (_flatten_list (strs a)).
  now rewrite flatten_strs, IH.
Qed.

(** The loops of [get_fml_dict] store the cross product under every key. *)
Lemma build_fml_dict_second_stage (self : P.t) :
  P.build_fml_dict self false
  = for_each (P.fevars_fml self)
      (fun d k => Ok (dict_set d k (cross (P.depvars self) (P.covars_fml self))))
      [].
Proof.
  unfold P.build_fml_dict. rewrite depvar_loop. reflexivity.
Qed.

Lemma build_fml_dict_first_stage (self : P.t) (l : list string) :
  P.covars_first_stage_fml self = Some l ->
  P.build_fml_dict self true
  = for_each (P.fevars_fml self)
      (fun d k => Ok (dict_set d k (cross (P.depvars self) l)))
      [].
Proof.
  intros H. unfold P.build_fml_dict. rewrite H. cbn [P.iter bind].
  rewrite depvar_loop. reflexivity.
Qed.

(** C9: for a parsed formula, [get_fml_dict] builds a dictionary whose keys
    are the fixed-effect variants and whose value, under each of them, is the
    list of [depvar~covariate] strings enumerated with the dependent
    variables outermost and the covariate variants innermost; its length is
    the number of dependent variables times the number of covariate variants.
    With [iv=True], for an IV formula, the covariate variants are those of
    the first stage. *)
Theorem fml_dict_cross_product (fml : string) (self : P.t) :
  P.__init__ fml = Ok self ->
  fml_dict_spec self false (P.covars_fml self)
  /\ (P.is_iv self = true ->
      exists l, P.covars_first_stage_fml self = Some l
                /\ fml_dict_spec self true l).
Proof.
  intros Hinit. split.
  - destruct (keyed_loop_spec (cross (P.depvars self) (P.covars_fml self))
                (P.fevars_fml self)) as (d & Hd & Hget & Hkeys).
    exists (P.set_fml_dict self false d), d.
    unfold P.get_fml_dict. rewrite build_fml_dict_second_stage, Hd.
    repeat split; try apply Hkeys; try assumption. apply cross_length.
  - intros Hiv.
    destruct (init_first_stage fml self Hinit Hiv) as (g & l & _ & Hl & _).
    destruct (keyed_loop_spec (cross (P.depvars self) l) (P.fevars_fml self))
      as (d & Hd & Hget & Hkeys).
    exists l. split; [exact Hl|].
    exists (P.set_fml_dict self true d), d.
    unfold P.get_fml_dict. rewrite (build_fml_dict_first_stage self l Hl), Hd.
    repeat split; try apply Hkeys; try assumption. apply cross_length.
Qed.

Lemma fml_dict_cross_product_witness :
  exists self,
    P.__init__ "Y+W~X1+csw(X2,X3)|sw0(F1,F2)|X1~Z1" = Ok self
    /\ P.depvars self = ["Y"; "W"]
    /\ P.covars_fml self = ["X1+X2"; "X1+X2+X3"]
    /\ P.fevars_fml self = ["0"; "F1"; "F2"]
    /\ fml_dict_spec self false ["X1+X2"; "X1+X2+X3"]
    /\ (P.is_iv self = true ->
        exists l, P.covars_first_stage_fml self = Some l
                  /\ fml_dict_spec self true l).
Proof.
  eexists. split; [reflexivity|].
  split; [reflexivity|]. split; [reflexivity|]. split; [reflexivity|].
  refine (fml_dict_cross_product "Y+W~X1+csw(X2,X3)|sw0(F1,F2)|X1~Z1" _ _).
  reflexivity.
Defined.

(** The loops of [get_var_dict]. *)
Lemma build_var_dict_second_stage (self : P.t) :
  P.build_var_dict self false
  = for_each (P.fevars_fml self)
      (fun d k => Ok (dict_set d k (P.depvars self
                                    ++ concat (dict_values (P.covars self)))))
      [].
Proof.
  unfold P.build_var_dict. now rewrite flatten_strs, flatten_lists.
Qed.

Lemma build_var_dict_first_stage (self : P.t) (g : group) :
  P.covars_first_stage self = Some g ->
  P.build_var_dict self true
  = for_each (P.fevars_fml self)
      (fun d k => Ok (dict_set d k (P.depvars self ++ concat (dict_values g))))
      [].
Proof.
  intros H. unfold P.build_var_dict. rewrite H. cbn [P.values_of bind].
  now rewrite flatten_strs, flatten_lists.
Qed.

Lemma keyed_values_agree {V : Type} (v : V) (keys : list string) (d : dict V) :
  for_each keys (fun d k => Ok (dict_set d k v)) [] = Ok d ->
  forall k1 k2 v1 v2, dict_get d k1 = Some v1 -> dict_get d k2 = Some v2 -> v1 = v2.
Proof.
  intros Hd k1 k2 v1 v2.
  rewrite !(for_each_set_get v keys [] d Hd). cbn [dict_get].
  destruct (Py.mem k1 keys), (Py.mem k2 keys); congruence.
Qed.

Lemma var_dict_second_stage (self : P.t) :
  var_dict_spec self false (P.covars self).
Proof.
  destruct (keyed_loop_spec
              (P.depvars self ++ concat (dict_values (P.covars self)))
              (P.fevars_fml self)) as (d & Hd & Hget & Hkeys).
  exists (P.set_var_dict self false d), d.
  unfold P.get_var_dict. rewrite build_var_dict_second_stage, Hd.
  repeat split; try apply Hkeys; try assumption.
  eapply keyed_values_agree; eassumption.
Qed.

Lemma var_dict_first_stage (self : P.t) (g : group) :
  P.covars_first_stage self = Some g -> var_dict_spec self true g.
Proof.
  intros Hg.
  destruct (keyed_loop_spec (P.depvars self ++ concat (dict_values g))
              (P.fevars_fml self)) as (d & Hd & Hget & Hkeys).
  exists (P.set_var_dict self true d), d.
  unfold P.get_var_dict. rewrite (build_var_dict_first_stage self g Hg), Hd.
  repeat split; try apply Hkeys; try assumption.
  eapply keyed_values_agree; eassumption.
Qed.

(** C10: for a parsed formula, [get_var_dict] gives every fixed-effect
    variant the same value, the dependent variables followed by the flattened
    entries of the covariate structure (of the first stage with [iv=True], for
    an IV formula).  The value is built from the dependent variables and the
    covariate structure alone: any other parsed formula with the same
    dependent variables and covariate structure, whatever its fixed effects,
    has this value under each of its keys. *)
Theorem var_dict_key_independent (fml : string) (self : P.t) :
  P.__init__ fml = Ok self ->
  var_dict_spec self false (P.covars self)
  /\ (P.is_iv self = true ->
      exists g, P.covars_first_stage self = Some g /\ var_dict_spec self true g)
  /\ (forall fml2 self2 self2' d2 k v,
        P.__init__ fml2 = Ok self2 ->
        P.depvars self2 = P.depvars self ->
        P.covars self2 = P.covars self ->
        P.get_var_dict self2 false = Ok self2' ->
        P.var_dict self2' = Some d2 ->
        dict_get d2 k = Some v ->
        v = P.depvars self ++ concat (dict_values (P.covars self))).
Proof.
  intros Hinit. split; [apply var_dict_second_stage|]. split.
  - intros Hiv.
    destruct (init_first_stage fml self Hinit Hiv) as (g & l & Hg & _ & _).
    exists g. split; [exact Hg|]. now apply var_dict_first_stage.
  - intros fml2 self2 self2' d2 k v _ Hdep Hcov Hrun Hd2 Hget.
    destruct (var_dict_second_stage self2)
      as (self2'' & d & Hrun' & Hd & Hkeys & Hval & _).
    rewrite Hrun in Hrun'. injection Hrun' as <-.
    cbv iota in Hd. rewrite Hd2 in Hd. injection Hd as <-.
    assert (Hin : In k (P.fevars_fml self2)).
    { apply Hkeys, dict_in_get. eauto. }
    rewrite (Hval k Hin), Hdep, Hcov in Hget. now injection Hget as <-.
Qed.

Lemma var_dict_key_independent_witness :
  exists self,
    P.__init__ "Y+W~X1+csw(X2,X3)|sw0(F1,F2)|X1~Z1" = Ok self
    /\ P.depvars self = ["Y"; "W"]
    /\ P.covars self = [("constant", ["X1"]); ("csw", ["X2"; "X3"])]
    /\ P.fevars_fml self = ["0"; "F1"; "F2"]
    /\ var_dict_spec self false [("constant", ["X1"]); ("csw", ["X2"; "X3"])]
    /\ (P.is_iv self = true ->
        exists g, P.covars_first_stage self = Some g /\ var_dict_spec self true g).
Proof.
  eexists. split; [reflexivity|].
  split; [reflexivity|]. split; [reflexivity|]. split; [reflexivity|].
  destruct (var_dict_key_independent "Y+W~X1+csw(X2,X3)|sw0(F1,F2)|X1~Z1" _
              eq_refl) as (H1 & H2 & _).
  split; [exact H1|exact H2].
Defined.

(** * Further properties *)

(** ** Characters *)

Lemma contains_add (c : ascii) (a b : string) :
  Py.contains c (a +s b) = Py.contains c a || Py.contains c b.
Proof.
  unfold Py.add. induction a as [|x a IH]; cbn [String.append Py.contains];
    [reflexivity|].
  rewrite IH. now rewrite orb_assoc.
Qed.

(** A field of [split] holds no separator and no character that the string
    does not hold. *)
Lemma split_field_no_sep (sep : ascii) (s f : string) :
  In f (Py.split sep s) -> Py.contains sep f = false.
Proof.
  revert f. induction s as [|c r IH]; cbn [Py.split]; intros f Hf.
  - destruct Hf as [<-|[]]. reflexivity.
  - destruct (Ascii.eqb_spec c sep) as [->|Hc].
    + destruct Hf as [<-|Hf]; [reflexivity|now apply IH].
    + destruct (Py.split sep r) as [|h t]; [destruct Hf as [<-|[]]|].
      * cbn [Py.contains]. apply Ascii.eqb_neq in Hc. now rewrite Hc.
      * destruct Hf as [<-|Hf]; [|apply IH; now right].
        cbn [Py.contains]. apply Ascii.eqb_neq in Hc. rewrite Hc.
        apply IH. now left.
Qed.

Lemma split_field_free (c sep : ascii) (s f : string) :
  Py.contains c s = false -> In f (Py.split sep s) -> Py.contains c f = false.
Proof.
  revert f. induction s as [|x r IH]; cbn [Py.split Py.contains]; intros f Hs Hf.
  - destruct Hf as [<-|[]]. reflexivity.
  - apply orb_false_iff in Hs. destruct Hs as [Hx Hr].
    destruct (Ascii.eqb x sep).
    + destruct Hf as [<-|Hf]; [reflexivity|now apply IH].
    + destruct (Py.split sep r) as [|h t]; [destruct Hf as [<-|[]]|].
      * cbn [Py.contains]. now rewrite Hx.
      * destruct Hf as [<-|Hf]; [|apply IH; [exact Hr|now right]].
        cbn [Py.contains]. rewrite Hx. apply IH; [exact Hr|now left].
Qed.

Lemma join_free (c : ascii) (sep : string) (l : list string) :
  Py.contains c sep = false ->
  (forall f, In f l -> Py.contains c f = false) ->
  Py.contains c (Py.join sep l) = false.
Proof.
  intros Hsep. induction l as [|a l IH]; intros H; [reflexivity|].
  destruct l as [|b l]; [apply H; now left|].
  rewrite join_cons2, !contains_add, Hsep, (H a (or_introl eq_refl)).
  cbn [orb]. apply IH. intros f Hf. apply H. now right.
Qed.

Lemma strip_prefix_free (c : ascii) (p s r : string) :
  strip_prefix p s = Some r -> Py.contains c s = false -> Py.contains c r = false.
Proof.
  revert s. induction p as [|a p IH]; intros s; cbn [strip_prefix].
  - intros H; injection H as <-. auto.
  - destruct s as [|b s]; [discriminate|].
    destruct (Ascii.eqb a b); [|discriminate].
    cbn [Py.contains]. intros H Hs. apply orb_false_iff in Hs.
    apply (IH s H), Hs.
Qed.

Lemma lazy_group_free (c : ascii) (s g : string) :
  lazy_group s = Some g -> Py.contains c s = false -> Py.contains c g = false.
Proof.
  revert g. induction s as [|x s IH]; cbn [lazy_group]; intros g; [discriminate|].
  destruct (Ascii.eqb x ")"); [intros H; now injection H as <-|].
  destruct (Ascii.eqb x "010"); [discriminate|].
  destruct (lazy_group s) as [g'|]; [|discriminate]. cbn [option_map].
  intros H; injection H as <-. cbn [Py.contains]. intros Hs.
  apply orb_false_iff in Hs. destruct Hs as [-> Hs]. now apply IH.
Qed.

(** The group never holds the closing parenthesis or a newline. *)
Lemma lazy_group_closed (s g : string) :
  lazy_group s = Some g ->
  Py.contains ")" g = false /\ Py.contains "010" g = false.
Proof.
  revert g. induction s as [|x s IH]; cbn [lazy_group]; intros g; [discriminate|].
  destruct (Ascii.eqb x ")") eqn:E1; [intros H; injection H as <-; now split|].
  destruct (Ascii.eqb x "010") eqn:E2; [discriminate|].
  destruct (lazy_group s) as [g'|]; [|discriminate]. cbn [option_map].
  intros H; injection H as <-. cbn [Py.contains]. rewrite E1, E2.
  now apply IH.
Qed.

Lemma findall_first_match (kw x g : string) :
  findall_first kw x = Some g ->
  exists s r, strip_prefix (kw +s "(") s = Some r /\ lazy_group r = Some g
              /\ (forall c, Py.contains c x = false -> Py.contains c s = false).
Proof.
  induction x as [|a x IH]; cbn [findall_first]; [discriminate|].
  unfold match_here at 1.
  destruct (strip_prefix (kw +s "(") (String a x)) as [r|] eqn:Hp.
  - destruct (lazy_group r) as [g'|] eqn:Hg.
    + intros H; injection H as <-. exists (String a x), r. auto.
    + intros H. destruct (IH H) as (s & r' & H1 & H2 & H3).
      exists s, r'. repeat split; auto. intros c Hc. apply H3.
      cbn [Py.contains] in Hc. now apply orb_false_iff in Hc.
  - intros H. destruct (IH H) as (s & r' & H1 & H2 & H3).
    exists s, r'. repeat split; auto. intros c Hc. apply H3.
    cbn [Py.contains] in Hc. now apply orb_false_iff in Hc.
Qed.

Lemma findall_first_free (c : ascii) (kw x g : string) :
  findall_first kw x = Some g -> Py.contains c x = false ->
  Py.contains c g = false.
Proof.
  intros H Hx. destruct (findall_first_match kw x g H) as (s & r & H1 & H2 & H3).
  eapply lazy_group_free; [exact H2|].
  eapply strip_prefix_free; [exact H1|]. now apply H3.
Qed.

Lemma findall_first_closed (kw x g : string) :
  findall_first kw x = Some g ->
  Py.contains ")" g = false /\ Py.contains "010" g = false.
Proof.
  intros H. destruct (findall_first_match kw x g H) as (s & r & _ & H2 & _).
  now apply lazy_group_closed in H2.
Qed.

(** What [_find_sw] returns on a match is the split of a group of one of its
    patterns. *)
Lemma find_sw_group (x : string) (v : list string) (k : string) :
  _find_sw x = Found v k ->
  exists kw g, findall_first kw x = Some g /\ v = Py.split "," g.
Proof.
  unfold _find_sw.
  destruct (findall_first "sw" x) as [g1|] eqn:E1;
    [destruct (findall_first "csw" x) as [g2|] eqn:E2|
     destruct (findall_first "sw0" x) as [g3|] eqn:E3;
     [destruct (findall_first "csw0" x) as [g4|] eqn:E4|
      destruct (findall_first "i" x) as [g5|] eqn:E5]];
    intros H; inversion H; subst; eauto.
Qed.

(** ** The switch extractor *)

Lemma strip_prefix_add (p s r : string) :
  strip_prefix p s = Some r -> s = p +s r.
Proof.
  unfold Py.add. revert s. induction p as [|a p IH]; intros s; cbn [strip_prefix].
  - intros H; now injection H as <-.
  - destruct s as [|b s]; [discriminate|].
    destruct (Ascii.eqb_spec a b) as [->|]; [|discriminate].
    intros H. cbn [String.append]. now rewrite <- (IH s H).
Qed.

Lemma lazy_group_needs_close (s g : string) :
  lazy_group s = Some g -> Py.contains ")" s = true.
Proof.
  revert g. induction s as [|x s IH]; cbn [lazy_group Py.contains]; intros g;
    [discriminate|].
  destruct (Ascii.eqb x ")"); [reflexivity|].
  destruct (Ascii.eqb x "010"); [discriminate|].
  destruct (lazy_group s) as [g'|]; [|discriminate]. intros _. now apply (IH g').
Qed.

(** A pattern matches only in a string with both parentheses. *)
Lemma findall_first_parentheses (kw x g : string) :
  findall_first kw x = Some g ->
  Py.contains "(" x = true /\ Py.contains ")" x = true.
Proof.
  intros H. destruct (findall_first_match kw x g H) as (s & r & H1 & H2 & H3).
  split.
  - destruct (Py.contains "(" x) eqn:E; [reflexivity|].
    apply H3 in E. apply strip_prefix_add in H1. subst s.
    rewrite !contains_add in E. cbn in E. rewrite orb_true_r in E. discriminate.
  - destruct (Py.contains ")" x) eqn:E; [reflexivity|].
    apply H3 in E. apply (strip_prefix_free ")" _ _ _ H1) in E.
    apply lazy_group_needs_close in H2. congruence.
Qed.

Lemma findall_first_none (kw x : string) :
  Py.contains "(" x = false \/ Py.contains ")" x = false ->
  findall_first kw x = None.
Proof.
  intros H. destruct (findall_first kw x) as [g|] eqn:E; [|reflexivity].
  apply findall_first_parentheses in E. destruct E, H; congruence.
Qed.

(** A longer keyword that ends in a shorter one never matches alone. *)
Lemma findall_first_suffix (a : ascii) (kw x g : string) :
  findall_first (String a kw) x = Some g -> matches kw x = true.
Proof.
  unfold matches. induction x as [|c x IH]; cbn [findall_first]; [discriminate|].
  destruct (match_here (String a kw) (String c x)) as [g'|] eqn:Hm.
  - intros _. unfold match_here in Hm.
    change (String a kw +s "(") with (String a (kw +s "(")) in Hm.
    cbn [strip_prefix] in Hm. destruct (Ascii.eqb a c); [|discriminate].
    fold (match_here kw x) in Hm.
    destruct (match_here kw (String c x)); [reflexivity|].
    destruct x as [|c' x];
      [unfold match_here in Hm; destruct (kw +s "("); cbn in Hm; discriminate|].
    cbn [findall_first]. now rewrite Hm.
  - intros H. specialize (IH H).
    destruct (match_here kw (String c x)); [reflexivity|exact IH].
Qed.

(** The keywords in the order in which [_find_sw] effectively prefers them:
    a token is classified by the first of [csw], [sw], [csw0], [sw0], [i]
    whose pattern matches somewhere in it, and its arguments are the
    comma-separated pieces of the first match of that pattern. *)
Theorem find_sw_priority (x : string) :
  _find_sw x
  = match first_match ["csw"; "sw"; "csw0"; "sw0"; "i"] x with
    | Some (kw, g) => Found (Py.split "," g) kw
    | None => NotFound x
    end.
Proof.
  unfold _find_sw. cbn [first_match].
  destruct (findall_first "csw" x) as [g|] eqn:Ecsw.
  - pose proof (findall_first_suffix "c" "sw" x g Ecsw) as H. unfold matches in H.
    destruct (findall_first "sw" x); [reflexivity|discriminate].
  - destruct (findall_first "sw" x); [reflexivity|].
    destruct (findall_first "csw0" x) as [g|] eqn:Ecsw0.
    + pose proof (findall_first_suffix "c" "sw0" x g Ecsw0) as H.
      unfold matches in H.
      destruct (findall_first "sw0" x); [reflexivity|discriminate].
    + destruct (findall_first "sw0" x); [reflexivity|].
      destruct (findall_first "i" x); reflexivity.
Qed.

Lemma find_sw_not_found (x : string) :
  Py.contains "(" x = false \/ Py.contains ")" x = false ->
  _find_sw x = NotFound x.
Proof.
  intros H. unfold _find_sw. now rewrite !findall_first_none.
Qed.

(** A token that lacks an opening or a closing parenthesis is a plain
    name. *)
Theorem find_sw_plain (x : string) :
  Py.contains "(" x = false \/ Py.contains ")" x = false ->
  _find_sw x = NotFound x.
Proof. apply find_sw_not_found. Qed.

Lemma find_sw_plain_witness : _find_sw "sw(X1" = NotFound "sw(X1".
Proof. apply (find_sw_plain "sw(X1"). right. reflexivity. Defined.

(** The arguments that [_find_sw] extracts: there is at least one, none
    holds a comma, a closing parenthesis or a newline, and none holds a
    character that the token does not hold. *)
Theorem find_sw_arguments (x : string) (v : list string) (k : string) :
  _find_sw x = Found v k ->
  v <> []
  /\ forall a, In a v ->
       Py.contains "," a = false
       /\ Py.contains ")" a = false
       /\ Py.contains "010" a = false
       /\ forall c, Py.contains c x = false -> Py.contains c a = false.
Proof.
  intros H. destruct (find_sw_group x v k H) as (kw & g & Hg & ->).
  split; [apply split_nonempty|]. intros a Ha.
  destruct (findall_first_closed kw x g Hg) as [H1 H2].
  split; [now apply (split_field_no_sep "," g)|].
  split; [now apply (split_field_free ")" "," g)|].
  split; [now apply (split_field_free "010" "," g)|].
  intros c Hc. apply (split_field_free c "," g); [|exact Ha].
  now apply (findall_first_free c kw x g).
Qed.

Lemma find_sw_arguments_witness :
  ["a"; "b=1"] <> []
  /\ forall a, In a ["a"; "b=1"] ->
       Py.contains "," a = false
       /\ Py.contains ")" a = false
       /\ Py.contains "010" a = false
       /\ forall c, Py.contains c "xi(a,b=1)y" = false -> Py.contains c a = false.
Proof. apply (find_sw_arguments "xi(a,b=1)y" ["a"; "b=1"] "i"). reflexivity. Defined.

Lemma lazy_group_add (b rest : string) :
  Py.contains ")" b = false -> Py.contains "010" b = false ->
  lazy_group (b +s ")" +s rest) = Some b.
Proof.
  unfold Py.add. induction b as [|x b IH]; cbn [String.append lazy_group Py.contains].
  - reflexivity.
  - intros H1 H2. apply orb_false_iff in H1, H2.
    destruct H1 as [-> H1], H2 as [-> H2]. now rewrite IH.
Qed.

Lemma split_no_sep (sep : ascii) (s : string) :
  Py.contains sep s = false -> Py.split sep s = [s].
Proof.
  induction s as [|c r IH]; cbn [Py.split Py.contains]; [reflexivity|].
  intros H. apply orb_false_iff in H. destruct H as [-> H]. now rewrite IH.
Qed.

Lemma split_add (sep : ascii) (a b : string) :
  Py.contains sep a = false ->
  Py.split sep (a +s String sep b) = a :: Py.split sep b.
Proof.
  unfold Py.add. induction a as [|c a IH]; cbn [String.append Py.split Py.contains].
  - now rewrite Ascii.eqb_refl.
  - intros H. apply orb_false_iff in H. destruct H as [-> H]. now rewrite IH.
Qed.

(** Splitting a joined list gives the list back, when it is not empty and no
    element holds the separator. *)
Lemma split_join (sep : ascii) (l : list string) :
  l <> [] -> (forall a, In a l -> Py.contains sep a = false) ->
  Py.split sep (Py.join (String sep "") l) = l.
Proof.
  induction l as [|a l IH]; [congruence|]. intros _ H.
  destruct l as [|b l].
  - cbn [Py.join]. apply split_no_sep, H. now left.
  - rewrite join_cons2, add_assoc.
    change (String sep "" +s Py.join (String sep "") (b :: l))
      with (String sep (Py.join (String sep "") (b :: l))).
    rewrite split_add by (apply H; now left).
    rewrite IH; [reflexivity|discriminate|]. intros x Hx. apply H. now right.
Qed.

Lemma is_argument_spec (a : string) :
  is_argument a = true ->
  Py.contains "(" a = false /\ Py.contains ")" a = false
  /\ Py.contains "," a = false /\ Py.contains "010" a = false.
Proof.
  unfold is_argument. rewrite !andb_true_iff, !negb_true_iff. tauto.
Qed.

Lemma find_sw_reads_call (k : string) (args : list string) :
  kind_ok k ->
  args <> [] ->
  (forall a, In a args -> is_argument a = true) ->
  _find_sw (call k args) = Found args k.
Proof.
  intros Hk Hne Hargs.
  assert (Hsplit : Py.split "," (Py.join "," args) = args).
  { apply split_join; [exact Hne|]. intros a Ha. now apply is_argument_spec, Hargs. }
  assert (Hopen : Py.contains "(" (Py.join "," args +s ")") = false).
  { rewrite contains_add, join_free; [reflexivity|reflexivity|].
    intros a Ha. now apply is_argument_spec, Hargs. }
  assert (Hgroup : lazy_group (Py.join "," args +s ")") = Some (Py.join "," args)).
  { rewrite <- (lazy_group_add (Py.join "," args) "").
    - now rewrite add_assoc.
    - apply join_free; [reflexivity|]. intros a Ha. now apply is_argument_spec, Hargs.
    - apply join_free; [reflexivity|]. intros a Ha. now apply is_argument_spec, Hargs. }
  assert (Hnone : forall kw, findall_first kw (Py.join "," args +s ")") = None).
  { intros kw. apply findall_first_none. now left. }
  unfold call. rewrite <- Hsplit at 2.
  generalize dependent (Py.join "," args). intros body _ _ Hgroup Hnone.
  unfold Py.add in *.
  each_kind Hk; unfold _find_sw;
    cbn [findall_first match_here strip_prefix Py.add String.append
         Ascii.eqb Bool.eqb];
    rewrite ?Hnone, ?Hgroup; reflexivity.
Qed.

(** [_find_sw] reads a call back: on the keyword [k] applied to a non-empty
    list of arguments without parentheses, commas and newlines it returns
    these arguments and [k]. *)
Theorem find_sw_call (k : string) (args : list string) :
  kind_ok k ->
  args <> [] ->
  (forall a, In a args -> is_argument a = true) ->
  _find_sw (call k args) = Found args k.
Proof. apply find_sw_reads_call. Qed.

Lemma find_sw_call_witness :
  _find_sw (call "csw0" ["X1"; "X2"]) = Found ["X1"; "X2"] "csw0".
Proof.
  apply (find_sw_call "csw0" ["X1"; "X2"]).
  - left. reflexivity.
  - discriminate.
  - intros a [<-|[<-|[]]]; reflexivity.
Defined.

(** ** The unpacker *)

(** [_unpack_fml] either returns a group whose keys are ['constant'] followed
    by the keywords of the tokens, in their order, or raises
    [DuplicateKeyError]; it returns exactly for the groups with at most one
    switch and at most one interaction that are not a switch followed by an
    interaction.  No other exception leaves it: the "Unsupported switch type"
    error cannot arise. *)
Theorem unpack_outcomes (x : string) :
  (exists u, _unpack_fml x = Ok u
             /\ dict_keys u = "constant" :: kinds x
             /\ at_most_one_each (kinds x) = true
             /\ switch_then_interaction (kinds x) = false)
  \/ (_unpack_fml x = Error DuplicateKeyError
      /\ (at_most_one_each (kinds x) = false
          \/ switch_then_interaction (kinds x) = true)).
Proof.
  pose proof (unpack_accepts x) as H.
  rewrite (accepted_at_most_one_each (kinds x) (kinds_ok x)) in H.
  destruct (at_most_one_each (kinds x)), (switch_then_interaction (kinds x));
    cbn [andb negb] in H; auto.
  left. destruct H as (u & Hu & Hk). eauto.
Qed.

Lemma unpack_step_content (d d' : group) (t : string) (c0 : list string) :
  unpack_step d t = Ok d' ->
  dict_get d "constant" = Some c0 ->
  dict_get d' "constant" = Some (c0 ++ filter is_plain [t])
  /\ (forall k v, k <> "constant" -> dict_get d k = Some v ->
      dict_get d' k = Some v)
  /\ (forall v k, _find_sw t = Found v k -> dict_get d' k = Some v).
Proof.
  unfold unpack_step, is_plain, dict_item. cbn [filter].
  destruct (_find_sw t) as [v k|y] eqn:Hf; intros Hstep Hc.
  - rewrite (find_sw_accepted t v k Hf) in Hstep.
    pose proof (proj2 (find_sw_found t v k Hf)) as Hk.
    destruct (check_duplicate_key_error d k) as [Hok|Herr];
      rewrite ?Hok, ?Herr in Hstep; cbn [bind] in Hstep; [|discriminate].
    injection Hstep as <-.
    apply check_duplicate_key_ok in Hok. destruct Hok as [Hsw Hi].
    rewrite app_nil_r. split; [|split].
    + rewrite dict_get_set, (switch_not_constant k Hk). exact Hc.
    + intros k2 v2 Hk2 Hget. rewrite dict_get_set.
      destruct (String.eqb_spec k k2) as [<-|]; [|exact Hget].
      exfalso.
      assert (Hin : dict_in d k = true) by (apply dict_in_get; eauto).
      destruct Hk as [Hk| ->]; [now rewrite (Hsw k Hk) in Hin|].
      now rewrite (Hi eq_refl) in Hin.
    + intros v' k' H. injection H as <- <-. rewrite dict_get_set.
      now rewrite String.eqb_refl.
  - rewrite Hc in Hstep. cbn [bind] in Hstep. injection Hstep as <-.
    split; [|split].
    + rewrite dict_get_set. reflexivity.
    + intros k2 v2 Hk2 Hget. rewrite dict_get_set.
      destruct (String.eqb_spec "constant" k2); [congruence|exact Hget].
    + discriminate.
Qed.

Lemma unpack_loop_content (tokens : list string) (d u : group) (c0 : list string) :
  for_each tokens unpack_step d = Ok u ->
  dict_get d "constant" = Some c0 ->
  dict_get u "constant" = Some (c0 ++ filter is_plain tokens)
  /\ (forall k v, k <> "constant" -> dict_get d k = Some v -> dict_get u k = Some v)
  /\ (forall t v k, In t tokens -> _find_sw t = Found v k -> dict_get u k = Some v).
Proof.
  revert d c0. induction tokens as [|t tokens IH]; intros d c0; cbn [for_each].
  - intros H Hc. injection H as <-. rewrite app_nil_r.
    split; [exact Hc|]. split; [auto|]. intros t v k [].
  - destruct (unpack_step d t) as [d'|e] eqn:Hstep; cbn [bind]; [|discriminate].
    intros Hloop Hc.
    destruct (unpack_step_content d d' t c0 Hstep Hc) as (Hc' & Hkeep & Hnew).
    destruct (IH d' _ Hloop Hc') as (Hcu & Hkeepu & Hnewu).
    split; [|split].
    + rewrite Hcu, <- app_assoc, <- filter_app. reflexivity.
    + intros k v Hk Hget. apply Hkeepu; [exact Hk|]. now apply Hkeep.
    + intros t' v k [<-|Hin] Hf.
      * apply Hkeepu; [|now apply Hnew].
        apply String.eqb_neq, switch_not_constant.
        exact (proj2 (find_sw_found t v k Hf)).
      * now apply (Hnewu t').
Qed.

(** Nothing is lost in unpacking: the plain tokens are the list under
    ['constant'], in their order, and the arguments of every switch or
    interaction token are the list under its keyword. *)
Theorem unpack_content (x : string) (u : group) :
  _unpack_fml x = Ok u ->
  dict_get u "constant" = Some (filter is_plain (Py.split "+" x))
  /\ forall t v k,
       In t (Py.split "+" x) -> _find_sw t = Found v k -> dict_get u k = Some v.
Proof.
  unfold _unpack_fml. intros H.
  destruct (unpack_loop_content (Py.split "+" x) _ u [] H eq_refl)
    as (Hc & _ & Hnew).
  split; [exact Hc|exact Hnew].
Qed.

Lemma unpack_content_witness :
  dict_get [("constant", ["a"; "b"]); ("i", ["d"; "e"]); ("sw", ["x"; "y"])]
           "constant"
  = Some ["a"; "b"]
  /\ forall t v k,
       In t ["a"; "i(d,e)"; "b"; "sw(x,y)"] -> _find_sw t = Found v k ->
       dict_get [("constant", ["a"; "b"]); ("i", ["d"; "e"]); ("sw", ["x"; "y"])] k
       = Some v.
Proof. apply (unpack_content "a+i(d,e)+b+sw(x,y)"). reflexivity. Defined.

(** The invariant of an unpacked group: ['constant'] is a key, every other
    key is one of the five keywords and holds a non-empty list, and at most
    one of the four switch keywords is a key. *)
Theorem unpacked_group_invariant (x : string) (u : group) :
  _unpack_fml x = Ok u ->
  dict_in u "constant" = true
  /\ (forall k args, dict_get u k = Some args -> k <> "constant" ->
      args <> [] /\ In k ["sw"; "csw"; "sw0"; "csw0"; "i"])
  /\ (forall k1 k2, In k1 switch_family -> In k2 switch_family ->
      dict_in u k1 = true -> dict_in u k2 = true -> k1 = k2)
  /\ NoDup (dict_keys u).
Proof.
  intros Hu. destruct (unpack_well_formed x u Hu) as [Hc Hkeys Hone].
  split; [now apply dict_in_get|]. split; [|split].
  - intros k args Hget Hk. destruct (Hkeys k args Hget Hk) as [Hne Hkind].
    split; [exact Hne|]. each_kind Hkind; cbn [In]; auto 10.
  - intros k1 k2 H1 H2. apply Hone; now apply mem_In.
  - pose proof (unpack_accepts x) as Hacc. pose proof (kinds_ok x) as Hok.
    destruct (accepted (kinds x)) eqn:Ha; [|congruence].
    destruct Hacc as (u' & Hu' & Hk). rewrite Hu in Hu'. injection Hu' as <-.
    rewrite Hk. constructor.
    + intros Hin. rewrite Forall_forall in Hok. apply Hok in Hin.
      apply switch_not_constant in Hin. discriminate Hin.
    + destruct (kinds x) as [|k1 [|k2 [|k3 r]]]; try discriminate Ha.
      * constructor.
      * constructor; [intros []|constructor].
      * cbn [accepted] in Ha. apply andb_true_iff in Ha. destruct Ha as [H1 H2].
        apply String.eqb_eq in H1. subst k1.
        constructor; [|constructor; [intros []|constructor]].
        intros [E|[]]. subst k2. discriminate H2.
Qed.

Lemma unpacked_group_invariant_witness :
  dict_in [("constant", ["a"]); ("i", ["d"; "e"]); ("sw", ["b"; "c"])] "constant"
  = true
  /\ (forall k args,
        dict_get [("constant", ["a"]); ("i", ["d"; "e"]); ("sw", ["b"; "c"])] k
        = Some args ->
        k <> "constant" ->
        args <> [] /\ In k ["sw"; "csw"; "sw0"; "csw0"; "i"])
  /\ (forall k1 k2, In k1 switch_family -> In k2 switch_family ->
      dict_in [("constant", ["a"]); ("i", ["d"; "e"]); ("sw", ["b"; "c"])] k1
      = true ->
      dict_in [("constant", ["a"]); ("i", ["d"; "e"]); ("sw", ["b"; "c"])] k2
      = true ->
      k1 = k2)
  /\ NoDup (dict_keys [("constant", ["a"]); ("i", ["d"; "e"]); ("sw", ["b"; "c"])]).
Proof. apply (unpacked_group_invariant "a+i(d,e)+sw(b,c)"). reflexivity. Defined.

(** ** The expander *)

(** [_pack_to_fml] raises only its "Not a valid formula" exception, and
    exactly when the constant part is empty and the switch that the function
    selects (the first of [csw], [csw0], [sw], [sw0] that is a key) is absent
    or holds the empty list; an empty [csw] entry hides the arguments of an
    [sw] entry.  On a group returned by [_unpack_fml], where no entry of a
    switch is empty, this is exactly when the constant part is empty and no
    switch keyword is a key. *)
Theorem pack_raises (u : group) (e : exn) :
  (_pack_to_fml u = Error e <->
   e = Exception_not_valid_formula
   /\ constant_part u = ""
   /\ fst (selected u) = [])
  /\ (forall x, _unpack_fml x = Ok u ->
      (_pack_to_fml u = Error e <->
       e = Exception_not_valid_formula
       /\ constant_part u = ""
       /\ forall k, is_switch k = true -> dict_in u k = false)).
Proof.
  assert (Hraise : _pack_to_fml u = Error e <->
                   e = Exception_not_valid_formula
                   /\ constant_part u = ""
                   /\ fst (selected u) = []).
  { rewrite pack_eq. unfold pack_model.
    destruct (fst (selected u)) as [|a l]; cbn [Py.nonempty].
    - destruct (constant_part u) as [|c s]; cbn [Py.truthy]; split.
      + intros H. injection H as <-. auto.
      + intros (-> & _ & _). reflexivity.
      + discriminate.
      + intros (_ & H & _). discriminate H.
    - assert (Hne : forall (b1 b2 : bool),
                 Py.nonempty ((if b1 then ["0"] else [])
                              ++ (if b2 then cumulative (a :: l) else a :: l))
                 = true).
      { intros [|] [|]; reflexivity. }
      rewrite Hne. split.
      + destruct (Py.truthy (constant_part u)); discriminate.
      + intros (_ & _ & H). discriminate H. }
  split; [exact Hraise|].
  intros x Hu. pose proof (unpack_well_formed x u Hu) as Hwf.
  rewrite Hraise. split; intros (He & Hc & Hsel); (split; [exact He|]);
    (split; [exact Hc|]).
  - intros k Hk. unfold dict_in.
    destruct (dict_get u k) as [args|] eqn:Hget; [|reflexivity].
    destruct (selected_switch u k args Hwf Hk Hget) as [E Hne].
    rewrite E in Hsel. cbn [fst] in Hsel. contradiction.
  - now rewrite (selected_none u Hsel).
Qed.

(** An independent switch: for a group unpacked from [x] whose switch is
    [sw] or [sw0] with arguments [a0..a(n-1)], the variants besides the
    sentinel are the constant part joined to one argument each, in the order
    of the arguments; with a non-empty constant part an argument that is the
    string ["0"] is left out. *)
Theorem sw_variants (x : string) (u : group) (kind : string) (args : list string) :
  _unpack_fml x = Ok u ->
  kind = "sw" \/ kind = "sw0" ->
  dict_get u kind = Some args ->
  exists vs,
    _pack_to_fml u = Ok vs
    /\ non_sentinel kind vs
       = map (with_constant (constant_part u)) (filter (kept (constant_part u)) args)
    /\ (constant_part u = "" \/ ~ In "0" args ->
        non_sentinel kind vs = map (with_constant (constant_part u)) args
        /\ length (non_sentinel kind vs) = length args).
Proof.
  intros Hu Hk Hget.
  pose proof (unpack_well_formed x u Hu) as Hwf.
  assert (Hsw : is_switch kind = true) by (destruct Hk as [->| ->]; reflexivity).
  assert (Hcum : is_cumulative kind = false)
    by (destruct Hk as [->| ->]; reflexivity).
  rewrite (pack_switch u kind args Hwf Hsw Hget).
  unfold derived. rewrite Hcum. eexists. split; [reflexivity|].
  assert (E : forall l,
             non_sentinel kind
               ((if has_sentinel kind then [sentinel (constant_part u)] else [])
                ++ l) = l).
  { intros l. unfold non_sentinel. destruct (has_sentinel kind); reflexivity. }
  rewrite E. split; [reflexivity|]. intros Hzero.
  rewrite kept_all by exact Hzero. split; [reflexivity|apply length_map].
Qed.

Lemma sw_variants_witness :
  exists vs,
    _pack_to_fml [("constant", ["x"]); ("sw", ["a"; "b"; "c"])] = Ok vs
    /\ non_sentinel "sw" vs = ["x+a"; "x+b"; "x+c"]
    /\ ("x" = "" \/ ~ In "0" ["a"; "b"; "c"] ->
        non_sentinel "sw" vs = ["x+a"; "x+b"; "x+c"]
        /\ length (non_sentinel "sw" vs) = 3).
Proof.
  refine (sw_variants "x+sw(a,b,c)" [("constant", ["x"]); ("sw", ["a"; "b"; "c"])]
            "sw" ["a"; "b"; "c"] _ _ _).
  - reflexivity.
  - left. reflexivity.
  - reflexivity.
Defined.

(** Every variant that [_pack_to_fml] returns for a group with a non-empty
    constant part is that constant part, alone or followed by [+] and more. *)
Theorem variants_begin_with_constant_part (u : group) (vs : list string) :
  _pack_to_fml u = Ok vs ->
  constant_part u <> "" ->
  forall v, In v vs ->
    v = constant_part u \/ exists w, v = constant_part u +s "+" +s w.
Proof. apply pack_variants_shape. Qed.

Lemma variants_begin_with_constant_part_witness :
  _pack_to_fml [("constant", ["a"]); ("i", ["b"; "c"]); ("csw0", ["x"; "y"])]
  = Ok ["a+b:c"; "a+b:c+x"; "a+b:c+x+y"]
  /\ ("a+b:c+x+y" = "a+b:c" \/ exists w, "a+b:c+x+y" = "a+b:c" +s "+" +s w).
Proof.
  split; [reflexivity|].
  refine (variants_begin_with_constant_part
            [("constant", ["a"]); ("i", ["b"; "c"]); ("csw0", ["x"; "y"])]
            ["a+b:c"; "a+b:c+x"; "a+b:c+x+y"] _ _ "a+b:c+x+y" _).
  - reflexivity.
  - discriminate.
  - right. right. left. reflexivity.
Defined.

(** *** The characters of the variants *)

Lemma written_spec (c : ascii) :
  written c = false ->
  Py.contains c "+" = false /\ Py.contains c ":" = false
  /\ Py.contains c "0" = false.
Proof.
  unfold written. rewrite !orb_false_iff. cbn [Py.contains].
  rewrite (Ascii.eqb_sym "+" c), (Ascii.eqb_sym ":" c), (Ascii.eqb_sym "0" c).
  intros [[-> ->] ->]. auto.
Qed.

Lemma selected_free (c : ascii) (u : group) :
  group_free c u -> forall a, In a (fst (selected u)) -> Py.contains c a = false.
Proof.
  intros Hu a. unfold selected.
  destruct (dict_get u "csw") as [v|] eqn:E1; [apply (Hu _ _ _ E1)|].
  destruct (dict_get u "csw0") as [v|] eqn:E2; [apply (Hu _ _ _ E2)|].
  destruct (dict_get u "sw") as [v|] eqn:E3; [apply (Hu _ _ _ E3)|].
  destruct (dict_get u "sw0") as [v|] eqn:E4; [apply (Hu _ _ _ E4)|].
  intros [].
Qed.

Lemma constant_part_free (c : ascii) (u : group) :
  written c = false -> group_free c u -> Py.contains c (constant_part u) = false.
Proof.
  intros Hc Hu. destruct (written_spec c Hc) as (Hplus & Hcolon & _).
  unfold constant_part, constant_names, constants.
  apply join_free; [exact Hplus|]. intros f Hf. apply in_app_or in Hf.
  destruct Hf as [Hf|Hf].
  - destruct (dict_get u "constant") as [v|] eqn:E; [|destruct Hf].
    exact (Hu _ _ _ E Hf).
  - destruct (dict_get u "i") as [v|] eqn:E; [|destruct Hf].
    destruct Hf as [<-|[]]. apply join_free; [exact Hcolon|].
    intros a Ha. exact (Hu _ _ _ E Ha).
Qed.

Lemma cumulative_free (c : ascii) (args : list string) :
  Py.contains c "+" = false ->
  (forall a, In a args -> Py.contains c a = false) ->
  forall v, In v (cumulative args) -> Py.contains c v = false.
Proof.
  intros Hplus Hargs v Hv. unfold cumulative in Hv. apply in_map_iff in Hv.
  destruct Hv as (k & <- & _). apply join_free; [exact Hplus|].
  intros f Hf. apply Hargs. rewrite <- (firstn_skipn (k + 1) args).
  apply in_or_app. now left.
Qed.

Lemma pack_free (c : ascii) (u : group) (vs : list string) :
  written c = false -> group_free c u -> _pack_to_fml u = Ok vs ->
  forall v, In v vs -> Py.contains c v = false.
Proof.
  intros Hc Hu. destruct (written_spec c Hc) as (Hplus & Hcolon & Hzero).
  pose proof (constant_part_free c u Hc Hu) as Hcp.
  pose proof (selected_free c u Hu) as Hsel.
  rewrite pack_eq. unfold pack_model.
  set (variable := fst (selected u)) in *.
  set (variable_fml :=
         if Py.nonempty variable
         then (if match snd (selected u) with
                  | Some k => has_sentinel k | None => false end
               then ["0"] else [])
              ++ (if match snd (selected u) with
                     | Some k => is_cumulative k | None => false end
                  then cumulative variable else variable)
         else []).
  assert (Hvf : forall v, In v variable_fml -> Py.contains c v = false).
  { unfold variable_fml. intros v Hv.
    destruct (Py.nonempty variable); [|destruct Hv].
    apply in_app_or in Hv. destruct Hv as [Hv|Hv].
    - destruct (match snd (selected u) with
                | Some k => has_sentinel k | None => false end); [|destruct Hv].
      destruct Hv as [<-|[]]. exact Hzero.
    - destruct (match snd (selected u) with
                | Some k => is_cumulative k | None => false end);
        [now apply (cumulative_free c variable)|now apply Hsel]. }
  destruct (Py.nonempty variable_fml).
  - destruct (Py.truthy (constant_part u)); intros H; injection H as <-;
      [|exact Hvf].
    intros v Hv. apply in_app_or in Hv. destruct Hv as [Hv|Hv].
    + destruct (match snd (selected u) with
                | Some k => has_sentinel k | None => false end); [|destruct Hv].
      destruct Hv as [<-|[]]. exact Hcp.
    + apply in_map_iff in Hv. destruct Hv as (w & <- & Hw).
      apply filter_In in Hw. rewrite !contains_add, Hcp, Hplus. cbn [orb].
      apply Hvf, Hw.
  - destruct (Py.truthy (constant_part u)); [|discriminate].
    intros H; injection H as <-. intros v [<-|[]]. exact Hcp.
Qed.

Lemma unpack_step_free (c : ascii) (d d' : group) (t : string) :
  Py.contains c t = false -> group_free c d -> unpack_step d t = Ok d' ->
  group_free c d'.
Proof.
  intros Ht Hd. unfold unpack_step, dict_item.
  destruct (_find_sw t) as [v k|y] eqn:Hf.
  - destruct (Py.mem k _); [|discriminate].
    destruct (_check_duplicate_key d k); [|discriminate]. cbn [bind].
    intros H; injection H as <-. intros k' v' nm. rewrite dict_get_set.
    destruct (String.eqb k k'); [|apply Hd].
    intros H Ha. injection H as <-.
    destruct (find_sw_group t v k Hf) as (kw & g & Hg & ->).
    apply (split_field_free c "," g); [|exact Ha].
    now apply (findall_first_free c kw t g).
  - destruct (dict_get d "constant") as [c0|] eqn:E; [|discriminate]. cbn [bind].
    intros H; injection H as <-. intros k' v' nm. rewrite dict_get_set.
    destruct (String.eqb "constant" k'); [|apply Hd].
    intros H Ha. injection H as <-. apply in_app_or in Ha.
    destruct Ha as [Ha|[<-|[]]]; [exact (Hd _ _ _ E Ha)|exact Ht].
Qed.

Lemma unpack_free (c : ascii) (x : string) (u : group) :
  Py.contains c x = false -> _unpack_fml x = Ok u -> group_free c u.
Proof.
  intros Hx. unfold _unpack_fml.
  assert (Htok : forall t, In t (Py.split "+" x) -> Py.contains c t = false)
    by (intros t; now apply split_field_free).
  assert (Hinit : group_free c (dict_set [] "constant" [])).
  { intros k v a. cbn [dict_set dict_get].
    destruct (String.eqb "constant" k); [|discriminate].
    intros H; injection H as <-. intros []. }
  revert Htok Hinit. generalize (dict_set (V:=list string) [] "constant" []).
  induction (Py.split "+" x) as [|t tokens IH]; intros d Htok Hd; cbn [for_each].
  - intros H; now injection H as <-.
  - destruct (unpack_step d t) as [d'|] eqn:Hstep; [|discriminate]. cbn [bind].
    apply IH; [intros t' Ht'; apply Htok; now right|].
    apply (unpack_step_free c d d' t); auto. apply Htok. now left.
Qed.

(** Expansion invents no characters: a character other than [+], [:] and [0]
    that does not occur in the group string occurs in none of its variants. *)
Theorem expand_characters (c : ascii) (x : string) (vs : list string) :
  expand x = Ok vs ->
  written c = false ->
  Py.contains c x = false ->
  forall v, In v vs -> Py.contains c v = false.
Proof.
  unfold expand. intros H Hc Hx.
  destruct (_unpack_fml x) as [u|] eqn:Hu; [|discriminate]. cbn [bind] in H.
  apply (pack_free c u vs Hc); [|exact H]. now apply (unpack_free c x).
Qed.

Lemma expand_characters_witness :
  expand "a+csw(b,c)" = Ok ["a+b"; "a+b+c"]
  /\ Py.contains "~" "a+b+c" = false.
Proof.
  split; [reflexivity|].
  refine (expand_characters "~" "a+csw(b,c)" ["a+b"; "a+b+c"] _ _ _ "a+b+c" _);
    try reflexivity.
  right. left. reflexivity.
Defined.

(** ** Expansion of group strings *)

(** A group string without an opening parenthesis expands to itself, and the
    empty group string is not a valid formula. *)
Theorem expand_without_parentheses (x : string) :
  Py.contains "(" x = false ->
  (x <> "" -> expand x = Ok [x])
  /\ (x = "" -> expand x = Error Exception_not_valid_formula).
Proof.
  intros Hx. apply plain_string_expand. intros t Ht.
  apply find_sw_not_found. left. now apply (split_field_free "(" "+" x).
Qed.

Lemma expand_without_parentheses_witness :
  ("X1+X2:X3+X4^X5" <> "" -> expand "X1+X2:X3+X4^X5" = Ok ["X1+X2:X3+X4^X5"])
  /\ ("X1+X2:X3+X4^X5" = "" ->
      expand "X1+X2:X3+X4^X5" = Error Exception_not_valid_formula).
Proof. apply (expand_without_parentheses "X1+X2:X3+X4^X5"). reflexivity. Defined.

Lemma is_name_spec (a : string) :
  is_name a = true -> is_argument a = true /\ Py.contains "+" a = false.
Proof. unfold is_name. rewrite andb_true_iff, negb_true_iff. tauto. Qed.

Lemma call_no_plus (k : string) (args : list string) :
  kind_ok k -> (forall a, In a args -> is_name a = true) ->
  Py.contains "+" (call k args) = false.
Proof.
  intros Hk Hargs. unfold call. rewrite !contains_add.
  rewrite (join_free "+" "," args); [|reflexivity|].
  - each_kind Hk; reflexivity.
  - intros a Ha. now apply is_name_spec, Hargs.
Qed.

Lemma unpack_constant_and_call (c k : string) (args : list string) :
  is_name c = true -> kind_ok k -> args <> [] ->
  (forall a, In a args -> is_name a = true) ->
  _unpack_fml (c +s "+" +s call k args) = Ok [("constant", [c]); (k, args)].
Proof.
  intros Hc Hk Hne Hargs.
  destruct (is_name_spec c Hc) as [Hcarg Hcplus].
  apply is_argument_spec in Hcarg. destruct Hcarg as (Hopen & _).
  unfold _unpack_fml. rewrite add_assoc.
  change ("+" +s call k args) with (String "+" (call k args)).
  rewrite split_add by exact Hcplus.
  rewrite split_no_sep by now apply call_no_plus.
  cbn [for_each dict_set]. unfold unpack_step at 1.
  rewrite (find_sw_not_found c) by now left.
  cbn [dict_item dict_get dict_set String.eqb Ascii.eqb Bool.eqb bind app].
  unfold unpack_step.
  rewrite (find_sw_reads_call k args Hk Hne)
    by (intros a Ha; now apply is_name_spec, Hargs).
  each_kind Hk; reflexivity.
Qed.

(** The expansion of a constant name and one switch call, end to end: the
    sentinel of [sw0] and [csw0] is the constant alone, and every variant of
    the arguments that is not the string ["0"] follows, joined to the
    constant. *)
Theorem expand_switch_call (c k : string) (args : list string) :
  is_name c = true -> c <> "" ->
  is_switch k = true ->
  args <> [] ->
  (forall a, In a args -> is_name a = true) ->
  expand (c +s "+" +s call k args)
  = Ok ((if has_sentinel k then [c] else [])
        ++ map (fun v => c +s "+" +s v)
               (filter (fun v => negb (String.eqb v "0")) (derived k args))).
Proof.
  intros Hc Hne Hk Hargs Hnames. unfold expand.
  rewrite (unpack_constant_and_call c k args Hc (or_introl Hk) Hargs Hnames).
  cbn [bind]. rewrite pack_eq.
  assert (Hsel : selected [("constant", [c]); (k, args)] = (args, Some k)).
  { each_switch Hk; reflexivity. }
  assert (Hcp : constant_part [("constant", [c]); (k, args)] = c).
  { each_switch Hk; reflexivity. }
  rewrite Hsel, Hcp. cbn [fst snd]. unfold pack_model.
  fold (derived k args).
  apply truthy_true in Hne. rewrite Hne.
  destruct args as [|a0 args0]; [congruence|]. cbn [Py.nonempty].
  assert (Hvf : Py.nonempty ((if has_sentinel k then ["0"] else [])
                             ++ derived k (a0 :: args0)) = true).
  { destruct (has_sentinel k); [reflexivity|].
    apply derived_nonempty. discriminate. }
  rewrite Hvf. destruct (has_sentinel k); reflexivity.
Qed.

Lemma expand_switch_call_witness :
  expand ("x" +s "+" +s call "csw0" ["a"; "b"]) = Ok ["x"; "x+a"; "x+a+b"].
Proof.
  refine (expand_switch_call "x" "csw0" ["a"; "b"] _ _ _ _ _).
  - reflexivity.
  - discriminate.
  - reflexivity.
  - discriminate.
  - intros a [<-|[<-|[]]]; reflexivity.
Defined.

(** The expansion of a constant name and one interaction call: one variant,
    the constant followed by the colon-joined arguments. *)
Theorem expand_interaction_call (c : string) (args : list string) :
  is_name c = true -> c <> "" ->
  args <> [] ->
  (forall a, In a args -> is_name a = true) ->
  expand (c +s "+" +s call "i" args) = Ok [c +s "+" +s Py.join ":" args].
Proof.
  intros Hc Hne Hargs Hnames. unfold expand.
  rewrite (unpack_constant_and_call c "i" args Hc (or_intror eq_refl) Hargs Hnames).
  cbn [bind]. rewrite pack_no_switch.
  - assert (Hcp : constant_part [("constant", [c]); ("i", args)]
                  = c +s "+" +s Py.join ":" args).
    { unfold constant_part, constant_names, constants.
      cbn [dict_get String.eqb Ascii.eqb Bool.eqb app]. apply join_cons2. }
    rewrite Hcp.
    destruct c as [|x c]; [congruence|]. reflexivity.
  - intros k Hk. each_switch Hk; reflexivity.
Qed.

Lemma expand_interaction_call_witness :
  expand ("x" +s "+" +s call "i" ["a"; "b"]) = Ok ["x+a:b"].
Proof.
  refine (expand_interaction_call "x" ["a"; "b"] _ _ _ _).
  - reflexivity.
  - discriminate.
  - discriminate.
  - intros a [<-|[<-|[]]]; reflexivity.
Defined.

(** ** The constructor on its edge cases *)

Lemma first_field_in (sep : ascii) (s : string) :
  In (nth 0 (Py.split sep s) "") (Py.split sep s).
Proof.
  pose proof (split_nonempty sep s) as H.
  destruct (Py.split sep s); [congruence|]. now left.
Qed.

(** A formula without [~] makes the constructor raise the [ValueError] of
    the tuple assignment of line 52; the empty formula is one. *)
Theorem init_without_tilde (fml : string) :
  Py.contains "~" (Py.join_split_ws fml) = false ->
  P.__init__ fml = Error ValueError_unpack.
Proof.
  intros H. unfold P.__init__, P.tokenize.
  rewrite (split_no_sep "~"); [reflexivity|].
  apply (split_field_free "~" "|" (Py.join_split_ws fml)); [exact H|].
  apply first_field_in.
Qed.

Lemma init_without_tilde_witness :
  P.__init__ "" = Error ValueError_unpack
  /\ P.__init__ "Y + X1 | F" = Error ValueError_unpack.
Proof.
  split; [apply (init_without_tilde "")|apply (init_without_tilde "Y + X1 | F")];
    reflexivity.
Defined.

(** A formula without [|] that the constructor accepts has the single
    fixed-effect variant ["0"] and is not an IV formula: every attribute of
    the first stage is [None]. *)
Theorem init_without_bar (fml : string) (self : P.t) :
  P.__init__ fml = Ok self ->
  Py.contains "|" (Py.join_split_ws fml) = false ->
  P.fevars self = [("constant", ["0"])]
  /\ P.fevars_fml self = ["0"]
  /\ P.is_iv self = false
  /\ P.endogvars self = None
  /\ P.instruments self = None
  /\ P.covars_first_stage self = None
  /\ P.covars_first_stage_fml self = None.
Proof.
  intros Hinit Hbar.
  destruct (init_inversion fml self Hinit)
    as (depvars & covars & fevars & iv & uc & uf & first & uc' & ivs & cf & ff
        & fsf & Htok & _ & _ & Huf & Hfirst & _ & _ & Hff & Hfsf & ->).
  unfold P.tokenize in Htok. rewrite (split_no_sep "|") in Htok by exact Hbar.
  cbn [nth length] in Htok.
  destruct (Py.unpack2 _) as [[d c]|]; [|discriminate]. cbn [bind] in Htok.
  injection Htok as <- <- <- <-.
  cbn [P.first_stage] in Hfirst. injection Hfirst as <-.
  injection Hfsf as <-.
  change (_unpack_fml "0") with (Ok (A:=group) [("constant", ["0"])]) in Huf.
  injection Huf as <-.
  change (_pack_to_fml [("constant", ["0"])]) with (Ok (A:=list string) ["0"])
    in Hff.
  injection Hff as <-. repeat split; reflexivity.
Qed.

Lemma init_without_bar_witness :
  exists self,
    P.__init__ "Y ~ X1 + sw(X2, X3)" = Ok self
    /\ P.fevars self = [("constant", ["0"])]
    /\ P.fevars_fml self = ["0"]
    /\ P.is_iv self = false
    /\ P.endogvars self = None
    /\ P.instruments self = None
    /\ P.covars_first_stage self = None
    /\ P.covars_first_stage_fml self = None.
Proof.
  eexists. split; [reflexivity|].
  apply (init_without_bar "Y ~ X1 + sw(X2, X3)"); reflexivity.
Defined.

Lemma join_split_ws_add (a b : string) :
  Py.join_split_ws (a +s b) = Py.join_split_ws a +s Py.join_split_ws b.
Proof.
  unfold Py.add. induction a as [|c a IH]; cbn [String.append Py.join_split_ws];
    [reflexivity|].
  destruct (Py.isspace c); [exact IH|]. cbn [String.append]. now rewrite IH.
Qed.

Lemma join_split_ws_idempotent (s : string) :
  Py.join_split_ws (Py.join_split_ws s) = Py.join_split_ws s.
Proof.
  induction s as [|c s IH]; cbn [Py.join_split_ws]; [reflexivity|].
  destruct (Py.isspace c) eqn:E; [exact IH|].
  cbn [Py.join_split_ws]. now rewrite E, IH.
Qed.

Lemma init_depends_on_stripped (fml1 fml2 : string) :
  Py.join_split_ws fml1 = Py.join_split_ws fml2 ->
  P.__init__ fml1 = P.__init__ fml2.
Proof. intros H. unfold P.__init__, P.tokenize. now rewrite H. Qed.

(** White space is irrelevant to the constructor: inserting a blank string
    anywhere in a formula changes neither the instance nor the exception, and
    a formula and its stripped form construct the same. *)
Theorem init_ignores_white_space (a ws b : string) :
  blank ws = true ->
  P.__init__ (a +s ws +s b) = P.__init__ (a +s b)
  /\ P.__init__ (Py.join_split_ws (a +s ws +s b)) = P.__init__ (a +s b).
Proof.
  intros Hws.
  assert (E : Py.join_split_ws ws = "").
  { unfold blank in Hws. destruct (Py.join_split_ws ws); [reflexivity|discriminate]. }
  assert (Es : Py.join_split_ws (a +s ws +s b) = Py.join_split_ws (a +s b)).
  { rewrite !join_split_ws_add, E. unfold Py.add at 2.
    clear. induction (Py.join_split_ws a) as [|c s IH]; [reflexivity|].
    cbn [String.append Py.add] in *. unfold Py.add in *. cbn [String.append].
    now rewrite IH. }
  split; apply init_depends_on_stripped; [exact Es|].
  now rewrite join_split_ws_idempotent.
Qed.

Lemma init_ignores_white_space_witness :
  P.__init__ ("Y~X1" +s "   " +s "+csw(X2,X3)") = P.__init__ ("Y~X1" +s "+csw(X2,X3)")
  /\ P.__init__ (Py.join_split_ws ("Y~X1" +s "   " +s "+csw(X2,X3)"))
     = P.__init__ ("Y~X1" +s "+csw(X2,X3)").
Proof. apply (init_ignores_white_space "Y~X1" "   " "+csw(X2,X3)"). reflexivity. Defined.

(** ** Instances of IV formulas *)

Lemma index_in (x : string) (l : list string) (i : nat) :
  Py.index x l = Ok i -> In x l.
Proof.
  revert i. induction l as [|y l IH]; cbn [Py.index]; intros i; [discriminate|].
  destruct (String.eqb_spec y x) as [->|]; [now left|].
  destruct (Py.index x l) as [j|]; [|discriminate]. intros _. right. now apply (IH j).
Qed.

Lemma unpack2_fields (sep : ascii) (s a b : string) :
  Py.unpack2 (Py.split sep s) = Ok (a, b) ->
  Py.contains sep a = false /\ Py.contains sep b = false
  /\ forall c, Py.contains c s = false ->
       Py.contains c a = false /\ Py.contains c b = false.
Proof.
  unfold Py.unpack2. intros H.
  destruct (Py.split sep s) as [|a' [|b' [|c' l]]] eqn:E; try discriminate.
  injection H as <- <-.
  assert (Ha : In a' (Py.split sep s)) by (rewrite E; now left).
  assert (Hb : In b' (Py.split sep s)) by (rewrite E; right; now left).
  split; [now apply (split_field_no_sep sep s)|].
  split; [now apply (split_field_no_sep sep s)|].
  intros c Hc. split; now apply (split_field_free c sep s).
Qed.

(** The pieces that [tokenize] cuts out of a formula: the dependent
    variables, the covariates and the two sides of the IV block hold no [~]
    and no [|], and the two sides are of equal length once the determinacy
    check has passed. *)
Lemma tokenize_pieces (fml depvars covars fevars : string)
      (iv : option (string * string)) :
  P.tokenize fml = Ok (depvars, covars, fevars, iv) ->
  (forall c, c = "~"%char \/ c = "|"%char ->
     Py.contains c depvars = false /\ Py.contains c covars = false
     /\ forall e z, iv = Some (e, z) ->
          Py.contains c e = false /\ Py.contains c z = false).
Proof.
  unfold P.tokenize. set (s := Py.join_split_ws fml).
  assert (Hseg : forall n, n < length (Py.split "|" s) ->
                 Py.contains "|" (nth n (Py.split "|" s) "") = false).
  { intros n Hn. apply (split_field_no_sep "|" s). now apply nth_In. }
  destruct (Py.unpack2 (Py.split "~" (nth 0 (Py.split "|" s) "")))
    as [[d c0]|] eqn:Hdc; [|discriminate]. cbn [bind].
  destruct (unpack2_fields "~" _ d c0 Hdc) as (Hd & Hc0 & Hfree).
  assert (H0 : 0 < length (Py.split "|" s)).
  { pose proof (split_nonempty "|" s). destruct (Py.split "|" s);
      [congruence|cbn; lia]. }
  destruct (Hfree "|"%char (Hseg 0 H0)) as [Hd' Hc0'].
  assert (Hdep : forall c, c = "~"%char \/ c = "|"%char ->
                 Py.contains c d = false /\ Py.contains c c0 = false).
  { intros c [->| ->]; auto. }
  destruct (length (Py.split "|" s)) as [|[|[|[|n]]]] eqn:Hlen; try discriminate.
  - intros H; injection H as <- <- <- <-. intros c Hc.
    destruct (Hdep c Hc). repeat split; auto; discriminate.
  - destruct (Py.contains "~" (nth 1 (Py.split "|" s) "")).
    + destruct (Py.unpack2 (Py.split "~" (nth 1 (Py.split "|" s) "")))
        as [[e z]|] eqn:Hez; [|discriminate]. cbn [bind].
      intros H; injection H as <- <- <- <-. intros c Hc.
      destruct (Hdep c Hc). split; [auto|]. split; [auto|].
      intros e' z' H'. injection H' as <- <-.
      destruct (unpack2_fields "~" _ e z Hez) as (He & Hz & Hfree').
      destruct Hc as [->| ->]; [auto|]. apply Hfree', Hseg. lia.
    + intros H; injection H as <- <- <- <-. intros c Hc.
      destruct (Hdep c Hc). repeat split; auto; discriminate.
  - destruct (Py.unpack2 (Py.split "~" (nth 2 (Py.split "|" s) "")))
      as [[e z]|] eqn:Hez; [|discriminate]. cbn [bind].
    intros H; injection H as <- <- <- <-. intros c Hc.
    destruct (Hdep c Hc). split; [auto|]. split; [auto|].
    intros e' z' H'. injection H' as <- <-.
    destruct (unpack2_fields "~" _ e z Hez) as (He & Hz & Hfree').
    destruct Hc as [->| ->]; [auto|]. apply Hfree', Hseg. lia.
Qed.

(** The attributes of the first stage go together: an IV instance has a
    single endogenous variable (a string without [+], [~] and [|]) that is as
    long as the instrument string, and its first-stage string, group and
    variants are set, the variants being the expansion of the group; on an
    instance that is not IV the constructor sets [endogvars], [instruments],
    [depvars_first_stage], [covars_first_stage] and [covars_first_stage_fml]
    to [None] and does not assign [first_stage_covars_list]. *)
Theorem iv_attributes (fml : string) (self : P.t) :
  P.__init__ fml = Ok self ->
  (P.is_iv self = true ->
   exists e z joined g l,
     P.endogvars self = Some e
     /\ P.depvars_first_stage self = Some e
     /\ P.instruments self = Some z
     /\ Py.len e = Py.len z
     /\ Py.contains "+" e = false
     /\ Py.contains "~" e = false /\ Py.contains "|" e = false
     /\ Py.contains "~" z = false /\ Py.contains "|" z = false
     /\ P.first_stage_covars_list self = P.Assigned joined
     /\ P.covars_first_stage self = Some g
     /\ _unpack_fml joined = Ok g
     /\ P.covars_first_stage_fml self = Some l
     /\ _pack_to_fml g = Ok l)
  /\ (P.is_iv self = false ->
      P.endogvars self = None /\ P.depvars_first_stage self = None
      /\ P.instruments self = None
      /\ P.first_stage_covars_list self = P.Unassigned
      /\ P.covars_first_stage self = None
      /\ P.covars_first_stage_fml self = None).
Proof.
  intros Hinit.
  destruct (init_inversion fml self Hinit)
    as (depvars & covars & fevars & iv & uc & uf & first & uc' & ivs & cf & ff
        & fsf & Htok & Hdet & _ & _ & Hfirst & _ & _ & _ & Hfsf & ->).
  cbn [P.is_iv P.endogvars P.depvars_first_stage P.instruments
       P.first_stage_covars_list P.covars_first_stage P.covars_first_stage_fml].
  destruct iv as [[e z]|]; split; try discriminate.
  - intros _. apply check_determinacy_lengths in Hdet.
    pose proof (tokenize_pieces fml _ _ _ _ Htok) as Hp.
    destruct (Hp "~"%char (or_introl eq_refl)) as (_ & _ & H1).
    destruct (Hp "|"%char (or_intror eq_refl)) as (_ & _ & H2).
    destruct (H1 e z eq_refl) as [He1 Hz1]. destruct (H2 e z eq_refl) as [He2 Hz2].
    unfold P.first_stage in Hfirst.
    destruct (Py.index e (Py.split "+" covars)) as [idx|] eqn:Hidx; [|discriminate].
    cbn [bind] in Hfirst.
    destruct (_unpack_fml _) as [g|] eqn:Hg; [|discriminate]. cbn [bind] in Hfirst.
    injection Hfirst as <-.
    destruct (_pack_to_fml g) as [l|] eqn:Hl; [|discriminate]. cbn [bind] in Hfsf.
    injection Hfsf as <-.
    eexists e, z, _, g, l. cbn [option_map fst snd].
    repeat split; try reflexivity; try assumption.
    apply (split_field_no_sep "+" covars). now apply index_in in Hidx.
  - intros _. cbn [P.first_stage] in Hfirst. injection Hfirst as <-.
    injection Hfsf as <-. repeat split; reflexivity.
Qed.

Lemma iv_attributes_witness :
  exists self,
    P.__init__ "Y ~ X1 + X2 | F | X2 ~ Z1" = Ok self
    /\ P.is_iv self = true
    /\ P.endogvars self = Some "X2"
    /\ P.instruments self = Some "Z1"
    /\ P.first_stage_covars_list self = P.Assigned "X1+Z1"
    /\ (P.is_iv self = true ->
        exists e z joined g l,
          P.endogvars self = Some e
          /\ P.depvars_first_stage self = Some e
          /\ P.instruments self = Some z
          /\ Py.len e = Py.len z
          /\ Py.contains "+" e = false
          /\ Py.contains "~" e = false /\ Py.contains "|" e = false
          /\ Py.contains "~" z = false /\ Py.contains "|" z = false
          /\ P.first_stage_covars_list self = P.Assigned joined
          /\ P.covars_first_stage self = Some g
          /\ _unpack_fml joined = Ok g
          /\ P.covars_first_stage_fml self = Some l
          /\ _pack_to_fml g = Ok l).
Proof.
  eexists. repeat (split; [reflexivity|]).
  refine (proj1 (iv_attributes "Y ~ X1 + X2 | F | X2 ~ Z1" _ _)). reflexivity.
Defined.

(** On an instance that is not IV the two builders of the first stage raise
    as soon as there is a fixed-effect variant to loop over:
    [get_fml_dict(iv=True)] the [TypeError] of iterating [None],
    [get_var_dict(iv=True)] the [AttributeError] of [None.values()]. *)
Theorem first_stage_builders_need_iv (fml : string) (self : P.t) :
  P.__init__ fml = Ok self ->
  P.is_iv self = false ->
  P.fevars_fml self <> [] ->
  P.get_fml_dict self true = Error TypeError_not_iterable
  /\ P.get_var_dict self true = Error AttributeError_NoneType.
Proof.
  intros Hinit Hiv Hfe.
  destruct (init_inversion fml self Hinit)
    as (depvars & covars & fevars & iv & uc & uf & first & uc' & ivs & cf & ff
        & fsf & _ & _ & _ & _ & Hfirst & _ & _ & _ & Hfsf & ->).
  cbn [P.is_iv P.fevars_fml] in *.
  destruct iv as [[e z]|]; [discriminate|].
  cbn [P.first_stage] in Hfirst. injection Hfirst as <-. injection Hfsf as <-.
  unfold P.get_fml_dict, P.get_var_dict, P.build_fml_dict, P.build_var_dict.
  cbn [P.fevars_fml P.depvars P.covars_first_stage_fml P.covars_first_stage
       option_map].
  destruct ff as [|f ff]; [congruence|]. cbn [for_each].
  pose proof (split_nonempty "+" depvars) as Hd.
  destruct (Py.split "+" depvars) as [|d ds]; [congruence|].
  split; reflexivity.
Qed.

Lemma first_stage_builders_need_iv_witness :
  exists self,
    P.__init__ "Y ~ X1 | F" = Ok self
    /\ P.get_fml_dict self true = Error TypeError_not_iterable
    /\ P.get_var_dict self true = Error AttributeError_NoneType.
Proof.
  eexists. split; [reflexivity|].
  apply (first_stage_builders_need_iv "Y ~ X1 | F").
  - reflexivity.
  - reflexivity.
  - discriminate.
Defined.

(** ** The characters of an instance *)

Lemma stripped_no_space (c : ascii) (s : string) :
  Py.isspace c = true -> Py.contains c (Py.join_split_ws s) = false.
Proof.
  intros Hc. induction s as [|x s IH]; cbn [Py.join_split_ws]; [reflexivity|].
  destruct (Py.isspace x) eqn:Hx; [exact IH|]. cbn [Py.contains]. rewrite IH.
  destruct (Ascii.eqb_spec x c); [congruence|reflexivity].
Qed.

Lemma tokenize_absent (c : ascii) (fml depvars covars fevars : string)
      (iv : option (string * string)) :
  P.tokenize fml = Ok (depvars, covars, fevars, iv) ->
  Py.contains c (Py.join_split_ws fml) = false ->
  Py.contains c depvars = false /\ Py.contains c covars = false
  /\ (Py.contains c "0" = false -> Py.contains c fevars = false)
  /\ forall e z, iv = Some (e, z) ->
       Py.contains c e = false /\ Py.contains c z = false.
Proof.
  unfold P.tokenize. set (s := Py.join_split_ws fml). intros Htok Hc.
  assert (Hseg : forall n, n < length (Py.split "|" s) ->
                 Py.contains c (nth n (Py.split "|" s) "") = false).
  { intros n Hn. apply (split_field_free c "|" s); [exact Hc|]. now apply nth_In. }
  assert (H0 : 0 < length (Py.split "|" s)).
  { pose proof (split_nonempty "|" s). destruct (Py.split "|" s);
      [congruence|cbn; lia]. }
  destruct (Py.unpack2 (Py.split "~" (nth 0 (Py.split "|" s) "")))
    as [[d c0]|] eqn:Hdc; [|discriminate]. cbn [bind] in Htok.
  destruct (unpack2_fields "~" _ d c0 Hdc) as (_ & _ & Hfree).
  destruct (Hfree c (Hseg 0 H0)) as [Hd Hc0].
  destruct (length (Py.split "|" s)) as [|[|[|[|n]]]] eqn:Hlen; try discriminate.
  - injection Htok as <- <- <- <-. repeat split; auto; discriminate.
  - destruct (Py.contains "~" (nth 1 (Py.split "|" s) "")).
    + destruct (Py.unpack2 (Py.split "~" (nth 1 (Py.split "|" s) "")))
        as [[e z]|] eqn:Hez; [|discriminate]. cbn [bind] in Htok.
      injection Htok as <- <- <- <-. split; [auto|]. split; [auto|].
      split; [auto|]. intros e' z' H'. injection H' as <- <-.
      destruct (unpack2_fields "~" _ e z Hez) as (_ & _ & Hfree').
      apply Hfree', Hseg. lia.
    + injection Htok as <- <- <- <-. split; [auto|]. split; [auto|].
      split; [intros _; apply Hseg; lia|discriminate].
  - destruct (Py.unpack2 (Py.split "~" (nth 2 (Py.split "|" s) "")))
      as [[e z]|] eqn:Hez; [|discriminate]. cbn [bind] in Htok.
    injection Htok as <- <- <- <-. split; [auto|]. split; [auto|].
    split; [intros _; apply Hseg; lia|].
    intros e' z' H'. injection H' as <- <-.
    destruct (unpack2_fields "~" _ e z Hez) as (_ & _ & Hfree').
    apply Hfree', Hseg. lia.
Qed.

Lemma tokenize_fevars_no_bar (fml depvars covars fevars : string)
      (iv : option (string * string)) :
  P.tokenize fml = Ok (depvars, covars, fevars, iv) ->
  Py.contains "|" fevars = false.
Proof.
  unfold P.tokenize. set (s := Py.join_split_ws fml). intros Htok.
  assert (Hseg : forall n, n < length (Py.split "|" s) ->
                 Py.contains "|" (nth n (Py.split "|" s) "") = false).
  { intros n Hn. apply (split_field_no_sep "|" s). now apply nth_In. }
  destruct (Py.unpack2 _) as [[d c0]|]; [|discriminate]. cbn [bind] in Htok.
  destruct (length (Py.split "|" s)) as [|[|[|[|n]]]] eqn:Hlen; try discriminate.
  - now injection Htok as <- <- <- <-.
  - destruct (Py.contains "~" (nth 1 (Py.split "|" s) "")).
    + destruct (Py.unpack2 _) as [[e z]|]; [|discriminate].
      now injection Htok as <- <- <- <-.
    + injection Htok as <- <- <- <-. apply Hseg. lia.
  - destruct (Py.unpack2 _) as [[e z]|]; [|discriminate].
    injection Htok as <- <- <- <-. apply Hseg. lia.
Qed.

Lemma separator_cases (c : ascii) :
  separator c = true ->
  written c = false
  /\ (c = "~"%char \/ c = "|"%char \/ Py.isspace c = true).
Proof.
  unfold separator. rewrite !orb_true_iff, !Ascii.eqb_eq.
  intros [[->| ->]|H]; (split; [|tauto]); try reflexivity.
  unfold written. unfold Py.isspace in H.
  destruct (Ascii.eqb_spec c "+") as [->|]; [discriminate H|].
  destruct (Ascii.eqb_spec c ":") as [->|]; [discriminate H|].
  destruct (Ascii.eqb_spec c "0") as [->|]; [discriminate H|]. reflexivity.
Qed.

Lemma interaction_reference_free (c : ascii) (u u' : group)
      (ivs : option P.ivars_dict) :
  group_free c u -> P.interaction_reference u = Ok (u', ivs) -> group_free c u'.
Proof.
  intros Hu. unfold P.interaction_reference.
  destruct (dict_get u "i") as [i|] eqn:Hi;
    [|intros H; now injection H as <- <-].
  destruct (Py.last i) as [l|]; [|discriminate]. cbn [bind].
  destruct (Nat.ltb 1 (length (Py.split "=" l)));
    intros H; injection H as <- <-; [|exact Hu].
  intros k v a. rewrite dict_get_set.
  destruct (String.eqb "i" k); [|apply Hu].
  intros H Ha. injection H as <-. apply (Hu "i" i a Hi).
  unfold Py.but_last in Ha. clear -Ha.
  induction i as [|x [|y i] IH]; cbn [removelast] in Ha; [destruct Ha|destruct Ha|].
  destruct Ha as [<-|Ha]; [now left|right; now apply IH].
Qed.

Lemma setitem_in (l : list string) (i : nat) (v a : string) :
  In a (Py.setitem l i v) -> a = v \/ In a l.
Proof.
  revert i. induction l as [|y l IH]; intros [|i]; cbn [Py.setitem In]; try tauto.
  - intros [<-|H]; auto.
  - intros [<-|H]; auto. destruct (IH i H); auto.
Qed.

Lemma instance_pieces (c : ascii) (fml : string) (self : P.t) :
  P.__init__ fml = Ok self ->
  separator c = true ->
  (forall d, In d (P.depvars self) -> Py.contains c d = false)
  /\ (forall v, In v (P.covars_fml self) -> Py.contains c v = false)
  /\ (forall l v, P.covars_first_stage_fml self = Some l -> In v l ->
      Py.contains c v = false)
  /\ (c <> "~"%char ->
      forall v, In v (P.fevars_fml self) -> Py.contains c v = false).
Proof.
  intros Hinit Hsep. destruct (separator_cases c Hsep) as [Hw Hc].
  destruct (written_spec c Hw) as (Hplus & _ & Hzero).
  destruct (init_inversion fml self Hinit)
    as (depvars & covars & fevars & iv & uc & uf & first & uc' & ivs & cf & ff
        & fsf & Htok & _ & Huc & Huf & Hfirst & Hint & Hcf & Hff & Hfsf & ->).
  cbn [P.depvars P.covars_fml P.covars_first_stage_fml P.fevars_fml].
  assert (Hp : Py.contains c depvars = false /\ Py.contains c covars = false
               /\ (c <> "~"%char -> Py.contains c fevars = false)
               /\ forall e z, iv = Some (e, z) ->
                    Py.contains c e = false /\ Py.contains c z = false).
  { destruct Hc as [->|[->|Hspace]].
    - destruct (tokenize_pieces fml _ _ _ _ Htok "~"%char (or_introl eq_refl))
        as (H1 & H2 & H3). split; [auto|]. split; [auto|]. split; [|exact H3].
      congruence.
    - destruct (tokenize_pieces fml _ _ _ _ Htok "|"%char (or_intror eq_refl))
        as (H1 & H2 & H3). split; [auto|]. split; [auto|]. split; [|exact H3].
      intros _. exact (tokenize_fevars_no_bar fml _ _ _ _ Htok).
    - destruct (tokenize_absent c fml _ _ _ _ Htok (stripped_no_space c fml Hspace))
        as (H1 & H2 & H3 & H4). split; [auto|]. split; [auto|].
      split; [|exact H4]. intros _. now apply H3. }
  destruct Hp as (Hdep & Hcov & Hfe & Hiv).
  split; [|split; [|split]].
  - intros d. now apply split_field_free.
  - apply (pack_free c uc' cf Hw); [|exact Hcf].
    apply (interaction_reference_free c uc uc' ivs); [|exact Hint].
    now apply (unpack_free c covars).
  - intros l v Hl. subst fsf.
    destruct first as [[joined g]|]; [|discriminate].
    destruct (_pack_to_fml g) as [l'|] eqn:Hg; [|discriminate]. cbn [bind] in Hfsf.
    injection Hfsf as <-. apply (pack_free c g l' Hw); [|exact Hg].
    destruct iv as [[e z]|]; [|discriminate]. unfold P.first_stage in Hfirst.
    destruct (Py.index e (Py.split "+" covars)) as [idx|]; [|discriminate].
    cbn [bind] in Hfirst.
    destruct (_unpack_fml (Py.join "+" _)) as [g'|] eqn:Hg'; [|discriminate].
    cbn [bind] in Hfirst. injection Hfirst as <- <-.
    apply (unpack_free c (Py.join "+" (Py.setitem (Py.split "+" covars) idx z)) g');
      [|exact Hg'].
    apply join_free; [exact Hplus|]. intros f Hf.
    destruct (setitem_in _ _ _ _ Hf) as [->|Hf'].
    + now apply (Hiv e z).
    + now apply (split_field_free c "+" covars).
  - intros Hne. apply (pack_free c uf ff Hw); [|exact Hff].
    apply (unpack_free c fevars); [now apply Hfe|exact Huf].
Qed.

(** No dependent variable and no covariate variant of an instance, of the
    second or of the first stage, holds a [~], a [|] or a white-space
    character; no fixed-effect variant holds a [|] or a white-space
    character. *)
Theorem instance_without_separators (c : ascii) (fml : string) (self : P.t) :
  P.__init__ fml = Ok self ->
  separator c = true ->
  (forall d, In d (P.depvars self) -> Py.contains c d = false)
  /\ (forall v, In v (P.covars_fml self) -> Py.contains c v = false)
  /\ (forall l v, P.covars_first_stage_fml self = Some l -> In v l ->
      Py.contains c v = false)
  /\ (c <> "~"%char ->
      forall v, In v (P.fevars_fml self) -> Py.contains c v = false).
Proof. apply instance_pieces. Qed.

Lemma instance_without_separators_witness :
  exists self,
    P.__init__ "Y + W ~ X1 + csw(X2, X3) | F | X1 ~ Z1" = Ok self
    /\ (forall d, In d (P.depvars self) -> Py.contains "~" d = false)
    /\ (forall v, In v (P.covars_fml self) -> Py.contains "~" v = false)
    /\ (forall l v, P.covars_first_stage_fml self = Some l -> In v l ->
        Py.contains "~" v = false)
    /\ ("~"%char <> "~"%char ->
        forall v, In v (P.fevars_fml self) -> Py.contains "~" v = false).
Proof.
  eexists. split; [reflexivity|].
  apply (instance_without_separators "~"
           "Y + W ~ X1 + csw(X2, X3) | F | X1 ~ Z1"); reflexivity.
Defined.

(** ** [_flatten_list] *)

Lemma flatten_app (l1 l2 : list pyobj) :
  _flatten_list (l1 ++ l2) = _flatten_list l1 ++ _flatten_list l2.
Proof. unfold _flatten_list. apply flat_map_app. Qed.

(** [_flatten_list] returns the strings of its argument from left to right,
    whatever their nesting: wrapping any element, or the whole list, in
    further lists changes nothing, a list of lists of strings is
    concatenated, and flattening the result again is the identity. *)
Theorem flatten_list_nesting (lst : list pyobj) :
  _flatten_list (map (fun i => Lst [i]) lst) = _flatten_list lst
  /\ _flatten_list [Lst lst] = _flatten_list lst
  /\ _flatten_list (strs (_flatten_list lst)) = _flatten_list lst
  /\ (forall l1 l2, _flatten_list (l1 ++ l2) = _flatten_list l1 ++ _flatten_list l2)
  /\ (forall ll : list (list string), _flatten_list (lists ll) = concat ll).
Proof.
  split; [|split; [|split; [|split]]].
  - unfold _flatten_list. induction lst as [|i lst IH]; [reflexivity|].
    cbn [map flat_map flatten_obj]. rewrite IH, app_nil_r. reflexivity.
  - unfold _flatten_list. cbn [flat_map flatten_obj]. apply app_nil_r.
  - apply flatten_strs.
  - apply flatten_app.
  - apply flatten_lists.
Qed.

(** ** [_transform_fml_dict] *)

Lemma for_each_app {A S : Type} (body : S -> A -> result S) (l1 l2 : list A) (s : S) :
  for_each (l1 ++ l2) body s = s' <- for_each l1 body s ;; for_each l2 body s'.
Proof.
  revert s. induction l1 as [|a l1 IH]; intros s; cbn [app for_each bind];
    [reflexivity|].
  destruct (body s a); cbn [bind]; [apply IH|reflexivity].
Qed.

Lemma split_formula (depvar covar : string) :
  Py.contains "~" depvar = false -> Py.contains "~" covar = false ->
  Py.split "~" (depvar +s "~" +s covar) = [depvar; covar].
Proof.
  intros Hd Hc. rewrite add_assoc.
  change ("~" +s covar) with (String "~" covar).
  now rewrite split_add, split_no_sep.
Qed.

Lemma regroup_step_formula (fe depvar covar : string) (d2 : nested_dict)
      (inner : dict (list string)) :
  Py.contains "~" depvar = false -> Py.contains "~" covar = false ->
  dict_get d2 fe = Some inner ->
  regroup_step fe d2 (depvar +s "~" +s covar)
  = Ok (dict_set d2 fe (add_formula inner depvar covar)).
Proof.
  intros Hd Hc Hget. unfold regroup_step, add_formula, dict_item.
  rewrite split_formula by assumption. cbn [Py.unpack2 bind]. rewrite Hget.
  cbn [bind]. destruct (dict_get inner depvar); reflexivity.
Qed.

Lemma add_formula_entry (inner : dict (list string)) (depvar covar y : string) :
  entry (add_formula inner depvar covar) y
  = entry inner y ++ (if String.eqb depvar y then [covar] else []).
Proof.
  unfold entry, add_formula.
  destruct (dict_get inner depvar) as [l|] eqn:E; rewrite dict_get_set;
    destruct (String.eqb_spec depvar y) as [<-|]; rewrite ?E, ?app_nil_r;
    reflexivity.
Qed.

Lemma add_formula_no_empty (inner : dict (list string)) (depvar covar : string) :
  no_empty_entry inner -> no_empty_entry (add_formula inner depvar covar).
Proof.
  intros H y l. unfold add_formula.
  destruct (dict_get inner depvar) as [l0|]; rewrite dict_get_set;
    (destruct (String.eqb depvar y); [|apply H]);
    intros E; injection E as <-; [destruct l0|]; discriminate.
Qed.

(** The inner loop on the formulas of one dependent variable. *)
Lemma regroup_depvar (fe depvar : string) (covariates : list string)
      (d2 : nested_dict) (inner : dict (list string)) :
  Py.contains "~" depvar = false ->
  (forall c, In c covariates -> Py.contains "~" c = false) ->
  dict_get d2 fe = Some inner -> no_empty_entry inner ->
  exists d2' inner',
    for_each (map (fun covar => depvar +s "~" +s covar) covariates)
             (regroup_step fe) d2 = Ok d2'
    /\ dict_get d2' fe = Some inner'
    /\ no_empty_entry inner'
    /\ (forall y, entry inner' y
                  = entry inner y
                    ++ (if String.eqb depvar y then covariates else []))
    /\ (forall k, k <> fe -> dict_get d2' k = dict_get d2 k).
Proof.
  intros Hd. revert d2 inner.
  induction covariates as [|c cs IH]; intros d2 inner Hcs Hget Hne;
    cbn [map for_each].
  - exists d2, inner. repeat split; auto. intros y.
    destruct (String.eqb depvar y); now rewrite app_nil_r.
  - rewrite (regroup_step_formula fe depvar c d2 inner Hd
               (Hcs c (or_introl eq_refl)) Hget). cbn [bind].
    destruct (IH (dict_set d2 fe (add_formula inner depvar c))
                 (add_formula inner depvar c))
      as (d2' & inner' & Hloop & Hget' & Hne' & Hentry & Hother).
    + intros c' Hc'. apply Hcs. now right.
    + rewrite dict_get_set. now rewrite String.eqb_refl.
    + now apply add_formula_no_empty.
    + exists d2', inner'. split; [exact Hloop|]. split; [exact Hget'|].
      split; [exact Hne'|]. split.
      * intros y. rewrite Hentry, add_formula_entry, <- app_assoc.
        destruct (String.eqb depvar y); reflexivity.
      * intros k Hk. rewrite (Hother k Hk), dict_get_set.
        destruct (String.eqb_spec fe k); [congruence|reflexivity].
Qed.

(** The inner loop on the whole list of formulas of one key. *)
Lemma regroup_cross (fe : string) (depvars covariates : list string)
      (d2 : nested_dict) (inner : dict (list string)) :
  (forall d, In d depvars -> Py.contains "~" d = false) ->
  (forall c, In c covariates -> Py.contains "~" c = false) ->
  dict_get d2 fe = Some inner -> no_empty_entry inner ->
  exists d2' inner',
    for_each (cross depvars covariates) (regroup_step fe) d2 = Ok d2'
    /\ dict_get d2' fe = Some inner'
    /\ no_empty_entry inner'
    /\ (forall y, entry inner' y = entry inner y ++ group_of y depvars covariates)
    /\ (forall k, k <> fe -> dict_get d2' k = dict_get d2 k).
Proof.
  intros Hds Hcs. revert d2 inner.
  induction depvars as [|d ds IH]; intros d2 inner Hget Hne;
    unfold cross, group_of; cbn [flat_map].
  - exists d2, inner. repeat split; auto. intros y. now rewrite app_nil_r.
  - rewrite for_each_app.
    destruct (regroup_depvar fe d covariates d2 inner
                (Hds d (or_introl eq_refl)) Hcs Hget Hne)
      as (d2a & innera & Hloopa & Hgeta & Hnea & Hentrya & Hothera).
    rewrite Hloopa. cbn [bind].
    destruct (IH (fun d' H => Hds d' (or_intror H)) d2a innera Hgeta Hnea)
      as (d2' & inner' & Hloop & Hget' & Hne' & Hentry & Hother).
    exists d2', inner'. split; [exact Hloop|]. split; [exact Hget'|].
    split; [exact Hne'|]. split.
    + intros y. rewrite Hentry, Hentrya, <- app_assoc. reflexivity.
    + intros k Hk. now rewrite (Hother k Hk), (Hothera k Hk).
Qed.

Lemma entry_lookup (inner : dict (list string)) (y : string) :
  no_empty_entry inner ->
  dict_get inner y = if Py.nonempty (entry inner y) then Some (entry inner y)
                     else None.
Proof.
  intros H. unfold entry. destruct (dict_get inner y) as [l|] eqn:E; [|reflexivity].
  destruct l; [now apply H in E|reflexivity].
Qed.

(** The two loops on a dictionary all of whose keys hold the same cross
    product. *)
Lemma regroup_keys (fml_dict : dict (list string)) (depvars covariates : list string)
      (keys : list string) (d0 : nested_dict) :
  (forall d, In d depvars -> Py.contains "~" d = false) ->
  (forall c, In c covariates -> Py.contains "~" c = false) ->
  (forall fe, In fe keys -> dict_get fml_dict fe = Some (cross depvars covariates)) ->
  exists d2,
    for_each keys
      (fun (fml_dict2 : nested_dict) fe =>
         let fml_dict2 : nested_dict :=
           dict_set fml_dict2 fe ([] : dict (list string)) in
         fmls <- P.iter (dict_get fml_dict fe) ;;
         for_each fmls (regroup_step fe) fml_dict2) d0 = Ok d2
    /\ (forall fe, In fe keys -> regrouped_entry d2 fe depvars covariates)
    /\ (forall fe, ~ In fe keys -> dict_get d2 fe = dict_get d0 fe).
Proof.
  intros Hds Hcs. revert d0.
  induction keys as [|fe keys IH]; intros d0 Hval; cbn [for_each].
  - exists d0. split; [reflexivity|]. split; [intros fe []|auto].
  - cbv zeta. rewrite (Hval fe (or_introl eq_refl)). cbn [P.iter bind].
    destruct (regroup_cross fe depvars covariates
                (dict_set d0 fe ([] : dict (list string))) [] Hds Hcs)
      as (d1 & inner & Hloop & Hget & Hne & Hentry & Hother).
    { rewrite dict_get_set. now rewrite String.eqb_refl. }
    { intros y l H. discriminate H. }
    rewrite Hloop. cbn [bind].
    destruct (IH d1 (fun fe' H => Hval fe' (or_intror H)))
      as (d2 & Hd2 & Hgood & Hrest).
    exists d2. split; [exact Hd2|].
    assert (Hfe : regrouped_entry d2 fe depvars covariates).
    { destruct (in_dec string_dec fe keys) as [Hin|Hout]; [now apply Hgood|].
      exists inner. rewrite (Hrest fe Hout). split; [exact Hget|].
      intros y. rewrite (entry_lookup inner y Hne), Hentry. reflexivity. }
    split.
    + intros fe' [<-|Hin]; [exact Hfe|now apply Hgood].
    + intros fe' Hout. cbn [In] in Hout.
      rewrite (Hrest fe' (fun H => Hout (or_intror H))), (Hother fe').
      * rewrite dict_get_set. destruct (String.eqb_spec fe fe'); [|reflexivity].
        exfalso. apply Hout. now left.
      * intros ->. apply Hout. now left.
Qed.

Lemma in_dict_keys {V : Type} (d : dict V) (k : string) :
  In k (dict_keys d) <-> dict_in d k = true.
Proof. rewrite dict_in_mem_keys. symmetry. apply mem_In. Qed.

Lemma group_of_once (depvar : string) (depvars covariates : list string) :
  NoDup depvars -> In depvar depvars ->
  group_of depvar depvars covariates = covariates.
Proof.
  unfold group_of. induction 1 as [|d ds Hd Hnd IH]; intros Hin; [destruct Hin|].
  cbn [flat_map]. destruct (String.eqb_spec d depvar) as [->|Hne].
  - assert (E : flat_map (fun y => if String.eqb y depvar then covariates else [])
                         ds = []).
    { clear -Hd. induction ds as [|y ds IH]; [reflexivity|]. cbn [flat_map].
      destruct (String.eqb_spec y depvar) as [->|]; [exfalso; apply Hd; now left|].
      apply IH. intros H. apply Hd. now right. }
    rewrite E. apply app_nil_r.
  - destruct Hin as [->|Hin]; [congruence|]. now apply IH.
Qed.

Lemma get_fml_dict_result (self : P.t) (iv : bool) (covariates : list string) :
  (if iv then P.covars_first_stage_fml self = Some covariates
   else P.covars_fml self = covariates) ->
  exists d,
    P.get_fml_dict self iv = Ok (P.set_fml_dict self iv d)
    /\ (forall k, dict_in d k = true <-> In k (P.fevars_fml self))
    /\ (forall fe, In fe (P.fevars_fml self) ->
        dict_get d fe = Some (cross (P.depvars self) covariates)).
Proof.
  intros Hcov.
  destruct (keyed_loop_spec (cross (P.depvars self) covariates) (P.fevars_fml self))
    as (d & Hd & Hget & Hkeys).
  exists d. split; [|split; assumption].
  unfold P.get_fml_dict. destruct iv.
  - now rewrite (build_fml_dict_first_stage self covariates Hcov), Hd.
  - subst covariates. now rewrite build_fml_dict_second_stage, Hd.
Qed.

Lemma transform_stage (self self' : P.t) (iv : bool) (covariates : list string)
      (o1 o2 : option nested_dict) :
  (if iv then P.covars_first_stage_fml self = Some covariates
   else P.covars_fml self = covariates) ->
  (forall d, In d (P.depvars self) -> Py.contains "~" d = false) ->
  (forall c, In c covariates -> Py.contains "~" c = false) ->
  P.get_fml_dict self iv = Ok self' ->
  transform_spec self (mk_regrouped self' o1 o2) iv covariates.
Proof.
  intros Hcov Hds Hcs Hrun.
  destruct (get_fml_dict_result self iv covariates Hcov) as (d & Hd & Hkeys & Hval).
  rewrite Hrun in Hd. injection Hd as ->.
  destruct (regroup_keys d (P.depvars self) covariates (dict_keys d) [] Hds Hcs)
    as (d2 & Hloop & Hgood & Hrest).
  { intros fe Hfe. apply Hval, Hkeys. now apply in_dict_keys. }
  assert (Hk2 : forall fe, dict_in d2 fe = true <-> In fe (P.fevars_fml self)).
  { intros fe. split.
    - intros Hin. apply Hkeys.
      destruct (in_dec string_dec fe (dict_keys d)) as [H|H];
        [now apply in_dict_keys|].
      unfold dict_in in Hin. rewrite (Hrest fe H) in Hin. discriminate Hin.
    - intros Hin. apply Hkeys, in_dict_keys in Hin.
      destruct (Hgood fe Hin) as (inner & Hget & _).
      apply dict_in_get. eauto. }
  assert (Hentries : forall fe, In fe (P.fevars_fml self) ->
                     regrouped_entry d2 fe (P.depvars self) covariates).
  { intros fe Hfe. apply Hgood, in_dict_keys, Hkeys, Hfe. }
  exists d2. split; [|split; [exact Hk2|split; [exact Hentries|]]].
  - assert (Hreg : regroup d = Ok d2) by exact Hloop.
    unfold _transform_fml_dict. cbn [instance fml_dict2 fml_dict2_iv].
    destruct iv; cbn [P.set_fml_dict P.fml_dict P.fml_dict_iv];
      now rewrite Hreg.
  - intros Hnd Hne fe depvar Hfe Hdep.
    destruct (Hentries fe Hfe) as (inner & Hget & Hinner).
    exists inner. split; [exact Hget|].
    rewrite Hinner, (group_of_once depvar _ covariates Hnd Hdep).
    destruct covariates; [congruence|reflexivity].
Qed.

(** After [get_fml_dict], [_transform_fml_dict] returns and regroups the
    formulas of every fixed-effect variant by dependent variable: each
    dependent variable that has a formula is a key, and its value lists the
    covariate variants of its formulas in their order, so the covariate
    variants themselves when the dependent variables are distinct.  The same
    holds for the first stage of an IV formula. *)
Theorem transform_regroups (fml : string) (self : P.t)
        (o1 o2 : option nested_dict) :
  P.__init__ fml = Ok self ->
  (forall self', P.get_fml_dict self false = Ok self' ->
     transform_spec self (mk_regrouped self' o1 o2) false (P.covars_fml self))
  /\ (forall self' l, P.get_fml_dict self true = Ok self' ->
        P.covars_first_stage_fml self = Some l ->
        transform_spec self (mk_regrouped self' o1 o2) true l).
Proof.
  intros Hinit.
  destruct (instance_pieces "~" fml self Hinit eq_refl) as (Hd & Hc & Hf & _).
  split.
  - intros self' Hrun. now apply transform_stage.
  - intros self' l Hrun Hl. apply transform_stage; auto.
    intros c. now apply (Hf l).
Qed.

Lemma transform_regroups_witness :
  exists self self',
    P.__init__ "Y + W ~ X1 + csw(X2, X3) | sw0(F1, F2)" = Ok self
    /\ P.get_fml_dict self false = Ok self'
    /\ transform_spec self (mk_regrouped self' None None) false
                      ["X1+X2"; "X1+X2+X3"].
Proof.
  eexists. eexists. split; [reflexivity|]. split; [reflexivity|].
  refine (proj1 (transform_regroups "Y + W ~ X1 + csw(X2, X3) | sw0(F1, F2)"
                   _ None None _) _ _); reflexivity.
Defined.

(** [_transform_fml_dict] reads the attribute that [get_fml_dict] creates for
    the same stage: on a fresh instance, and on an instance on which only the
    other stage has been built, it raises [AttributeError]. *)
Theorem transform_needs_fml_dict (fml : string) (self : P.t)
        (o1 o2 : option nested_dict) :
  P.__init__ fml = Ok self ->
  (forall iv, _transform_fml_dict (mk_regrouped self o1 o2) iv
              = AttributeError_missing)
  /\ (forall iv self', P.get_fml_dict self iv = Ok self' ->
        _transform_fml_dict (mk_regrouped self' o1 o2) (negb iv)
        = AttributeError_missing).
Proof.
  intros Hinit.
  destruct (init_inversion fml self Hinit)
    as (depvars & covars & fevars & iv0 & uc & uf & first & uc' & ivs & cf & ff
        & fsf & _ & _ & _ & _ & _ & _ & _ & _ & _ & ->).
  split.
  - intros [|]; reflexivity.
  - intros iv self'. unfold P.get_fml_dict.
    destruct (P.build_fml_dict _ iv) as [d|]; [|discriminate]. cbn [bind].
    intros H; injection H as <-. destruct iv; reflexivity.
Qed.

Lemma transform_needs_fml_dict_witness :
  exists self,
    P.__init__ "Y ~ X1 | F" = Ok self
    /\ (forall iv, _transform_fml_dict (mk_regrouped self None None) iv
                   = AttributeError_missing).
Proof.
  eexists. split; [reflexivity|].
  refine (proj1 (transform_needs_fml_dict "Y ~ X1 | F" _ None None _)).
  reflexivity.
Defined.

(** ** More on the duplicate check and on empty expansions *)

(** [_check_duplicate_key] returns exactly when none of the four switch
    keywords is a key of the dictionary and, for the key [i], when [i] is not
    a key either; otherwise it raises [DuplicateKeyError].  So for every key
    other than [i] the outcome does not depend on the key. *)
Theorem check_duplicate_key_outcomes (my_dict : group) (key : string) :
  (_check_duplicate_key my_dict key = Ok tt
   \/ _check_duplicate_key my_dict key = Error DuplicateKeyError)
  /\ (_check_duplicate_key my_dict key = Ok tt <->
      (forall s, In s switch_family -> dict_in my_dict s = false)
      /\ (key = "i" -> dict_in my_dict "i" = false))
  /\ (forall key', key <> "i" -> key' <> "i" ->
      _check_duplicate_key my_dict key = _check_duplicate_key my_dict key').
Proof.
  split; [apply check_duplicate_key_error|]. split.
  - rewrite check_duplicate_key_ok. split; intros [H1 H2]; (split; [|exact H2]);
      intros s Hs; apply H1; now apply mem_In.
  - intros key' Hk Hk'. unfold _check_duplicate_key.
    apply String.eqb_neq in Hk, Hk'. now rewrite Hk, Hk'.
Qed.

Lemma has_switch_key (u : group) :
  (exists kind args, is_switch kind = true /\ dict_get u kind = Some args)
  \/ (forall k, is_switch k = true -> dict_in u k = false).
Proof.
  unfold dict_in.
  destruct (dict_get u "sw") as [v|] eqn:E1; [left; exists "sw", v; auto|].
  destruct (dict_get u "csw") as [v|] eqn:E2; [left; exists "csw", v; auto|].
  destruct (dict_get u "sw0") as [v|] eqn:E3; [left; exists "sw0", v; auto|].
  destruct (dict_get u "csw0") as [v|] eqn:E4; [left; exists "csw0", v; auto|].
  right. intros k Hk. each_switch Hk; now rewrite ?E1, ?E2, ?E3, ?E4.
Qed.

(** The expansion of an unpacked group is the empty list, with no exception,
    exactly when the constant part is not empty and the group has a switch
    [sw] or [csw] all of whose variants are the string ["0"]. *)
Theorem pack_no_variant (x : string) (u : group) :
  _unpack_fml x = Ok u ->
  (_pack_to_fml u = Ok [] <->
   constant_part u <> ""
   /\ exists kind args,
        (kind = "sw" \/ kind = "csw")
        /\ dict_get u kind = Some args
        /\ forall v, In v (derived kind args) -> v = "0").
Proof.
  intros Hu. pose proof (unpack_well_formed x u Hu) as Hwf. split.
  - intros Hp. destruct (has_switch_key u) as [(kind & args & Hk & Hget)|Hnone].
    + rewrite (pack_switch u kind args Hwf Hk Hget) in Hp. injection Hp as Hp.
      apply app_eq_nil in Hp. destruct Hp as [Hs Hm].
      apply map_eq_nil in Hm.
      destruct (selected_switch u kind args Hwf Hk Hget) as [_ Hne].
      pose proof (derived_nonempty kind args Hne) as Hd.
      assert (Hall : forall v, In v (derived kind args) ->
                     kept (constant_part u) v = false).
      { intros v Hv. destruct (kept (constant_part u) v) eqn:E; [|reflexivity].
        assert (Hin : In v (filter (kept (constant_part u)) (derived kind args)))
          by (apply filter_In; auto).
        rewrite Hm in Hin. destruct Hin. }
      destruct (derived kind args) as [|v0 vs] eqn:Ed; [discriminate Hd|].
      pose proof (Hall v0 (or_introl eq_refl)) as H0. unfold kept in H0.
      apply orb_false_iff in H0. destruct H0 as [Hc _].
      apply negb_false_iff, truthy_true in Hc. split; [exact Hc|].
      exists kind, args. split; [|split; [exact Hget|]].
      * destruct (has_sentinel kind) eqn:Hsent; [discriminate Hs|].
        each_switch Hk; auto; discriminate Hsent.
      * rewrite Ed. intros v Hv. specialize (Hall v Hv). unfold kept in Hall.
        apply orb_false_iff in Hall. destruct Hall as [_ Hz].
        now apply negb_false_iff, String.eqb_eq in Hz.
    + rewrite (pack_no_switch u Hnone) in Hp.
      destruct (Py.truthy (constant_part u)); discriminate Hp.
  - intros (Hc & kind & args & Hk & Hget & Hall).
    assert (Hsw : is_switch kind = true) by (destruct Hk as [->| ->]; reflexivity).
    assert (Hsent : has_sentinel kind = false)
      by (destruct Hk as [->| ->]; reflexivity).
    rewrite (pack_switch u kind args Hwf Hsw Hget), Hsent. cbn [app].
    assert (E : filter (kept (constant_part u)) (derived kind args) = []).
    { apply truthy_true in Hc. unfold kept. rewrite Hc. cbn [negb orb].
      induction (derived kind args) as [|v vs IH]; [reflexivity|]. cbn [filter].
      rewrite (Hall v (or_introl eq_refl)). cbn [String.eqb negb].
      apply IH. intros v' Hv'. apply Hall. now right. }
    now rewrite E.
Qed.

Lemma pack_no_variant_witness :
  _pack_to_fml [("constant", ["x"]); ("sw", ["0"])] = Ok [] <->
  constant_part [("constant", ["x"]); ("sw", ["0"])] <> ""
  /\ exists kind args,
       (kind = "sw" \/ kind = "csw")
       /\ dict_get [("constant", ["x"]); ("sw", ["0"])] kind = Some args
       /\ forall v, In v (derived kind args) -> v = "0".
Proof. apply (pack_no_variant "x+sw(0)"). reflexivity. Defined.

(** ** The variables of [get_var_dict] *)

Lemma interaction_reference_keeps (u u' : group) (ivs : option P.ivars_dict)
      (k : string) :
  P.interaction_reference u = Ok (u', ivs) -> k <> "i" ->
  dict_get u' k = dict_get u k.
Proof.
  unfold P.interaction_reference.
  destruct (dict_get u "i") as [i|]; [|intros H; now injection H as <- <-].
  destruct (Py.last i) as [l|]; [|discriminate]. cbn [bind].
  destruct (Nat.ltb 1 (length (Py.split "=" l)));
    intros H; injection H as <- <-; [|reflexivity].
  intros Hk. rewrite dict_get_set.
  destruct (String.eqb_spec "i" k); [congruence|reflexivity].
Qed.

Lemma in_dict_values (u : group) (k : string) (args : list string) (a : string) :
  dict_get u k = Some args -> In a args -> In a (concat (dict_values u)).
Proof.
  unfold dict_values. induction u as [|[k0 v0] u IH]; cbn [dict_get map snd concat];
    [discriminate|].
  destruct (String.eqb k0 k).
  - intros H Ha. injection H as <-. apply in_or_app. now left.
  - intros H Ha. apply in_or_app. right. now apply IH.
Qed.

(** Every value of the dictionary of [get_var_dict] names the dependent
    variables, the plain covariate tokens of the formula and the arguments
    of its switch, so every variable of the left-hand side and of the
    covariates other than those of an interaction is listed. *)
Theorem var_dict_names (fml depvars covars fevars : string)
        (iv : option (string * string)) (self self' : P.t)
        (d : dict (list string)) (fe : string) (v : list string) :
  P.tokenize fml = Ok (depvars, covars, fevars, iv) ->
  P.__init__ fml = Ok self ->
  P.get_var_dict self false = Ok self' ->
  P.var_dict self' = Some d ->
  dict_get d fe = Some v ->
  (forall y, In y (Py.split "+" depvars) -> In y v)
  /\ (forall t, In t (Py.split "+" covars) -> is_plain t = true -> In t v)
  /\ (forall t args k a,
        In t (Py.split "+" covars) -> _find_sw t = Found args k ->
        is_switch k = true -> In a args -> In a v).
Proof.
  intros Htok Hinit Hrun Hd Hget.
  destruct (var_dict_second_stage self)
    as (self'' & d' & Hrun' & Hd' & Hkeys & Hval & _).
  rewrite Hrun in Hrun'. injection Hrun' as <-. cbv iota in Hd'.
  rewrite Hd in Hd'. injection Hd' as <-.
  assert (Hfe : In fe (P.fevars_fml self)) by (apply Hkeys, dict_in_get; eauto).
  rewrite (Hval fe Hfe) in Hget. injection Hget as <-.
  destruct (init_inversion fml self Hinit)
    as (depvars' & covars' & fevars' & iv' & uc & uf & first & uc' & ivs & cf & ff
        & fsf & Htok' & _ & Huc & _ & _ & Hint & _ & _ & _ & ->).
  rewrite Htok in Htok'. injection Htok' as <- <- <- <-.
  cbn [P.depvars P.covars].
  unfold _unpack_fml in Huc.
  destruct (unpack_loop_content (Py.split "+" covars) _ uc [] Huc eq_refl)
    as (Hc & _ & Hnew).
  split; [|split].
  - intros y Hy. apply in_or_app. now left.
  - intros t Ht Hplain. apply in_or_app. right.
    apply (in_dict_values uc' "constant" (filter is_plain (Py.split "+" covars))).
    + rewrite (interaction_reference_keeps uc uc' ivs "constant" Hint);
        [exact Hc|discriminate].
    + apply filter_In. auto.
  - intros t args k a Ht Hf Hk Ha. apply in_or_app. right.
    apply (in_dict_values uc' k args); [|exact Ha].
    rewrite (interaction_reference_keeps uc uc' ivs k Hint).
    + now apply (Hnew t).
    + intros ->. discriminate Hk.
Qed.

Lemma var_dict_names_witness :
  (forall y, In y (Py.split "+" "Y+W") -> In y ["Y"; "W"; "X1"; "X2"; "X3"])
  /\ (forall t, In t (Py.split "+" "X1+csw(X2,X3)") -> is_plain t = true ->
      In t ["Y"; "W"; "X1"; "X2"; "X3"])
  /\ (forall t args k a,
        In t (Py.split "+" "X1+csw(X2,X3)") -> _find_sw t = Found args k ->
        is_switch k = true -> In a args -> In a ["Y"; "W"; "X1"; "X2"; "X3"]).
Proof.
  refine (var_dict_names "Y + W ~ X1 + csw(X2, X3) | F" "Y+W" "X1+csw(X2,X3)" "F"
            None _ _ [("F", ["Y"; "W"; "X1"; "X2"; "X3"])] "F"
            ["Y"; "W"; "X1"; "X2"; "X3"] _ _ _ _ _); reflexivity.
Defined.
